(** * scale.py: orchestration of a VASP scaling study on a remote batch service

    A shallow embedding of [src/scale.py].  The script expands a small table
    of sweep axes into named runs, submits one batch job per run, polls the
    jobs until they are terminal, reads one timing artifact per run from
    object storage and draws two charts.

    Remote services (the batch API, object storage, the file system, the
    plotting library) are oracles gathered in [Services]; every call to one of
    them is recorded in a trace.  The script's own variables that are mutated
    in place ([job_names], [times_line], [times_bar]) live in the machine
    state, so that what an exception leaves behind is visible.

    Taken as given: the module-level code that runs before [main] (client
    construction, [load_structure]); that [os.makedirs] and the matplotlib
    calls return; Python's [float] and [repr] of a [str] and the float values
    themselves, which are parameters; what pymatgen writes once
    [write_input] is called; and, of a job in its container, everything but
    the upload statement of its script.  The [while] loop of [main] has no bound in the source;
    here it takes the number of passes it may make and reports [Unfinished]
    when that number does not suffice. *)

From Stdlib Require Import ZArith List String Ascii Bool Arith Lia.
From Stdlib Require Import DecimalString DecimalZ DecimalPos Permutation.
Import ListNotations.

Open Scope string_scope.
Open Scope list_scope.

(** ** Python values *)

(** [str(n)] for an integer. *)
Definition str_int (z : Z) : string := NilZero.string_of_int (Z.to_int z).

Definition nl : string := String (ascii_of_nat 10) EmptyString.

(** A Python [dict] with string keys: insertion ordered, keys unique. *)
Definition dict (V : Type) : Type := list (string * V).

Fixpoint dict_get {V} (d : dict V) (k : string) : option V :=
  match d with
  | [] => None
  | (k', v) :: d' => if String.eqb k k' then Some v else dict_get d' k
  end.

(** [d[k] = v]: an existing key keeps its position, a new key goes last. *)
Fixpoint dict_set {V} (d : dict V) (k : string) (v : V) : dict V :=
  match d with
  | [] => [(k, v)]
  | (k', v') :: d' =>
      if String.eqb k k' then (k', v) :: d' else (k', v') :: dict_set d' k v
  end.

(** [{k: f(k) for k in keys}] *)
Definition dict_comprehension {V} (keys : list string) (f : string -> V) : dict V :=
  fold_left (fun d k => dict_set d k (f k)) keys [].

Definition dict_keys {V} (d : dict V) : list string := map fst d.

(** [l.pop(i)] for [i >= 0]: [None] stands for [IndexError]. *)
Fixpoint pop {A} (i : nat) (l : list A) : option (A * list A) :=
  match l, i with
  | [], _ => None
  | x :: l', O => Some (x, l')
  | x :: l', S i' =>
      match pop i' l' with
      | Some (y, r) => Some (y, x :: r)
      | None => None
      end
  end.

Fixpoint enumerate_from {A} (i : nat) (l : list A) : list (nat * A) :=
  match l with
  | [] => []
  | x :: l' => (i, x) :: enumerate_from (S i) l'
  end.

Definition enumerate {A} (l : list A) : list (nat * A) := enumerate_from 0 l.

Inductive exn : Type :=
| FileNotFoundError (msg : string)
| IndexError (msg : string)
| KeyError (key : string)
| ValueError (msg : string)
| ServiceError (msg : string).

(** [str(e)] as the f-strings of the script print it. *)
Definition str_exn (e : exn) : string :=
  match e with
  | FileNotFoundError m | IndexError m | ValueError m | ServiceError m => m
  | KeyError k => "'" ++ k ++ "'"
  end.

(** What a call into a library gives back. *)
Inductive reply (A : Type) : Type :=
| Returns (a : A)
| Raises (e : exn).
Arguments Returns {A} a.
Arguments Raises {A} e.

(** ** The batch API's messages, as far as [submit_batch_job] fills them *)

Module batch_v1.

Inductive State : Type :=
| STATE_UNSPECIFIED | QUEUED | SCHEDULED | RUNNING
| SUCCEEDED | FAILED | DELETION_IN_PROGRESS.

Record ComputeResource : Type :=
  { cpu_milli : Z; memory_mib : Z }.

Record Container : Type :=
  { image_uri : string; commands : list string }.

Record Runnable : Type :=
  { container : Container }.

Record TaskSpec : Type :=
  { runnables : list Runnable;
    max_retry_count : Z;
    compute_resource : ComputeResource }.

Record TaskGroup : Type :=
  { task_spec : TaskSpec; task_count : Z }.

Record Accelerator : Type :=
  { type_ : string; count : Z }.

Record InstancePolicy : Type :=
  { machine_type : string; accelerators : list Accelerator }.

Record AllocationPolicy : Type :=
  { instances : list InstancePolicy }.

Record Job : Type :=
  { name : string;
    allocation_policy : AllocationPolicy;
    task_groups : list TaskGroup }.

Record CreateJobRequest : Type :=
  { parent : string; job : Job }.

Definition terminal (s : State) : bool :=
  match s with
  | SUCCEEDED | FAILED => true
  | _ => false
  end.

End batch_v1.

(** ** Module-level configuration of scale.py *)

Definition PROJECT_ID : string := "vasp-scaling-analysis".
Definition LOCATION : string := "us-east1".
Definition BUCKET_NAME : string := "vasp-scaling-outputs".

Record KData : Type := { kpts : Z * Z * Z; nk : Z }.

(** The sweep tables.  [scale_py] below holds the values the script has. *)
Record Tables : Type :=
  { k_configs : dict KData;
    nodes_list : list Z;
    devices : list string;
    functionals : list string;
    node_for_bar : Z }.

Definition scale_py : Tables :=
  {| k_configs :=
       [ ("2x2x6", {| kpts := (2, 2, 6); nk := 16 |});
         ("3x3x9", {| kpts := (3, 3, 9); nk := 72 |});
         ("4x4x12", {| kpts := (4, 4, 12); nk := 100 |}) ]%Z;
     nodes_list := [1; 2]%Z;
     devices := ["CPU"];
     functionals := ["PBE"; "HSE06"];
     node_for_bar := 1%Z |}.

Definition vasp_cpu_cmd : string := "/usr/local/vasp/bin/vasp_std".
Definition vasp_gpu_cmd : string := "/usr/local/vasp/bin/vasp_gpu".
Definition gpus_per_node : Z := 4.
Definition cpus_per_node : Z := 40.
Definition container_image : string :=
  "us-central1-docker.pkg.dev/vasp-scaling-analysis/vasp-repo/vasp-pymatgen:latest".

(** The two f-strings that name a run. *)
Definition line_dir_name (device k_name : string) (nodes : Z) : string :=
  "run_line_" ++ device ++ "_" ++ k_name ++ "_" ++ str_int nodes.

Definition bar_dir_name (functional : string) : string :=
  "run_bar_" ++ functional ++ "_MySystem".

(** ** create_inputs: the settings handed to the input writer

    [user_kpoints_settings] is the grid density the input set is built with.
    [incar_updates] are the entries the script hands to [vis.incar.update]
    before it calls [vis.write_input]; whether they reach the files written
    is pymatgen's matter and is not modelled. *)

Inductive KptsArg : Type :=
| KptsNone
| KptsTuple (a b c : Z)
| KptsDensity (d : Z).

Definition user_kpoints_settings (k : KptsArg) : Z :=
  match k with
  | KptsNone => 1000
  | KptsTuple a b c => a * b * c * 100
  | KptsDensity d => if Z.eqb d 0 then 1000 else d
  end%Z.

Definition incar_updates (functional : string) : list (string * string) :=
  (if String.eqb functional "HSE06"
   then [ ("LHFCALC", "True"); ("HFSCREEN", "0.2"); ("AEXX", "0.25");
          ("AGGAX", "0.75"); ("AGGAC", "0.75"); ("ALDAC", "0.75");
          ("ALGO", "All") ]
   else [])
  ++ [ ("NSW", "50"); ("IBRION", "2"); ("ISIF", "3") ].

(** ** submit_batch_job: the job specification *)

(** The text handed to [python3 -c] in the container.  [script_text] is the
    f-string of the source, with the fields of [script_steps] pasted where
    the f-string has its fields.  What the text says once Python reads it is
    [read_script] below; for names without quote, backslash and control
    characters that is [script_steps] again ([read_script_text]). *)
Record Script : Type :=
  { chdir : string;
    solver_cmd : string;
    max_errors : Z;
    artifact_file : string;
    upload_bucket : string;
    upload_key : string }.

Definition script_steps (dir_name vasp_cmd : string) : Script :=
  {| chdir := dir_name;
     solver_cmd := vasp_cmd;
     max_errors := 10;
     artifact_file := "elapsed_time.txt";
     upload_bucket := BUCKET_NAME;
     upload_key := dir_name ++ "/elapsed_time.txt" |}.

Definition script_text (sc : Script) : string :=
  nl ++
  "import os" ++ nl ++
  "from custodian.vasp.jobs import VaspJob" ++ nl ++
  "from custodian.vasp.handlers import VaspErrorHandler" ++ nl ++
  "from custodian.custodian import Custodian" ++ nl ++
  "from pymatgen.io.vasp.outputs import Outcar" ++ nl ++
  "from google.cloud import storage" ++ nl ++
  nl ++
  "os.chdir('" ++ chdir sc ++ "')" ++ nl ++
  "job = VaspJob('" ++ solver_cmd sc ++ "'.split(), final=True, suffix='')" ++ nl ++
  "c = Custodian([VaspErrorHandler()], [job], max_errors="
     ++ str_int (max_errors sc) ++ ")" ++ nl ++
  "c.run()" ++ nl ++
  nl ++
  "# Parse time" ++ nl ++
  "outcar = Outcar('OUTCAR')" ++ nl ++
  "elapsed_time = outcar.run_stats['Total CPU time used (sec)'] / 3600" ++ nl ++
  "with open('" ++ artifact_file sc ++ "', 'w') as f:" ++ nl ++
  "    f.write(str(elapsed_time))" ++ nl ++
  nl ++
  "# Upload to GCS" ++ nl ++
  "storage.Client().bucket('" ++ upload_bucket sc ++ "').blob('" ++ upload_key sc
     ++ "').upload_from_filename('" ++ artifact_file sc ++ "')" ++ nl.

(** [ntasks] as the first line of [submit_batch_job] computes it. *)
Definition ntasks (nodes : Z) (device : string) : Z :=
  if String.eqb device "GPU" then (nodes * gpus_per_node)%Z
  else (nodes * cpus_per_node)%Z.

Import batch_v1.

Definition build_job (dir_name vasp_cmd : string) (nodes : Z) (device : string)
  : Job :=
  let ntasks := ntasks nodes device in
  let '(machine_type, compute_resource) :=
    if String.eqb device "GPU"
    then ("a2-highgpu-1g", {| cpu_milli := 12000; memory_mib := 87040 |})
    else ("n2-standard-4", {| cpu_milli := 4000; memory_mib := 16384 |}) in
  let runnable :=
    {| container :=
         {| image_uri := container_image;
            commands := ["python3"; "-c";
                         script_text (script_steps dir_name vasp_cmd)] |} |} in
  let task_spec :=
    {| runnables := [] ++ [runnable];
       max_retry_count := 3;
       compute_resource := compute_resource |} in
  let task_group := {| task_spec := task_spec; task_count := 1 |} in
  let instance_policy :=
    {| machine_type := machine_type;
       accelerators :=
         if String.eqb device "GPU"
         then [] ++ [ {| type_ := "nvidia-tesla-a100"; count := 1 |} ]
         else [] |} in
  {| name := "projects/" ++ PROJECT_ID ++ "/locations/" ++ LOCATION
             ++ "/jobs/" ++ dir_name;
     allocation_policy := {| instances := [] ++ [instance_policy] |};
     task_groups := [] ++ [task_group] |}.

Definition build_request (dir_name vasp_cmd : string) (nodes : Z) (device : string)
  : CreateJobRequest :=
  {| parent := "projects/" ++ PROJECT_ID ++ "/locations/" ++ LOCATION;
     job := build_job dir_name vasp_cmd nodes device |}.

(** ** Services, trace and machine state *)

(** How a run of (part of) the script ends: normally, with an exception, or
    not within the number of poll passes it was given. *)
Inductive Res (A : Type) : Type :=
| Ok (a : A)
| Exc (e : exn)
| Unfinished.
Arguments Ok {A} a.
Arguments Exc {A} e.
Arguments Unfinished {A}.

Section Machine.

(** Python floats stay abstract: the script only parses them, stores them
    and hands them to the plotting library. *)
Context {F : Type}.

(** Calls to matplotlib, in the order the script makes them. *)
Inductive PltCall : Type :=
| Subplots (width height : Z)
| AxPlot (xs : list Z) (ys : list (option F))
         (marker color linestyle label : string)
| AxBar (xs : list string) (heights : list F)
| AxText (elapsed_time : F)
| AxDecorate (xlabel ylabel title : string)
| AxLegend
| AxGrid
| AxLogScales
| TightLayout
| Savefig (file : string)
| PltClose.

Inductive Event : Type :=
| EPrint (line : string)
| EPathExists (path : string) (r : bool)
| EMakedirs (dir_name : string)
| EWriteInput (dir_name : string) (grid_density : Z)
              (incar_updates : list (string * string)) (r : reply unit)
| ECreateJob (request : CreateJobRequest) (r : reply string)
| EGetJob (job_name : string) (r : reply State)
| ESleep (seconds : Z)
| EBlobExists (bucket key : string) (r : reply bool)
| EDownloadAsText (bucket key : string) (r : reply string)
| EPlt (c : PltCall).

(** The world outside the script.  The batch service may answer differently
    from one call to the next, so its two operations see how many calls of
    that kind came before.  [float] is Python's [float] on a [str], [None]
    where it raises [ValueError]; [repr] is Python's [repr] of a [str], which
    that error's message holds. *)
Record Services : Type :=
  { path_exists : string -> bool;
    write_input : string -> reply unit;
    create_job : nat -> CreateJobRequest -> reply string;
    get_job : nat -> string -> reply State;
    blob_exists : string -> string -> reply bool;
    download_as_text : string -> string -> reply string;
    float : string -> option F;
    repr : string -> string }.

Record Machine : Type :=
  { trace : list Event;
    creates : nat;
    polls : nat;
    job_names : list (string * string);
    times_line : dict (dict (list (option F)));
    times_bar : dict (option F) }.

Definition boot : Machine :=
  {| trace := []; creates := 0; polls := 0;
     job_names := []; times_line := []; times_bar := [] |}.

Definition log (e : Event) (m : Machine) : Machine :=
  {| trace := trace m ++ [e]; creates := creates m; polls := polls m;
     job_names := job_names m; times_line := times_line m;
     times_bar := times_bar m |}.

Definition set_job_names (l : list (string * string)) (m : Machine) : Machine :=
  {| trace := trace m; creates := creates m; polls := polls m;
     job_names := l; times_line := times_line m; times_bar := times_bar m |}.

Definition set_times_line (t : dict (dict (list (option F)))) (m : Machine)
  : Machine :=
  {| trace := trace m; creates := creates m; polls := polls m;
     job_names := job_names m; times_line := t; times_bar := times_bar m |}.

Definition set_times_bar (t : dict (option F)) (m : Machine) : Machine :=
  {| trace := trace m; creates := creates m; polls := polls m;
     job_names := job_names m; times_line := times_line m; times_bar := t |}.

Definition tick_creates (m : Machine) : Machine :=
  {| trace := trace m; creates := S (creates m); polls := polls m;
     job_names := job_names m; times_line := times_line m;
     times_bar := times_bar m |}.

Definition tick_polls (m : Machine) : Machine :=
  {| trace := trace m; creates := creates m; polls := S (polls m);
     job_names := job_names m; times_line := times_line m;
     times_bar := times_bar m |}.

(** ** The monad of the script: state that survives an exception *)

Definition M (A : Type) : Type := Machine -> Res A * Machine.

Definition ret {A} (a : A) : M A := fun m => (Ok a, m).

Definition bind {A B} (c : M A) (k : A -> M B) : M B :=
  fun m =>
    match c m with
    | (Ok a, m') => k a m'
    | (Exc e, m') => (Exc e, m')
    | (Unfinished, m') => (Unfinished, m')
    end.

Definition raise {A} (e : exn) : M A := fun m => (Exc e, m).

(** [try: body  except Exception as e: handler(e)] *)
Definition try_except {A} (body : M A) (handler : exn -> M A) : M A :=
  fun m =>
    match body m with
    | (Exc e, m') => handler e m'
    | r => r
    end.

Definition emit (e : Event) : M unit := fun m => (Ok tt, log e m).

Definition print (line : string) : M unit := emit (EPrint line).

Definition plt (c : PltCall) : M unit := emit (EPlt c).

Definition of_reply {A} (r : reply A) : M A :=
  match r with
  | Returns a => ret a
  | Raises e => raise e
  end.

Definition of_option {A} (o : option A) (e : exn) : M A :=
  match o with
  | Some a => ret a
  | None => raise e
  end.

Notation "x <- c ;; k" := (bind c (fun x => k))
  (at level 61, c at next level, right associativity).
Notation "c ;;; k" := (bind c (fun _ => k))
  (at level 61, right associativity).

Fixpoint for_each {A} (l : list A) (body : A -> M unit) : M unit :=
  match l with
  | [] => ret tt
  | x :: l' => body x ;;; for_each l' body
  end.

Variable sv : Services.
Variable tb : Tables.

(** ** validate_config *)

Definition validate_config : M unit :=
  (if String.eqb PROJECT_ID "vasp-scaling-analysis"
   then print "Using default project ID: vasp-scaling-analysis"
   else ret tt) ;;;
  (if String.eqb BUCKET_NAME "vasp-scaling-outputs"
   then print "Using default bucket name: vasp-scaling-outputs"
   else ret tt) ;;;
  let found := path_exists sv "POSCAR" in
  emit (EPathExists "POSCAR" found) ;;;
  if negb found
  then raise (FileNotFoundError
    "POSCAR file not found. Please ensure POSCAR is in the current directory.")
  else ret tt.

(** ** create_inputs *)

Definition create_inputs (dir_name : string) (kpts : KptsArg)
           (functional : string) : M unit :=
  emit (EMakedirs dir_name) ;;;
  let r := write_input sv dir_name in
  emit (EWriteInput dir_name (user_kpoints_settings kpts)
                    (incar_updates functional) r) ;;;
  of_reply r.

(** ** submit_batch_job *)

Definition submit_batch_job (dir_name vasp_cmd : string) (nodes : Z)
           (device : string) : M string :=
  let request := build_request dir_name vasp_cmd nodes device in
  fun m =>
    let r := create_job sv (creates m) request in
    (emit (ECreateJob request r) ;;;
     created_job_name <- of_reply r ;;
     print ("Submitted job: " ++ created_job_name) ;;;
     ret created_job_name) (tick_creates m).

Definition job_names_append (entry : string * string) : M unit :=
  fun m => (Ok tt, set_job_names (job_names m ++ [entry]) m).

(** ** main, lines 186-206: create inputs and submit jobs *)

Definition submit_line_run (k_name : string) (k_data : KData)
           (device : string) (nodes : Z) : M unit :=
  let dir_name := line_dir_name device k_name nodes in
  (let '(a, b, c) := kpts k_data in
   create_inputs dir_name (KptsTuple a b c) "PBE") ;;;
  let vasp_cmd :=
    if String.eqb device "GPU" then vasp_gpu_cmd else vasp_cpu_cmd in
  job_name <- submit_batch_job dir_name vasp_cmd nodes device ;;
  job_names_append (dir_name, job_name).

Definition submit_bar_run (functional : string) : M unit :=
  let dir_name := bar_dir_name functional in
  create_inputs dir_name KptsNone functional ;;;
  let vasp_cmd := vasp_gpu_cmd in
  job_name <- submit_batch_job dir_name vasp_cmd (node_for_bar tb) "GPU" ;;
  job_names_append (dir_name, job_name).

Definition submit_all : M unit :=
  print (nl ++ "Submitting line plot jobs...") ;;;
  for_each (k_configs tb) (fun '(k_name, k_data) =>
    for_each (devices tb) (fun device =>
      for_each (nodes_list tb) (fun nodes =>
        submit_line_run k_name k_data device nodes))) ;;;
  print (nl ++ "Submitting bar plot jobs...") ;;;
  for_each (functionals tb) submit_bar_run ;;;
  fun m =>
    print (nl ++ "Submitted " ++ str_int (Z.of_nat (List.length (job_names m)))
           ++ " jobs. Waiting for completion...") m.

(** ** main, lines 208-220: wait for all jobs to complete *)

Definition job_names_pop (i : nat) : M unit :=
  fun m =>
    match pop i (job_names m) with
    | Some (_, rest) => (Ok tt, set_job_names rest m)
    | None => (Exc (IndexError "pop index out of range"), m)
    end.

Definition call_get_job (job_name : string) : M State :=
  fun m =>
    let r := get_job sv (polls m) job_name in
    (emit (EGetJob job_name r) ;;; of_reply r) (tick_polls m).

(** The body of the [for] loop at lines 210-217. *)
Definition poll_entry (ie : nat * (string * string)) : M unit :=
  let '(i, (dir_name, job_name)) := ie in
  state <- call_get_job job_name ;;
  match state with
  | SUCCEEDED =>
      print ("Job " ++ dir_name ++ " completed.") ;;;
      job_names_pop i
  | FAILED =>
      print ("Job " ++ dir_name ++ " failed.") ;;;
      job_names_pop i
  | _ => ret tt
  end.

(** One pass: the [for] runs over the copy [job_names[:]] taken when the
    pass starts, while [pop] acts on [job_names] itself. *)
Definition poll_pass : M unit :=
  fun m =>
    (for_each (enumerate (job_names m)) poll_entry ;;;
     fun m' =>
       match job_names m' with
       | [] => ret tt m'
       | _ :: _ =>
           (print ("Still waiting for "
                   ++ str_int (Z.of_nat (List.length (job_names m'))) ++ " jobs...") ;;;
            emit (ESleep 60)) m'
       end) m.

(** [while job_names: ...], with [fuel] bounding the number of passes. *)
Fixpoint wait_for_jobs (fuel : nat) : M unit :=
  fun m =>
    match job_names m with
    | [] => ret tt m
    | _ :: _ =>
        match fuel with
        | O => (Unfinished, m)
        | S fuel' => (poll_pass ;;; wait_for_jobs fuel') m
        end
    end.

(** ** main, lines 224-254: collect data from object storage *)

Definition call_blob_exists (bucket key : string) : M bool :=
  let r := blob_exists sv bucket key in
  emit (EBlobExists bucket key r) ;;; of_reply r.

Definition call_download_as_text (bucket key : string) : M string :=
  let r := download_as_text sv bucket key in
  emit (EDownloadAsText bucket key r) ;;; of_reply r.

(** [float(text)]; the message of its [ValueError] ends in [repr(text)]. *)
Definition call_float (text : string) : M F :=
  of_option (float sv text)
    (ValueError ("could not convert string to float: " ++ repr sv text)).

(** [times_line[device][k_name].append(t)] *)
Definition times_line_append (device k_name : string) (t : option F) : M unit :=
  fun m =>
    match dict_get (times_line m) device with
    | None => (Exc (KeyError device), m)
    | Some series =>
        match dict_get series k_name with
        | None => (Exc (KeyError k_name), m)
        | Some times =>
            (Ok tt,
             set_times_line
               (dict_set (times_line m) device
                  (dict_set series k_name (times ++ [t]))) m)
        end
    end.

(** [times_bar[functional] = t] *)
Definition times_bar_set (functional : string) (t : option F) : M unit :=
  fun m => (Ok tt, set_times_bar (dict_set (times_bar m) functional t) m).

(** The [try] statement at lines 230-240. *)
Definition collect_line_run (device k_name : string) (nodes : Z) : M unit :=
  let dir_name := line_dir_name device k_name nodes in
  try_except
    (found <- call_blob_exists BUCKET_NAME (dir_name ++ "/elapsed_time.txt") ;;
     if found : bool
     then
       text <- call_download_as_text BUCKET_NAME
                 (dir_name ++ "/elapsed_time.txt") ;;
       t <- call_float text ;;
       times_line_append device k_name (Some t)
     else
       print ("Warning: No elapsed_time.txt found for " ++ dir_name) ;;;
       times_line_append device k_name None)
    (fun e =>
       print ("Error reading data for " ++ dir_name ++ ": " ++ str_exn e) ;;;
       times_line_append device k_name None).

(** The [try] statement at lines 245-254. *)
Definition collect_bar_run (functional : string) : M unit :=
  let dir_name := bar_dir_name functional in
  try_except
    (found <- call_blob_exists BUCKET_NAME (dir_name ++ "/elapsed_time.txt") ;;
     if found : bool
     then
       text <- call_download_as_text BUCKET_NAME
                 (dir_name ++ "/elapsed_time.txt") ;;
       t <- call_float text ;;
       times_bar_set functional (Some t)
     else
       print ("Warning: No elapsed_time.txt found for " ++ dir_name) ;;;
       times_bar_set functional None)
    (fun e =>
       print ("Error reading data for " ++ dir_name ++ ": " ++ str_exn e) ;;;
       times_bar_set functional None).

Definition init_times_line : dict (dict (list (option F))) :=
  dict_comprehension (devices tb) (fun _ =>
    dict_comprehension (dict_keys (k_configs tb)) (fun _ => [])).

Definition collect_results : M unit :=
  (fun m => (Ok tt, set_times_line init_times_line m)) ;;;
  for_each (devices tb) (fun device =>
    for_each (dict_keys (k_configs tb)) (fun k_name =>
      for_each (nodes_list tb) (fun nodes =>
        collect_line_run device k_name nodes))) ;;;
  (fun m => (Ok tt, set_times_bar [] m)) ;;;
  for_each (functionals tb) collect_bar_run.

(** ** main, lines 256-326: generate plots *)

Definition colors : list string := ["#1f77b4"; "#ff7f0e"; "#2ca02c"].
Definition markers : list string := ["o"; "s"; "^"].

(** [l[i]] for [i >= 0] *)
Definition getitem {A} (l : list A) (i : nat) : M A :=
  of_option (nth_error l i) (IndexError "list index out of range").

Fixpoint map_m {A B} (f : A -> M B) (l : list A) : M (list B) :=
  match l with
  | [] => ret []
  | x :: l' => y <- f x ;; ys <- map_m f l' ;; ret (y :: ys)
  end.

(** [[idx for idx, t in enumerate(times) if t is not None]] *)
Definition valid_indices (times : list (option F)) : list nat :=
  map fst (filter (fun '(_, t) => match t with Some _ => true | None => false end)
                  (enumerate times)).

(** The body of the loops at lines 264-279. *)
Definition plot_series (i : nat) (k_name : string) (device : string) : M unit :=
  fun m =>
    (series <- of_option (dict_get (times_line m) device) (KeyError device) ;;
     times <- of_option (dict_get series k_name) (KeyError k_name) ;;
     let valid_indices := valid_indices times in
     match valid_indices with
     | [] => ret tt
     | _ :: _ =>
         valid_times <- map_m (getitem times) valid_indices ;;
         valid_nodes <- map_m (getitem (nodes_list tb)) valid_indices ;;
         let label := (device ++ " - " ++ k_name)%string in
         marker <- getitem markers i ;;
         color <- getitem colors i ;;
         plt (AxPlot valid_nodes valid_times marker color
                     (if String.eqb device "CPU" then "-" else "--") label)
     end) m.

Definition plot_figure_a : M unit :=
  plt (Subplots 10 6) ;;;
  for_each (enumerate (k_configs tb)) (fun '(i, (k_name, _)) =>
    for_each (enumerate (devices tb)) (fun '(_, device) =>
      plot_series i k_name device)) ;;;
  plt (AxDecorate "Number of Nodes" "Time (hours)" "VASP Scaling Performance") ;;;
  plt AxLegend ;;;
  plt AxGrid ;;;
  plt AxLogScales ;;;
  plt TightLayout ;;;
  plt (Savefig "figure_a.png") ;;;
  plt PltClose.

(** The loop at lines 297-300, as the pairs it keeps. *)
Fixpoint present_items (d : dict (option F)) : list (string * F) :=
  match d with
  | [] => []
  | (functional, Some elapsed_time) :: d' =>
      (functional, elapsed_time) :: present_items d'
  | (_, None) :: d' => present_items d'
  end.

Definition plot_figure_b : M unit :=
  plt (Subplots 8 6) ;;;
  fun m =>
    (let items := present_items (times_bar m) in
     let functionals_list := map fst items in
     let times_list := map snd items in
     match functionals_list with
     | _ :: _ =>
         plt (AxBar functionals_list times_list) ;;;
         for_each times_list (fun elapsed_time => plt (AxText elapsed_time)) ;;;
         plt (AxDecorate "Functional" "Time (hours)"
                         "VASP Performance: PBE vs HSE06") ;;;
         plt AxGrid ;;;
         plt TightLayout ;;;
         plt (Savefig "figure_b.png") ;;;
         plt PltClose
     | [] => print "Warning: No valid data available for bar plot"
     end) m.

Definition generate_plots : M unit :=
  plot_figure_a ;;;
  plot_figure_b ;;;
  print "Plots saved as figure_a.png and figure_b.png" ;;;
  print (nl ++ "VASP scaling analysis completed successfully!").

(** ** main *)

Definition main (fuel : nat) : M unit :=
  try_except
    (validate_config ;;;
     (fun m => (Ok tt, set_job_names [] m)) ;;;
     print "Starting VASP scaling analysis..." ;;;
     print ("Project ID: " ++ PROJECT_ID) ;;;
     print ("Location: " ++ LOCATION) ;;;
     print ("Bucket: " ++ BUCKET_NAME) ;;;
     submit_all ;;;
     wait_for_jobs fuel ;;;
     print (nl ++ "All jobs completed. Collecting results...") ;;;
     collect_results ;;;
     print (nl ++ "Generating plots...") ;;;
     generate_plots)
    (fun e =>
       print ("Error in main execution: " ++ str_exn e) ;;;
       raise e).

End Machine.

Arguments Event : clear implicits.
Arguments Services : clear implicits.
Arguments Machine : clear implicits.
Arguments PltCall : clear implicits.
Arguments M : clear implicits.

(** ** Notions the statements below are written with *)

(** One entry of the run matrix: what the two submission loops hand to
    [create_inputs] and [submit_batch_job]. *)
Record Run : Type :=
  { dir_name : string;
    kpts_arg : KptsArg;
    functional : string;
    vasp_cmd : string;
    nodes : Z;
    device : string }.

Definition line_run (k : string * KData) (device : string) (nodes : Z) : Run :=
  {| dir_name := line_dir_name device (fst k) nodes;
     kpts_arg := (let '(a, b, c) := kpts (snd k) in KptsTuple a b c);
     functional := "PBE";
     vasp_cmd := if String.eqb device "GPU" then vasp_gpu_cmd else vasp_cpu_cmd;
     nodes := nodes;
     device := device |}.

Definition bar_run (tb : Tables) (functional : string) : Run :=
  {| dir_name := bar_dir_name functional;
     kpts_arg := KptsNone;
     functional := functional;
     vasp_cmd := vasp_gpu_cmd;
     nodes := node_for_bar tb;
     device := "GPU" |}.

(** The line study as the full cross product density x device x node count,
    leftmost axis slowest, followed by one run per functional. *)
Definition line_matrix (tb : Tables) : list (string * KData * string * Z) :=
  list_prod (list_prod (k_configs tb) (devices tb)) (nodes_list tb).

Definition run_matrix (tb : Tables) : list Run :=
  map (fun '(k, device, nodes) => line_run k device nodes) (line_matrix tb)
  ++ map (bar_run tb) (functionals tb).

Definition run_names (tb : Tables) : list string :=
  map dir_name (run_matrix tb).

Definition request_of (r : Run) : CreateJobRequest :=
  build_request (dir_name r) (vasp_cmd r) (nodes r) (device r).

(** Every number held by a job specification. *)
Definition job_numbers (j : Job) : list Z :=
  flat_map (fun g =>
    task_count g :: max_retry_count (task_spec g)
    :: cpu_milli (compute_resource (task_spec g))
    :: memory_mib (compute_resource (task_spec g)) :: []) (task_groups j)
  ++ flat_map (fun p => map count (accelerators p))
       (instances (allocation_policy j)).

Section Observations.

Context {F : Type}.
Variable sv : Services F.

(** The loop body shared by the two submission loops. *)
Definition submit_run (r : Run) : M F unit :=
  bind (create_inputs sv (dir_name r) (kpts_arg r) (functional r)) (fun _ =>
  bind (submit_batch_job sv (dir_name r) (vasp_cmd r) (nodes r) (device r))
       (fun job_name => job_names_append (dir_name r, job_name))).

(** What the [i]-th [CreateJob] call of a run leaves in the trace. *)
Definition submission_events (ir : nat * Run) : list (Event F) :=
  let '(i, r) := ir in
  [ EMakedirs (dir_name r);
    EWriteInput (dir_name r) (user_kpoints_settings (kpts_arg r))
                (incar_updates (functional r)) (write_input sv (dir_name r)) ]
  ++ match write_input sv (dir_name r) with
     | Raises _ => []
     | Returns _ =>
         ECreateJob (request_of r) (create_job sv i (request_of r))
         :: match create_job sv i (request_of r) with
            | Returns job_name => [EPrint ("Submitted job: " ++ job_name)]
            | Raises _ => []
            end
     end.

Definition accepted (ir : nat * Run) : Prop :=
  write_input sv (dir_name (snd ir)) = Returns tt
  /\ exists job_name,
       create_job sv (fst ir) (request_of (snd ir)) = Returns job_name.

Definition handle_of (ir : nat * Run) : string * string :=
  (dir_name (snd ir),
   match create_job sv (fst ir) (request_of (snd ir)) with
   | Returns job_name => job_name
   | Raises _ => ""
   end).

(** The machine once [runs] have all been submitted and accepted. *)
Definition after_submissions (runs : list Run) (m : Machine F) : Machine F :=
  {| trace :=
       trace m ++ flat_map submission_events (enumerate_from (creates m) runs);
     creates := creates m + List.length runs;
     polls := polls m;
     job_names :=
       job_names m ++ map handle_of (enumerate_from (creates m) runs);
     times_line := times_line m;
     times_bar := times_bar m |}.

(** The value the collector ends up with for one run name. *)
Definition artifact_value (dir_name : string) : option F :=
  match blob_exists sv BUCKET_NAME (dir_name ++ "/elapsed_time.txt") with
  | Returns true =>
      match download_as_text sv BUCKET_NAME (dir_name ++ "/elapsed_time.txt") with
      | Returns text => float sv text
      | Raises _ => None
      end
  | _ => None
  end.

(** [times_line[device][k_name]], when both keys are there. *)
Definition series_of (m : Machine F) (device k_name : string)
  : option (list (option F)) :=
  match dict_get (times_line m) device with
  | Some series => dict_get series k_name
  | None => None
  end.

(** The [GetJob] calls of a trace with what each one observed. *)
Fixpoint polled (t : list (Event F)) : list (string * reply State) :=
  match t with
  | [] => []
  | EGetJob job_name r :: t' => (job_name, r) :: polled t'
  | _ :: t' => polled t'
  end.

Fixpoint printed (t : list (Event F)) : list string :=
  match t with
  | [] => []
  | EPrint line :: t' => line :: printed t'
  | _ :: t' => printed t'
  end.

Fixpoint saved_figures (t : list (Event F)) : list string :=
  match t with
  | [] => []
  | EPlt (Savefig file) :: t' => file :: saved_figures t'
  | _ :: t' => saved_figures t'
  end.

Fixpoint create_requests (t : list (Event F)) : list CreateJobRequest :=
  match t with
  | [] => []
  | ECreateJob request _ :: t' => request :: create_requests t'
  | _ :: t' => create_requests t'
  end.

Fixpoint materialized (t : list (Event F)) : list string :=
  match t with
  | [] => []
  | EMakedirs d :: t' => d :: materialized t'
  | _ :: t' => materialized t'
  end.

Definition is_submission_event (e : Event F) : bool :=
  match e with
  | EPrint _ | EPathExists _ _ | EMakedirs _ | EWriteInput _ _ _ _
  | ECreateJob _ _ => true
  | _ => false
  end.

End Observations.

(** The (node count, value) pairs of a series that has a value. *)
Fixpoint present_pairs {F} (nodes : list Z) (times : list (option F))
  : list (Z * F) :=
  match nodes, times with
  | n :: nodes', Some t :: times' => (n, t) :: present_pairs nodes' times'
  | _ :: nodes', None :: times' => present_pairs nodes' times'
  | _, _ => []
  end.

(** ** A small world to run the script in *)

Module Demo.

Definition is_digit (c : ascii) : bool :=
  Nat.leb 48 (nat_of_ascii c) && Nat.leb (nat_of_ascii c) 57.

Fixpoint digits (s : string) : bool :=
  match s with
  | EmptyString => true
  | String c s' => is_digit c && digits s'
  end.

(** A [float] for the examples: decimal literals [d+] and [d+.d+], a float
    being kept as its literal.  Python's [float] accepts these texts and
    others (signs, exponents, blanks, [inf], [nan]) that no example uses. *)
Fixpoint decimal (seen : bool) (s : string) : bool :=
  match s with
  | EmptyString => seen
  | String c s' =>
      if is_digit c then decimal true s'
      else if Ascii.eqb c "." then
             seen && negb (String.eqb s' "") && digits s'
           else false
  end.

Definition parse (text : string) : option string :=
  if decimal false text then Some text else None.

(** [repr] of a text without quotes, backslashes and control characters. *)
Definition quoted (text : string) : string := "'" ++ text ++ "'".

(** A batch service that names jobs by arrival and reports [state_of], and
    a bucket holding [store]. *)
Definition services (state_of : nat -> string -> State)
           (store : string -> string -> option string) : Services string :=
  {| path_exists := fun _ => true;
     write_input := fun _ => Returns tt;
     create_job := fun i _ => Returns ("jobs/" ++ str_int (Z.of_nat i))%string;
     get_job := fun n job_name => Returns (state_of n job_name);
     blob_exists := fun bucket key =>
       Returns (match store bucket key with Some _ => true | None => false end);
     download_as_text := fun bucket key =>
       match store bucket key with
       | Some text => Returns text
       | None => Raises (ServiceError "404 No such object")
       end;
     float := parse;
     repr := quoted |}.

Definition empty_store : string -> string -> option string :=
  fun _ _ => None.

(** Every job is already terminal when first polled. *)
Definition all_succeeded : nat -> string -> State := fun _ _ => SUCCEEDED.

(** The first two jobs are done, the others keep running. *)
Definition two_done : nat -> string -> State :=
  fun _ job_name =>
    if String.eqb job_name "jobs/0" || String.eqb job_name "jobs/1"
    then SUCCEEDED else RUNNING.

(** Jobs finish one poll pass apart, in submission order: the service is
    asked once per job still listed, so that the calls of pass [p] (from 0)
    are numbered from [8p - p(p-1)/2]. *)
Definition one_per_pass : nat -> string -> State :=
  fun n job_name =>
    if existsb (fun '(first_call, finished) =>
                  Nat.leb first_call n && String.eqb job_name finished)
         [ (0, "jobs/0"); (8, "jobs/1"); (15, "jobs/2"); (21, "jobs/3");
           (26, "jobs/4"); (30, "jobs/5"); (33, "jobs/6"); (35, "jobs/7") ]
    then SUCCEEDED else RUNNING.

(** The service refuses the [k]-th submission. *)
Definition refusing (k : nat) : Services string :=
  {| path_exists := fun _ => true;
     write_input := fun _ => Returns tt;
     create_job := fun i _ =>
       if Nat.eqb i k then Raises (ServiceError "429 Quota exceeded")
       else Returns ("jobs/" ++ str_int (Z.of_nat i))%string;
     get_job := fun _ _ => Returns RUNNING;
     blob_exists := fun _ _ => Returns false;
     download_as_text := fun _ _ => Raises (ServiceError "404 No such object");
     float := parse;
     repr := quoted |}.

(** Collection found no artifact at all. *)
Definition nothing_collected : Machine string :=
  {| trace := []; creates := 8; polls := 36; job_names := [];
     times_line :=
       [ ("CPU", [ ("2x2x6", [None; None]); ("3x3x9", [None; None]);
                   ("4x4x12", [None; None]) ]) ];
     times_bar := [ ("PBE", None); ("HSE06", None) ] |}.

End Demo.

(** ** What collection and plotting leave behind *)

Section Outcomes.

Context {F : Type}.
Variable sv : Services F.
Variable tb : Tables.

(** [m'] differs from [m] in that every series that exists got [extra]
    appended. *)
Definition collected (m m' : Machine F)
           (extra : string -> string -> list (option F)) : Prop :=
  (forall d k,
      series_of m' d k = option_map (fun ts => ts ++ extra d k) (series_of m d k))
  /\ job_names m' = job_names m
  /\ times_bar m' = times_bar m.

Definition on_series (device k_name : string) (l : list (option F))
  : string -> string -> list (option F) :=
  fun d k => if String.eqb d device && String.eqb k k_name then l else [].

Definition line_value (device k_name : string) (nodes : Z) : option F :=
  artifact_value sv (line_dir_name device k_name nodes).

(** What the three collection loops append to [times_line[d][k]]. *)
Definition line_extra (d k : string) : list (option F) :=
  flat_map (fun device =>
    flat_map (fun k_name =>
      flat_map (fun nodes =>
        on_series device k_name [line_value device k_name nodes] d k)
        (nodes_list tb))
      (dict_keys (k_configs tb)))
    (devices tb).

Definition bar_value (functional : string) : option F :=
  artifact_value sv (bar_dir_name functional).

Definition indices_from (i : nat) (times : list (option F)) : list nat :=
  map fst (filter (fun '(_, t) => match t with Some _ => true | None => false end)
                  (enumerate_from i times)).

Definition extend (t : list (Event F)) (m : Machine F) : Machine F :=
  {| trace := trace m ++ t; creates := creates m; polls := polls m;
     job_names := job_names m; times_line := times_line m;
     times_bar := times_bar m |}.

(** What [plot_series] draws for one (density, device) pair. *)
Definition series_plot (m : Machine F) (i : nat) (k_name device : string)
  : list (Event F) :=
  match series_of m device k_name with
  | Some times =>
      match present_pairs (nodes_list tb) times with
      | [] => []
      | pp =>
          [ EPlt (AxPlot (map fst pp) (map (fun p => Some (snd p)) pp)
                         (nth i markers "") (nth i colors "")
                         (if String.eqb device "CPU" then "-" else "--")
                         (device ++ " - " ++ k_name)%string) ]
      end
  | None => []
  end.

Definition figure_a_events (m : Machine F) : list (Event F) :=
  [EPlt (Subplots 10 6)]
  ++ flat_map (fun '(i, (k_name, _)) =>
       flat_map (fun '(_, device) => series_plot m i k_name device)
                (enumerate (devices tb)))
       (enumerate (k_configs tb))
  ++ [ EPlt (AxDecorate "Number of Nodes" "Time (hours)"
                        "VASP Scaling Performance");
       EPlt AxLegend; EPlt AxGrid; EPlt AxLogScales; EPlt TightLayout;
       EPlt (Savefig "figure_a.png"); EPlt PltClose ].

Definition figure_b_events (m : Machine F) : list (Event F) :=
  EPlt (Subplots 8 6)
  :: match present_items (times_bar m) with
     | [] => [EPrint "Warning: No valid data available for bar plot"]
     | items =>
         EPlt (AxBar (map fst items) (map snd items))
         :: map (fun elapsed_time => EPlt (AxText elapsed_time)) (map snd items)
         ++ [ EPlt (AxDecorate "Functional" "Time (hours)"
                               "VASP Performance: PBE vs HSE06");
              EPlt AxGrid; EPlt TightLayout;
              EPlt (Savefig "figure_b.png"); EPlt PltClose ]
     end.

Definition plots_events (m : Machine F) : list (Event F) :=
  figure_a_events m ++ figure_b_events m
  ++ [ EPrint "Plots saved as figure_a.png and figure_b.png";
       EPrint (nl ++ "VASP scaling analysis completed successfully!") ].

(** Every series the line chart reads exists and is no longer than the
    node list; there is a marker for every density. *)
Definition plottable (m : Machine F) : Prop :=
  List.length (k_configs tb) <= 3
  /\ forall d k, In d (devices tb) -> In k (dict_keys (k_configs tb)) ->
       exists times, series_of m d k = Some times
                     /\ List.length times <= List.length (nodes_list tb).

End Outcomes.

(** ** The bucket as a store, and what step (d) of a job's script does to it *)

Definition Store : Type := string -> string -> option string.

Definition put (bucket key text : string) (s : Store) : Store :=
  fun b k =>
    if String.eqb b bucket && String.eqb k key then Some text else s b k.

(** [blob(key).upload_from_filename(artifact_file)] with [text] in the file. *)
Definition run_upload (sc : Script) (text : string) (s : Store) : Store :=
  put (upload_bucket sc) (upload_key sc) text s.

(** ** The script, as [python3 -c] reads it *)

(** Printable ASCII. *)
Definition printable (c : ascii) : bool :=
  Nat.leb 32 (nat_of_ascii c) && Nat.leb (nat_of_ascii c) 126.

(** A character that stands for itself inside a single-quoted literal. *)
Definition plain_char (c : ascii) : bool :=
  printable c && negb (Ascii.eqb c "'") && negb (Ascii.eqb c "\").

Fixpoint plain (s : string) : bool :=
  match s with
  | EmptyString => true
  | String c s' => plain_char c && plain s'
  end.

(** The one-character escapes: a backslash before a backslash, before
    either quote, and before one of [a b f n r t v]. *)
Definition simple_escape (e : ascii) : option ascii :=
  if Ascii.eqb e "\" then Some "\"%char
  else if Ascii.eqb e "'" then Some "'"%char
  else if Ascii.eqb e "034" then Some "034"%char
  else if Ascii.eqb e "a" then Some "007"%char
  else if Ascii.eqb e "b" then Some "008"%char
  else if Ascii.eqb e "f" then Some "012"%char
  else if Ascii.eqb e "n" then Some "010"%char
  else if Ascii.eqb e "r" then Some "013"%char
  else if Ascii.eqb e "t" then Some "009"%char
  else if Ascii.eqb e "v" then Some "011"%char
  else None.

Definition hex_digit (c : ascii) : option nat :=
  let n := nat_of_ascii c in
  if Nat.leb 48 n && Nat.leb n 57 then Some (n - 48)
  else if Nat.leb 97 n && Nat.leb n 102 then Some (n - 87)
  else if Nat.leb 65 n && Nat.leb n 70 then Some (n - 55)
  else None.

(** Escapes whose value this reading does not work out: an octal digit,
    [N], [u] or [U] after the backslash. *)
Definition other_escape (e : ascii) : bool :=
  (Nat.leb 48 (nat_of_ascii e) && Nat.leb (nat_of_ascii e) 55)
  || Ascii.eqb e "N" || Ascii.eqb e "u" || Ascii.eqb e "U".

Definition with_char (c : ascii) (r : option (string * string))
  : option (string * string) :=
  match r with
  | Some (v, rest) => Some (String c v, rest)
  | None => None
  end.

(** The value of a single-quoted string literal of Python, read from the
    character after the opening quote; with it, the text that follows the
    closing quote.  [None] where the text is no such literal (it ends, or a
    line ends, before the closing quote) and where this reading stops short:
    at a character outside printable ASCII, at an escape of [other_escape]
    and at a hexadecimal escape above [7f]. *)
Fixpoint read_literal (s : string) : option (string * string) :=
  match s with
  | EmptyString => None
  | String c s1 =>
      if Ascii.eqb c "'" then Some (EmptyString, s1)
      else if Ascii.eqb c "\" then
        match s1 with
        | EmptyString => None
        | String e s2 =>
            match simple_escape e with
            | Some a => with_char a (read_literal s2)
            | None =>
                if Ascii.eqb e "x" then
                  match s2 with
                  | String h1 (String h2 s3) =>
                      match hex_digit h1, hex_digit h2 with
                      | Some a, Some b =>
                          if Nat.ltb a 8
                          then with_char (ascii_of_nat (16 * a + b))
                                         (read_literal s3)
                          else None
                      | _, _ => None
                      end
                  | _ => None
                  end
                else if other_escape e then None
                else if printable e
                     then with_char "\" (with_char e (read_literal s2))
                     else None
            end
        end
      else if printable c then with_char c (read_literal s1)
      else None
  end.

(** The lines of a text. *)
Fixpoint lines (s : string) : list string :=
  match s with
  | EmptyString => [EmptyString]
  | String c s' =>
      if Ascii.eqb c "010" then EmptyString :: lines s'
      else match lines s' with
           | l :: ls => String c l :: ls
           | [] => [String c EmptyString]
           end
  end.

Fixpoint strip_prefix (p s : string) : option string :=
  match p with
  | EmptyString => Some s
  | String a p' =>
      match s with
      | String b s' => if Ascii.eqb a b then strip_prefix p' s' else None
      | EmptyString => None
      end
  end.

(** A statement [before'literal'after] with one literal. *)
Definition read_statement (before after : string) (line : string)
  : option string :=
  match strip_prefix before line with
  | Some r =>
      match read_literal r with
      | Some (v, rest) => if String.eqb rest after then Some v else None
      | None => None
      end
  | None => None
  end.

(** The upload statement, with its three literals: bucket, key, file. *)
Definition read_upload (line : string) : option (string * string * string) :=
  match strip_prefix "storage.Client().bucket('" line with
  | Some r0 =>
      match read_literal r0 with
      | Some (bucket, r1) =>
          match strip_prefix ").blob('" r1 with
          | Some r2 =>
              match read_literal r2 with
              | Some (key, r3) =>
                  match strip_prefix ").upload_from_filename('" r3 with
                  | Some r4 =>
                      match read_literal r4 with
                      | Some (file, r5) =>
                          if String.eqb r5 ")" then Some (bucket, key, file)
                          else None
                      | None => None
                      end
                  | None => None
                  end
              | None => None
              end
          | None => None
          end
      | None => None
      end
  | None => None
  end.

(** The lines of the script: the fixed ones, and [None] where the f-string
    of the source has a field. *)
Definition script_frame : list (option string) :=
  [ Some EmptyString;
    Some "import os";
    Some "from custodian.vasp.jobs import VaspJob";
    Some "from custodian.vasp.handlers import VaspErrorHandler";
    Some "from custodian.custodian import Custodian";
    Some "from pymatgen.io.vasp.outputs import Outcar";
    Some "from google.cloud import storage";
    Some EmptyString;
    None;
    None;
    Some "c = Custodian([VaspErrorHandler()], [job], max_errors=10)";
    Some "c.run()";
    Some EmptyString;
    Some "# Parse time";
    Some "outcar = Outcar('OUTCAR')";
    Some "elapsed_time = outcar.run_stats['Total CPU time used (sec)'] / 3600";
    Some "with open('elapsed_time.txt', 'w') as f:";
    Some "    f.write(str(elapsed_time))";
    Some EmptyString;
    Some "# Upload to GCS";
    None;
    Some EmptyString ].

Fixpoint fits (frame : list (option string)) (ls : list string) : bool :=
  match frame, ls with
  | [], [] => true
  | Some fixed :: frame', l :: ls' => String.eqb fixed l && fits frame' ls'
  | None :: frame', _ :: ls' => fits frame' ls'
  | _, _ => false
  end.

(** What the text handed to [python3 -c] says: the directory it changes to,
    the solver command, and the bucket, key and file of its upload.  [None]
    when the text does not have the lines of [script_frame] with one literal
    in each field, or when [read_literal] does not read one of them. *)
Definition read_script (text : string) : option Script :=
  let ls := lines text in
  if fits script_frame ls then
    match read_statement "os.chdir('" ")" (nth 8 ls EmptyString),
          read_statement "job = VaspJob('" ".split(), final=True, suffix='')"
                         (nth 9 ls EmptyString),
          read_upload (nth 20 ls EmptyString) with
    | Some dir, Some cmd, Some (bucket, key, file) =>
        Some {| chdir := dir;
                solver_cmd := cmd;
                max_errors := 10;
                artifact_file := file;
                upload_bucket := bucket;
                upload_key := key |}
    | _, _, _ => None
    end
  else None.

(** The text a job hands to [python3 -c]. *)
Definition job_script (j : Job) : option string :=
  match task_groups j with
  | [g] =>
      match runnables (task_spec g) with
      | [rn] =>
          match commands (container rn) with
          | [python; flag; text] =>
              if String.eqb python "python3" && String.eqb flag "-c"
              then Some text else None
          | _ => None
          end
      | _ => None
      end
  | _ => None
  end.

(** The bucket after the job has run to its end, when the solver's time,
    printed by [str], is [text]: the upload statement of its script has put
    [text] under the key that statement names.  Whether the job gets that
    far (the solver, the files in the container) is not modelled. *)
Definition job_upload (j : Job) (text : string) (s : Store) : option Store :=
  match job_script j with
  | Some script =>
      match read_script script with
      | Some sc => Some (run_upload sc text s)
      | None => None
      end
  | None => None
  end.

(** No line break in [s]. *)
Fixpoint no_lf (s : string) : bool :=
  match s with
  | EmptyString => true
  | String c s' => negb (Ascii.eqb c "010") && no_lf s'
  end.

(** The (functional, value) pairs a bucket yields for the bar study. *)
Definition bar_pairs {F} (sv : Services F) (functionals : list string)
  : list (string * F) :=
  flat_map (fun f =>
              match artifact_value sv (bar_dir_name f) with
              | Some v => [(f, v)]
              | None => []
              end) functionals.

(** The entries of a dict that hold a value. *)
Definition present_bars {F} (d : dict (option F)) : list (string * F) :=
  flat_map (fun entry =>
              match snd entry with
              | Some v => [(fst entry, v)]
              | None => []
              end) d.


(** The events of a chart that was skipped: nothing saved, something said. *)
Definition skipped_with_diagnostic {F} (t : list (Event F)) : Prop :=
  saved_figures t = [] /\ printed t <> [].

(** The [AxPlot] events of the line chart, one per series with a value. *)
Definition line_plots {F} (tb : Tables) (m : Machine F) : list (Event F) :=
  flat_map (fun '(i, (k_name, _)) =>
    flat_map (fun '(_, device) => series_plot tb m i k_name device)
             (enumerate (devices tb)))
    (enumerate (k_configs tb)).

(** ** The phases of [main] *)

Definition line_runs (tb : Tables) : list Run :=
  map (fun '(k, device, nodes) => line_run k device nodes) (line_matrix tb).

Definition bar_runs (tb : Tables) : list Run :=
  map (bar_run tb) (functionals tb).

Section Phases.

Context {F : Type}.
Variable sv : Services F.
Variable tb : Tables.

(** The machine when the submission loops start. *)
Definition started : Machine F :=
  fold_left (fun m e => log e m)
    [ EPrint "Using default project ID: vasp-scaling-analysis";
      EPrint "Using default bucket name: vasp-scaling-outputs";
      EPathExists "POSCAR" true;
      EPrint "Starting VASP scaling analysis...";
      EPrint ("Project ID: " ++ PROJECT_ID);
      EPrint ("Location: " ++ LOCATION);
      EPrint ("Bucket: " ++ BUCKET_NAME) ] boot.

(** What [main] does once the jobs are submitted. *)
Definition after_submit (fuel : nat) : M F unit :=
  bind (wait_for_jobs sv fuel) (fun _ =>
  bind (print (nl ++ "All jobs completed. Collecting results...")) (fun _ =>
  bind (collect_results sv tb) (fun _ =>
  bind (print (nl ++ "Generating plots...")) (fun _ =>
  generate_plots tb)))).

(** The [except] clause of [main]. *)
Definition main_handler (e : exn) : M F unit :=
  bind (print ("Error in main execution: " ++ str_exn e)) (fun _ => raise e).

(** The machine when the run after [pre] has been refused. *)
Definition refused_at (pre : list Run) (r : Run) (m : Machine F) : Machine F :=
  let m' := after_submissions sv pre m in
  {| trace := trace m' ++ submission_events sv (creates m', r);
     creates := S (creates m');
     polls := polls m;
     job_names := job_names m';
     times_line := times_line m;
     times_bar := times_bar m |}.

(** The machine when every run of the matrix has been accepted. *)
Definition all_submitted (m : Machine F) : Machine F :=
  let m1 := log (EPrint (nl ++ "Submitting line plot jobs...")) m in
  let m2 := after_submissions sv (line_runs tb) m1 in
  let m3 := log (EPrint (nl ++ "Submitting bar plot jobs...")) m2 in
  let m4 := after_submissions sv (bar_runs tb) m3 in
  log (EPrint (nl ++ "Submitted "
               ++ str_int (Z.of_nat (List.length (job_names m4)))
               ++ " jobs. Waiting for completion...")) m4.

End Phases.

(** ** The tracking loop, pass by pass *)

(** What one pass does to the live list, given the states it observes for
    the entries of its snapshot, from snapshot index [i] on: the flag tells
    whether every [pop] found its index. *)
Fixpoint drain {A} (i : nat) (sts : list State) (live : list A)
  : bool * list A :=
  match sts with
  | [] => (true, live)
  | st :: sts' =>
      if terminal st
      then match pop i live with
           | Some (_, rest) => drain (S i) sts' rest
           | None => (false, live)
           end
      else drain (S i) sts' live
  end.

(** No state of [sts] is terminal. *)
Definition quiet (sts : list State) : Prop :=
  Forall (fun st => terminal st = false) sts.

Section Passes.

Context {F : Type}.
Variable sv : Services F.

(** The service answers the calls numbered from [p] on, made for the
    entries of [l] in turn, with the states [sts]. *)
Definition observes (p : nat) (l : list (string * string)) (sts : list State)
  : Prop :=
  Forall2 (fun '(call, (_, job_name)) st =>
             get_job sv call job_name = Returns st)
          (enumerate_from p l) sts.

(** What polling one entry leaves in the trace. *)
Definition poll_events (entry : string * string) (st : State)
  : list (Event F) :=
  EGetJob (snd entry) (Returns st)
  :: match st with
     | SUCCEEDED => [EPrint ("Job " ++ fst entry ++ " completed.")]
     | FAILED => [EPrint ("Job " ++ fst entry ++ " failed.")]
     | _ => []
     end.

(** What the [for] loop of a pass leaves in the trace when no [pop] fails. *)
Fixpoint pass_events (l : list (string * string)) (sts : list State)
  : list (Event F) :=
  match l, sts with
  | entry :: l', st :: sts' => poll_events entry st ++ pass_events l' sts'
  | _, _ => []
  end.

(** What a pass adds once its [for] loop is through. *)
Definition still_waiting (live : list (string * string)) : list (Event F) :=
  match live with
  | [] => []
  | _ :: _ =>
      [ EPrint ("Still waiting for "
                ++ str_int (Z.of_nat (List.length live)) ++ " jobs...");
        ESleep 60 ]
  end.

(** The events the tracking loop produces. *)
Definition tracking_event (e : Event F) : bool :=
  match e with
  | EGetJob _ _ | EPrint _ | ESleep _ => true
  | _ => false
  end.

(** [m'] is [m] after some tracking: polls, prints and sleeps were added to
    the trace, entries may have left [job_names], nothing else moved. *)
Definition tracked (m m' : Machine F) : Prop :=
  (exists t, trace m' = trace m ++ t /\ forallb tracking_event t = true)
  /\ creates m' = creates m
  /\ incl (job_names m') (job_names m)
  /\ List.length (job_names m') <= List.length (job_names m)
  /\ times_line m' = times_line m
  /\ times_bar m' = times_bar m.

End Passes.

(** ** What a job asks for *)

(** The machine shape a job asks for. *)
Definition shape_of (j : Job) : list (string * list Accelerator) :=
  map (fun p => (machine_type p, accelerators p))
      (instances (allocation_policy j)).

(** The resources of its tasks. *)
Definition resources_of (j : Job) : list ComputeResource :=
  map (fun g => compute_resource (task_spec g)) (task_groups j).

(** ** Collection, as the trace shows it *)

(** The storage client answers exactly from [s]. *)
Definition backed_by {F} (sv : Services F) (s : Store) : Prop :=
  forall bucket key,
    match s bucket key with
    | Some text =>
        blob_exists sv bucket key = Returns true
        /\ download_as_text sv bucket key = Returns text
    | None => blob_exists sv bucket key = Returns false
    end.

(** The run names in the order result collection visits them. *)
Definition collect_order (tb : Tables) : list string :=
  flat_map (fun device =>
    flat_map (fun k_name => map (line_dir_name device k_name) (nodes_list tb))
             (dict_keys (k_configs tb)))
    (devices tb)
  ++ map bar_dir_name (functionals tb).

(** The keys [blob.exists()] was called for, in order. *)
Fixpoint blob_checks {F} (t : list (Event F)) : list string :=
  match t with
  | [] => []
  | EBlobExists _ key _ :: t' => key :: blob_checks t'
  | _ :: t' => blob_checks t'
  end.

(** The keys [blob.download_as_text()] was called for, in order. *)
Fixpoint downloads {F} (t : list (Event F)) : list string :=
  match t with
  | [] => []
  | EDownloadAsText _ key _ :: t' => key :: downloads t'
  | _ :: t' => downloads t'
  end.

Section Fetch.

Context {F : Type}.
Variable sv : Services F.

(** The line the [except] clause of a collection [try] prints. *)
Definition error_line (dir : string) (e : exn) : Event F :=
  EPrint ("Error reading data for " ++ dir ++ ": " ++ str_exn e).

(** What the [try] statement for run [dir] leaves in the trace. *)
Definition fetch_events (dir : string) : list (Event F) :=
  let key := (dir ++ "/elapsed_time.txt")%string in
  EBlobExists BUCKET_NAME key (blob_exists sv BUCKET_NAME key)
  :: match blob_exists sv BUCKET_NAME key with
     | Returns true =>
         EDownloadAsText BUCKET_NAME key (download_as_text sv BUCKET_NAME key)
         :: match download_as_text sv BUCKET_NAME key with
            | Returns text =>
                match float sv text with
                | Some _ => []
                | None =>
                    [error_line dir
                       (ValueError ("could not convert string to float: "
                                    ++ repr sv text))]
                end
            | Raises e => [error_line dir e]
            end
     | Returns false =>
         [EPrint ("Warning: No elapsed_time.txt found for " ++ dir)]
     | Raises e => [error_line dir e]
     end.

(** [blob.exists()] returned [True] for the artifact of [dir]. *)
Definition found (dir : string) : bool :=
  match blob_exists sv BUCKET_NAME (dir ++ "/elapsed_time.txt") with
  | Returns true => true
  | _ => false
  end.

End Fetch.

(** * Properties *)

(** ** Dictionaries and lists *)

Lemma dict_get_set_same {V} (d : dict V) k v :
  dict_get (dict_set d k v) k = Some v.
Proof.
  induction d as [|[k' v'] d IH]; simpl.
  - now rewrite String.eqb_refl.
  - destruct (String.eqb k k') eqn:E; simpl; rewrite E; auto.
Qed.

Lemma dict_get_set_other {V} (d : dict V) k k' v :
  k' <> k -> dict_get (dict_set d k v) k' = dict_get d k'.
Proof.
  intros Hne. induction d as [|[k0 v0] d IH]; simpl.
  - destruct (String.eqb_spec k' k); [contradiction | reflexivity].
  - destruct (String.eqb_spec k k0) as [->|Hk]; simpl.
    + destruct (String.eqb_spec k' k0); [contradiction | reflexivity].
    + now rewrite IH.
Qed.

Lemma dict_get_set {V} (d : dict V) k k' v :
  dict_get (dict_set d k v) k'
  = if String.eqb k' k then Some v else dict_get d k'.
Proof.
  destruct (String.eqb_spec k' k) as [->|Hne].
  - apply dict_get_set_same.
  - now apply dict_get_set_other.
Qed.

Lemma dict_get_fold_set {V} (f : string -> V) keys (d : dict V) k :
  dict_get (fold_left (fun d k => dict_set d k (f k)) keys d) k
  = if existsb (String.eqb k) keys then Some (f k) else dict_get d k.
Proof.
  revert d. induction keys as [|k0 keys IH]; intros d; simpl; [reflexivity|].
  rewrite IH, dict_get_set.
  destruct (String.eqb_spec k k0) as [->|Hne]; simpl.
  - now destruct (existsb (String.eqb k0) keys).
  - reflexivity.
Qed.

Lemma dict_get_comprehension {V} (f : string -> V) keys k :
  dict_get (dict_comprehension keys f) k
  = if existsb (String.eqb k) keys then Some (f k) else None.
Proof. unfold dict_comprehension. now rewrite dict_get_fold_set. Qed.

Lemma existsb_eqb_In k keys :
  In k keys -> existsb (String.eqb k) keys = true.
Proof.
  intros H. apply existsb_exists. exists k. split; [assumption|].
  apply String.eqb_refl.
Qed.

Lemma enumerate_from_app {A} (l1 l2 : list A) i :
  enumerate_from i (l1 ++ l2)
  = enumerate_from i l1 ++ enumerate_from (i + List.length l1) l2.
Proof.
  revert i. induction l1 as [|x l1 IH]; intros i; simpl.
  - now rewrite Nat.add_0_r.
  - rewrite IH. now rewrite Nat.add_succ_r.
Qed.

Lemma map_snd_enumerate_from {A} (l : list A) i :
  map snd (enumerate_from i l) = l.
Proof. revert i. induction l; intros; simpl; [|rewrite IHl]; reflexivity. Qed.

(** ** The job specification *)

Lemma build_job_task_group dir_name vasp_cmd nodes device :
  exists g,
    task_groups (build_job dir_name vasp_cmd nodes device) = [g]
    /\ task_count g = 1%Z
    /\ max_retry_count (task_spec g) = 3%Z.
Proof.
  unfold build_job. destruct (String.eqb device "GPU"); simpl; eauto.
Qed.

Lemma build_job_ignores_nodes dir_name vasp_cmd nodes nodes' device :
  build_job dir_name vasp_cmd nodes device
  = build_job dir_name vasp_cmd nodes' device.
Proof. reflexivity. Qed.

(** ** The run matrix of the configured tables *)

Lemma run_names_scale_py :
  run_names scale_py
  = [ "run_line_CPU_2x2x6_1"; "run_line_CPU_2x2x6_2";
      "run_line_CPU_3x3x9_1"; "run_line_CPU_3x3x9_2";
      "run_line_CPU_4x4x12_1"; "run_line_CPU_4x4x12_2";
      "run_bar_PBE_MySystem"; "run_bar_HSE06_MySystem" ].
Proof. reflexivity. Qed.

Lemma run_names_scale_py_NoDup : NoDup (run_names scale_py).
Proof.
  rewrite run_names_scale_py.
  repeat (constructor; [simpl; intuition discriminate|]). constructor.
Qed.

(** ** The monad *)

Section Loops.

Context {F : Type}.
Variable sv : Services F.

Lemma machine_eq (m : Machine F) t c p j tl tbar :
  trace m = t -> creates m = c -> polls m = p -> job_names m = j ->
  times_line m = tl -> times_bar m = tbar ->
  m = {| trace := t; creates := c; polls := p; job_names := j;
         times_line := tl; times_bar := tbar |}.
Proof. destruct m; simpl; intros; subst; reflexivity. Qed.

Lemma for_each_app {A} (l1 l2 : list A) (f : A -> M F unit) m :
  for_each (l1 ++ l2) f m
  = bind (for_each l1 f) (fun _ => for_each l2 f) m.
Proof.
  revert m. induction l1 as [|x l1 IH]; intros m; simpl.
  - reflexivity.
  - unfold bind. destruct (f x m) as [[[]| |] m']; auto.
Qed.

Lemma for_each_ext {A} (l : list A) (f g : A -> M F unit) :
  (forall x m, f x m = g x m) ->
  forall m, for_each l f m = for_each l g m.
Proof.
  intros H. induction l as [|x l IH]; intros m; simpl; [reflexivity|].
  unfold bind. rewrite H. destruct (g x m) as [[[]| |] m']; auto.
Qed.

Lemma for_each_map {A B} (g : A -> B) (l : list A) (f : B -> M F unit) m :
  for_each (map g l) f m = for_each l (fun x => f (g x)) m.
Proof.
  revert m. induction l as [|x l IH]; intros m; simpl; [reflexivity|].
  unfold bind. destruct (f (g x) m) as [[[]| |] m']; auto.
Qed.

Lemma for_each_list_prod {A B} (l1 : list A) (l2 : list B)
      (f : A * B -> M F unit) m :
  for_each (list_prod l1 l2) f m
  = for_each l1 (fun a => for_each l2 (fun b => f (a, b))) m.
Proof.
  revert m. induction l1 as [|a l1 IH]; intros m; simpl; [reflexivity|].
  rewrite for_each_app. unfold bind.
  rewrite for_each_map.
  destruct (for_each l2 (fun b => f (a, b)) m) as [[[]| |] m']; auto.
Qed.

End Loops.

(** ** Submission *)

Section Submission.

Context {F : Type}.
Variable sv : Services F.

Lemma submit_line_run_eq k_name k_data device nodes m :
  submit_line_run sv k_name k_data device nodes m
  = submit_run sv (line_run (k_name, k_data) device nodes) m.
Proof.
  unfold submit_line_run, submit_run, line_run; simpl.
  destruct (kpts k_data) as [[a b] c]. reflexivity.
Qed.

Lemma submit_bar_run_eq tb functional m :
  submit_bar_run sv tb functional m = submit_run sv (bar_run tb functional) m.
Proof. reflexivity. Qed.

Lemma submit_run_accepted r m :
  accepted sv (creates m, r) ->
  submit_run sv r m = (Ok tt, after_submissions sv [r] m).
Proof.
  intros [Hw [job_name Hc]]. simpl in Hw, Hc.
  unfold submit_run, create_inputs, submit_batch_job, after_submissions,
    bind, emit, print, of_reply, ret, job_names_append; simpl.
  fold (request_of r). rewrite Hw; simpl. rewrite Hc; simpl.
  f_equal. unfold log, set_job_names, tick_creates; simpl.
  unfold handle_of; simpl.
  rewrite ?Hw, ?Hc, <- ?app_assoc, Nat.add_1_r. reflexivity.
Qed.

(** A refused submission: the inputs exist, the request was sent, nothing
    was recorded in [job_names]. *)
Lemma submit_run_refused r m e :
  write_input sv (dir_name r) = Returns tt ->
  create_job sv (creates m) (request_of r) = Raises e ->
  submit_run sv r m
  = (Exc e,
     {| trace := trace m ++ submission_events sv (creates m, r);
        creates := S (creates m);
        polls := polls m;
        job_names := job_names m;
        times_line := times_line m;
        times_bar := times_bar m |}).
Proof.
  intros Hw Hc.
  unfold submit_run, create_inputs, submit_batch_job,
    bind, emit, print, of_reply, ret, raise, job_names_append; simpl.
  fold (request_of r). rewrite Hw; simpl. rewrite Hc; simpl.
  f_equal. unfold log, tick_creates; simpl.
  rewrite <- !app_assoc. reflexivity.
Qed.

Lemma after_submissions_cons r runs m :
  after_submissions sv (r :: runs) m
  = after_submissions sv runs (after_submissions sv [r] m).
Proof.
  unfold after_submissions; simpl.
  rewrite !app_nil_r, <- !app_assoc, Nat.add_1_r. simpl.
  f_equal. lia.
Qed.

Lemma for_each_submit_accepted runs : forall m,
  Forall (accepted sv) (enumerate_from (creates m) runs) ->
  for_each runs (submit_run sv) m = (Ok tt, after_submissions sv runs m).
Proof.
  induction runs as [|r runs IH]; intros m H; simpl.
  - unfold ret, after_submissions; simpl. f_equal.
    apply machine_eq; simpl; rewrite ?app_nil_r; auto.
  - inversion H as [|? ? Hr Hrest]; subst.
    rewrite (after_submissions_cons r runs m).
    unfold bind. rewrite (submit_run_accepted r m Hr). apply IH.
    simpl. rewrite Nat.add_1_r. exact Hrest.
Qed.

Lemma for_each_submit_refused pre r post e : forall m,
  Forall (accepted sv) (enumerate_from (creates m) pre) ->
  write_input sv (dir_name r) = Returns tt ->
  create_job sv (creates m + List.length pre) (request_of r) = Raises e ->
  for_each (pre ++ r :: post) (submit_run sv) m
  = (Exc e,
     let m' := after_submissions sv pre m in
     {| trace := trace m' ++ submission_events sv (creates m', r);
        creates := S (creates m');
        polls := polls m;
        job_names := job_names m';
        times_line := times_line m;
        times_bar := times_bar m |}).
Proof.
  intros m Hpre Hw Hc.
  rewrite for_each_app. unfold bind.
  rewrite (for_each_submit_accepted pre m Hpre). simpl for_each.
  unfold bind. rewrite (submit_run_refused r _ e Hw); [reflexivity|].
  exact Hc.
Qed.

End Submission.

Section Batch.

Context {F : Type}.
Variable sv : Services F.
Variable tb : Tables.

Lemma main_started fuel :
  path_exists sv "POSCAR" = true ->
  main sv tb fuel boot
  = try_except (bind (submit_all sv tb) (fun _ => after_submit sv tb fuel))
      main_handler started.
Proof.
  intros H. unfold main, try_except, validate_config.
  unfold bind at 1 2 3 4 5 6 7 8 9. simpl. rewrite H. simpl.
  reflexivity.
Qed.

Lemma line_loop_eq m :
  for_each (k_configs tb) (fun '(k_name, k_data) =>
    for_each (devices tb) (fun device =>
      for_each (nodes_list tb) (fun nodes =>
        submit_line_run sv k_name k_data device nodes))) m
  = for_each (line_runs tb) (submit_run sv) m.
Proof.
  unfold line_runs, line_matrix.
  rewrite for_each_map, for_each_list_prod, for_each_list_prod.
  apply for_each_ext. intros [k_name k_data] m1.
  apply for_each_ext. intros device m2.
  apply for_each_ext. intros nodes m3.
  apply submit_line_run_eq.
Qed.

Lemma bar_loop_eq m :
  for_each (functionals tb) (submit_bar_run sv tb) m
  = for_each (bar_runs tb) (submit_run sv) m.
Proof. unfold bar_runs. now rewrite for_each_map. Qed.

Lemma run_matrix_split : run_matrix tb = line_runs tb ++ bar_runs tb.
Proof. reflexivity. Qed.

Lemma submit_all_accepted m :
  Forall (accepted sv) (enumerate_from (creates m) (run_matrix tb)) ->
  submit_all sv tb m = (Ok tt, all_submitted sv tb m).
Proof.
  rewrite run_matrix_split, enumerate_from_app. intros H.
  apply Forall_app in H as [Hl Hb].
  unfold submit_all, all_submitted.
  unfold bind at 1. simpl.
  unfold bind at 1. rewrite line_loop_eq.
  rewrite for_each_submit_accepted by exact Hl.
  unfold bind at 1. simpl.
  unfold bind at 1. rewrite bar_loop_eq.
  rewrite for_each_submit_accepted by exact Hb.
  reflexivity.
Qed.

Lemma submit_all_refused_line pre r post e m :
  line_runs tb = pre ++ r :: post ->
  Forall (accepted sv) (enumerate_from (creates m) pre) ->
  write_input sv (dir_name r) = Returns tt ->
  create_job sv (creates m + List.length pre) (request_of r) = Raises e ->
  submit_all sv tb m
  = (Exc e,
     refused_at sv pre r (log (EPrint (nl ++ "Submitting line plot jobs...")) m)).
Proof.
  intros Hl Hpre Hw Hc. unfold submit_all.
  unfold bind at 1. simpl.
  unfold bind at 1. rewrite line_loop_eq, Hl.
  rewrite (for_each_submit_refused sv pre r post e); auto.
Qed.

Lemma submit_all_refused_bar pre r post e m :
  bar_runs tb = pre ++ r :: post ->
  Forall (accepted sv) (enumerate_from (creates m) (line_runs tb ++ pre)) ->
  write_input sv (dir_name r) = Returns tt ->
  create_job sv (creates m + List.length (line_runs tb ++ pre)) (request_of r)
  = Raises e ->
  submit_all sv tb m
  = (Exc e,
     refused_at sv pre r
       (log (EPrint (nl ++ "Submitting bar plot jobs..."))
          (after_submissions sv (line_runs tb)
             (log (EPrint (nl ++ "Submitting line plot jobs...")) m)))).
Proof.
  intros Hb Hpre Hw Hc. unfold submit_all.
  rewrite enumerate_from_app in Hpre. apply Forall_app in Hpre as [Hl Hp].
  rewrite length_app, Nat.add_assoc in Hc.
  unfold bind at 1. simpl.
  unfold bind at 1. rewrite line_loop_eq.
  rewrite for_each_submit_accepted by exact Hl.
  unfold bind at 1. simpl.
  unfold bind at 1. rewrite bar_loop_eq, Hb.
  rewrite (for_each_submit_refused sv pre r post e); auto.
Qed.

Lemma materialized_app (t1 t2 : list (Event F)) :
  materialized (t1 ++ t2) = materialized t1 ++ materialized t2.
Proof.
  induction t1 as [|[] t1 IH]; simpl; rewrite ?IH; reflexivity.
Qed.

Lemma create_requests_app (t1 t2 : list (Event F)) :
  create_requests (t1 ++ t2) = create_requests t1 ++ create_requests t2.
Proof.
  induction t1 as [|[] t1 IH]; simpl; rewrite ?IH; reflexivity.
Qed.

Lemma polled_app (t1 t2 : list (Event F)) :
  polled (t1 ++ t2) = polled t1 ++ polled t2.
Proof.
  induction t1 as [|[] t1 IH]; simpl; rewrite ?IH; reflexivity.
Qed.

Lemma printed_app (t1 t2 : list (Event F)) :
  printed (t1 ++ t2) = printed t1 ++ printed t2.
Proof.
  induction t1 as [|[] t1 IH]; simpl; rewrite ?IH; reflexivity.
Qed.

Lemma saved_figures_app (t1 t2 : list (Event F)) :
  saved_figures (t1 ++ t2) = saved_figures t1 ++ saved_figures t2.
Proof.
  induction t1 as [|[| | | | | | | | |[]] t1 IH]; simpl; rewrite ?IH; reflexivity.
Qed.

Lemma submission_events_materialized ir :
  materialized (submission_events sv ir) = [dir_name (snd ir)].
Proof.
  destruct ir as [i r]; simpl.
  destruct (write_input sv (dir_name r)); simpl; auto.
  destruct (create_job sv i (request_of r)); reflexivity.
Qed.

Lemma submission_events_requests ir :
  write_input sv (dir_name (snd ir)) = Returns tt ->
  create_requests (submission_events sv ir) = [request_of (snd ir)].
Proof.
  destruct ir as [i r]; simpl. intros ->; simpl.
  destruct (create_job sv i (request_of r)); reflexivity.
Qed.

Lemma submission_events_only ir :
  forallb is_submission_event (submission_events sv ir) = true.
Proof.
  destruct ir as [i r]; simpl.
  destruct (write_input sv (dir_name r)); simpl; auto.
  destruct (create_job sv i (request_of r)); reflexivity.
Qed.

Lemma submissions_materialized l :
  materialized (flat_map (submission_events sv) l)
  = map (fun ir => dir_name (snd ir)) l.
Proof.
  induction l as [|ir l IH]; simpl; [reflexivity|].
  now rewrite materialized_app, submission_events_materialized, IH.
Qed.

Lemma submissions_requests l :
  Forall (accepted sv) l ->
  create_requests (flat_map (submission_events sv) l)
  = map (fun ir => request_of (snd ir)) l.
Proof.
  induction 1 as [|ir l [Hw _] _ IH]; simpl; [reflexivity|].
  now rewrite create_requests_app, submission_events_requests, IH.
Qed.

Lemma submissions_only l :
  forallb is_submission_event (flat_map (submission_events sv) l) = true.
Proof.
  induction l as [|ir l IH]; simpl; [reflexivity|].
  now rewrite forallb_app, submission_events_only, IH.
Qed.

Lemma map_enumerate_from {A B} (f : A -> B) (l : list A) i :
  map (fun ir => f (snd ir)) (enumerate_from i l) = map f l.
Proof. now rewrite <- (map_map snd f), map_snd_enumerate_from. Qed.

(** What is seen of a batch that stops at a refused submission. *)
Lemma refused_at_seen pre r e (m : Machine F) line :
  Forall (accepted sv) (enumerate_from (creates m) pre) ->
  write_input sv (dir_name r) = Returns tt ->
  let m' := log (EPrint line) (refused_at sv pre r m) in
  materialized (trace m')
  = materialized (trace m) ++ map dir_name pre ++ [dir_name r]
  /\ create_requests (trace m')
     = create_requests (trace m) ++ map request_of pre ++ [request_of r]
  /\ job_names m'
     = job_names m ++ map (handle_of sv) (enumerate_from (creates m) pre)
  /\ forallb is_submission_event (trace m')
     = forallb is_submission_event (trace m)
  /\ printed (trace m') <> [] /\ last (printed (trace m')) e = line.
Proof.
  intros Hpre Hw m'. subst m'.
  unfold log, refused_at, after_submissions. cbn [trace job_names creates].
  rewrite !materialized_app, !create_requests_app, !forallb_app, !printed_app.
  rewrite submissions_materialized, submissions_requests by exact Hpre.
  rewrite submission_events_materialized, submission_events_requests by exact Hw.
  rewrite submissions_only, submission_events_only, !map_enumerate_from.
  simpl. rewrite <- !app_assoc, !andb_true_r.
  repeat split.
  - intros H. apply app_eq_nil in H as [_ H]. apply app_eq_nil in H as [_ H].
    apply app_eq_nil in H as [_ H]. discriminate.
  - rewrite !app_assoc. apply last_last.
Qed.

(** Where in the two loops the refused run sits. *)
Lemma refused_position pre r post :
  run_matrix tb = pre ++ r :: post ->
  (exists post', line_runs tb = pre ++ r :: post')
  \/ (exists pre', pre = line_runs tb ++ pre'
                   /\ bar_runs tb = pre' ++ r :: post).
Proof.
  rewrite run_matrix_split. intros H.
  apply app_eq_app in H as [l [[Hl Hr]|[Hp Hb]]].
  - destruct l as [|r' l].
    + right. exists []. rewrite app_nil_r in Hl. simpl in Hr.
      rewrite Hl, app_nil_r. auto.
    + left. injection Hr as -> _. eauto.
  - right. eauto.
Qed.

Lemma main_refused fuel pre r post e :
  path_exists sv "POSCAR" = true ->
  run_matrix tb = pre ++ r :: post ->
  Forall (accepted sv) (enumerate pre) ->
  write_input sv (dir_name r) = Returns tt ->
  create_job sv (List.length pre) (request_of r) = Raises e ->
  exists pre' m,
    main sv tb fuel boot
    = (Exc e,
       log (EPrint ("Error in main execution: " ++ str_exn e))
           (refused_at sv pre' r m))
    /\ Forall (accepted sv) (enumerate_from (creates m) pre')
    /\ materialized (trace m) ++ map dir_name pre' = map dir_name pre
    /\ create_requests (trace m) ++ map request_of pre' = map request_of pre
    /\ job_names m ++ map (handle_of sv) (enumerate_from (creates m) pre')
       = map (handle_of sv) (enumerate pre)
    /\ forallb is_submission_event (trace m) = true.
Proof.
  intros Hp Hm Hpre Hw Hc.
  rewrite (main_started fuel Hp).
  destruct (refused_position pre r post Hm) as [[post' Hl]|[pre' [-> Hb]]].
  - exists pre, (log (EPrint (nl ++ "Submitting line plot jobs...")) (started (F:=F))).
    split; [|split; [exact Hpre|repeat split]].
    unfold try_except, bind.
    rewrite (submit_all_refused_line pre r post' e); auto.
  - exists pre',
      (log (EPrint (nl ++ "Submitting bar plot jobs..."))
         (after_submissions sv (line_runs tb)
            (log (EPrint (nl ++ "Submitting line plot jobs...")) started))).
    unfold enumerate in Hpre.
    pose proof Hpre as Hpre2.
    rewrite enumerate_from_app in Hpre2. apply Forall_app in Hpre2 as [Hl Hp'].
    split; [|split; [exact Hp'|]].
    + unfold try_except, bind.
      rewrite (submit_all_refused_bar pre' r post e); auto.
    + unfold log, after_submissions, started. cbn [trace job_names creates fold_left boot].
      rewrite !materialized_app, !create_requests_app, !forallb_app.
      rewrite submissions_materialized, submissions_requests by exact Hl.
      rewrite submissions_only, !map_enumerate_from.
      simpl. rewrite !app_nil_r, !map_app.
      unfold enumerate. rewrite enumerate_from_app, map_app. auto.
Qed.

End Batch.

(** ** Result collection *)

Section Collection.

Context {F : Type}.
Variable sv : Services F.

Lemma collected_refl (m : Machine F) : collected m m (fun _ _ => []).
Proof.
  repeat split. intros d k. destruct (series_of m d k); simpl;
    rewrite ?app_nil_r; reflexivity.
Qed.

Lemma collected_trans (m1 m2 m3 : Machine F) e1 e2 :
  collected m1 m2 e1 -> collected m2 m3 e2 ->
  collected m1 m3 (fun d k => e1 d k ++ e2 d k).
Proof.
  intros (H1 & J1 & B1) (H2 & J2 & B2). repeat split; try congruence.
  intros d k. rewrite H2, H1. destruct (series_of m1 d k); simpl;
    rewrite ?app_assoc; reflexivity.
Qed.

Lemma collected_ext (m m' : Machine F) e1 e2 :
  (forall d k, e1 d k = e2 d k) -> collected m m' e1 -> collected m m' e2.
Proof.
  intros He (H & J & B). repeat split; auto.
  intros d k. rewrite H. destruct (series_of m d k); simpl; now rewrite ?He.
Qed.

Lemma times_line_append_ok device k_name t (m : Machine F) :
  series_of m device k_name <> None ->
  exists m',
    times_line_append device k_name t m = (Ok tt, m')
    /\ collected m m' (on_series device k_name [t])
    /\ trace m' = trace m.
Proof.
  unfold series_of, times_line_append. intros H.
  destruct (dict_get (times_line m) device) as [series|] eqn:Hs;
    [|contradiction].
  destruct (dict_get series k_name) as [times|] eqn:Ht; [|contradiction].
  eexists; split; [reflexivity|]. split; [|reflexivity].
  repeat split. intros d k. unfold series_of, on_series; simpl.
  rewrite dict_get_set.
  destruct (String.eqb_spec d device) as [->|Hd]; simpl.
  - rewrite dict_get_set, Hs.
    destruct (String.eqb_spec k k_name) as [->|Hk]; simpl.
    + now rewrite Ht.
    + destruct (dict_get series k); simpl; rewrite ?app_nil_r; reflexivity.
  - destruct (dict_get (times_line m) d) as [s|]; simpl; auto.
    destruct (dict_get s k); simpl; rewrite ?app_nil_r; reflexivity.
Qed.

Ltac append_step H :=
  match goal with
  | |- context [times_line_append ?d ?k ?t ?m0] =>
      let m' := fresh "m'" in
      let Hc := fresh "Hc" in
      destruct (times_line_append_ok d k t m0 H) as (m' & -> & Hc & _);
      eexists; split; [reflexivity | exact Hc]
  end.

Lemma collect_line_run_ok device k_name nodes m :
  series_of m device k_name <> None ->
  exists m',
    collect_line_run sv device k_name nodes m = (Ok tt, m')
    /\ collected m m'
         (on_series device k_name
            [artifact_value sv (line_dir_name device k_name nodes)]).
Proof.
  intros H.
  unfold collect_line_run, artifact_value, try_except, bind,
    call_blob_exists, call_download_as_text, call_float, emit, print.
  set (key := (line_dir_name device k_name nodes ++ "/elapsed_time.txt")%string).
  destruct (blob_exists sv BUCKET_NAME key) as [[|]|e1];
    cbn -[times_line_append line_dir_name String.append]; try append_step H.
  destruct (download_as_text sv BUCKET_NAME key) as [text|e2];
    cbn -[times_line_append line_dir_name String.append]; try append_step H.
  destruct (float sv text) as [t|];
    cbn -[times_line_append line_dir_name String.append]; append_step H.
Qed.

End Collection.

Section CollectionLoops.

Context {F : Type}.
Variable sv : Services F.

Lemma collected_present (m m' : Machine F) e d k :
  collected m m' e -> series_of m d k <> None -> series_of m' d k <> None.
Proof.
  intros (H & _) Hp. rewrite H. destruct (series_of m d k); simpl;
    congruence.
Qed.

(** A loop whose body appends to existing series appends the
    concatenation, provided the series it touches exist. *)
Lemma for_each_collected {A} (Q : string -> string -> Prop)
      (body : A -> M F unit) (e : A -> string -> string -> list (option F))
      (l : list A) :
  (forall x m, In x l ->
     (forall d k, Q d k -> series_of m d k <> None) ->
     exists m', body x m = (Ok tt, m') /\ collected m m' (e x)) ->
  forall m,
    (forall d k, Q d k -> series_of m d k <> None) ->
    exists m',
      for_each l body m = (Ok tt, m')
      /\ collected m m' (fun d k => flat_map (fun x => e x d k) l).
Proof.
  induction l as [|x l IH]; intros Hbody m Hm; simpl.
  - exists m. split; [reflexivity | apply collected_refl].
  - destruct (Hbody x m (or_introl eq_refl) Hm) as (m1 & E1 & C1).
    destruct (IH (fun y m0 Hy => Hbody y m0 (or_intror Hy)) m1) as (m2 & E2 & C2).
    + intros d k HQ. eapply collected_present; eauto.
    + exists m2. split.
      * unfold bind. now rewrite E1.
      * eapply collected_trans; eauto.
Qed.

Variable tb : Tables.

Lemma collect_line_loops_ok m :
  (forall d k, In d (devices tb) -> In k (dict_keys (k_configs tb)) ->
               series_of m d k <> None) ->
  exists m',
    for_each (devices tb) (fun device =>
      for_each (dict_keys (k_configs tb)) (fun k_name =>
        for_each (nodes_list tb) (fun nodes =>
          collect_line_run sv device k_name nodes))) m = (Ok tt, m')
    /\ collected m m' (line_extra sv tb).
Proof.
  intros Hm.
  apply (for_each_collected
           (fun d k => In d (devices tb) /\ In k (dict_keys (k_configs tb))));
    [|intros d k [Hd Hk]; auto].
  intros device m1 Hdev H1.
  apply (for_each_collected
           (fun d k => In d (devices tb) /\ In k (dict_keys (k_configs tb))));
    [|exact H1].
  intros k_name m2 Hkey H2.
  apply (for_each_collected
           (fun d k => In d (devices tb) /\ In k (dict_keys (k_configs tb))));
    [|exact H2].
  intros nodes m3 _ H3.
  apply collect_line_run_ok. apply H3. auto.
Qed.

Lemma flat_map_on_series {A} (v : A -> option F) l device k_name d k :
  flat_map (fun x => on_series device k_name [v x] d k) l
  = on_series device k_name (map v l) d k.
Proof.
  unfold on_series.
  destruct (String.eqb d device && String.eqb k k_name).
  - induction l; simpl; [|rewrite IHl]; reflexivity.
  - induction l; simpl; auto.
Qed.

Lemma flat_map_pick {B} (g : string -> list B) l a :
  NoDup l -> In a l ->
  flat_map (fun x => if String.eqb a x then g x else []) l = g a.
Proof.
  induction 1 as [|x l Hx Hnd IH]; intros Hin; [contradiction|]. simpl.
  destruct (String.eqb_spec a x) as [->|Hne].
  - assert (E : flat_map (fun y => if String.eqb x y then g y else []) l = []).
    { clear IH Hin. induction l as [|y l IHl]; simpl; [reflexivity|].
      destruct (String.eqb_spec x y) as [->|_].
      - exfalso. apply Hx. now left.
      - apply IHl.
        + intros H. apply Hx. now right.
        + now inversion Hnd. }
    now rewrite E, app_nil_r.
  - destruct Hin as [->|Hin]; [contradiction|]. now apply IH.
Qed.

Lemma line_extra_NoDup d k :
  NoDup (devices tb) -> NoDup (dict_keys (k_configs tb)) ->
  In d (devices tb) -> In k (dict_keys (k_configs tb)) ->
  line_extra sv tb d k = map (line_value sv d k) (nodes_list tb).
Proof.
  intros Nd Nk Hd Hk. unfold line_extra.
  rewrite (flat_map_ext _
    (fun device => if String.eqb d device
       then (fun device => flat_map (fun k_name =>
              if String.eqb k k_name
              then (fun k_name => map (line_value sv device k_name) (nodes_list tb)) k_name
              else []) (dict_keys (k_configs tb))) device
       else [])).
  - rewrite (flat_map_pick _ _ d Nd Hd).
    now rewrite (flat_map_pick _ _ k Nk Hk).
  - intros device.
    destruct (String.eqb d device) eqn:E.
    + apply flat_map_ext. intros k_name.
      rewrite flat_map_on_series. unfold on_series. rewrite E. reflexivity.
    + clear Nk Hk.
      induction (dict_keys (k_configs tb)) as [|k_name l IH]; [reflexivity|].
      cbn [flat_map]. rewrite IH, flat_map_on_series. unfold on_series.
      rewrite E. reflexivity.
Qed.

End CollectionLoops.

Section CollectionPhase.

Context {F : Type}.
Variable sv : Services F.
Variable tb : Tables.

Lemma series_of_init (m : Machine F) d k :
  series_of (set_times_line (init_times_line tb) m) d k
  = if existsb (String.eqb d) (devices tb)
       && existsb (String.eqb k) (dict_keys (k_configs tb))
    then Some [] else None.
Proof.
  unfold series_of, init_times_line; simpl.
  rewrite dict_get_comprehension.
  destruct (existsb (String.eqb d) (devices tb)); simpl; [|reflexivity].
  now rewrite dict_get_comprehension.
Qed.

Lemma collect_bar_run_ok functional m :
  exists m',
    collect_bar_run sv functional m = (Ok tt, m')
    /\ times_bar m' = dict_set (times_bar m) functional (bar_value sv functional)
    /\ times_line m' = times_line m
    /\ job_names m' = job_names m.
Proof.
  unfold collect_bar_run, bar_value, artifact_value, try_except, bind,
    call_blob_exists, call_download_as_text, call_float, emit, print,
    times_bar_set.
  set (key := (bar_dir_name functional ++ "/elapsed_time.txt")%string).
  destruct (blob_exists sv BUCKET_NAME key) as [[|]|e1];
    cbn -[bar_dir_name String.append]; eauto.
  destruct (download_as_text sv BUCKET_NAME key) as [text|e2];
    cbn -[bar_dir_name String.append]; eauto.
  destruct (float sv text) as [t|];
    cbn -[bar_dir_name String.append]; eauto.
Qed.

Lemma collect_bar_loop_ok l : forall m,
  exists m',
    for_each l (collect_bar_run sv) m = (Ok tt, m')
    /\ times_bar m'
       = fold_left (fun d f => dict_set d f (bar_value sv f)) l (times_bar m)
    /\ times_line m' = times_line m
    /\ job_names m' = job_names m.
Proof.
  induction l as [|f l IH]; intros m; simpl.
  - exists m. auto.
  - destruct (collect_bar_run_ok f m) as (m1 & E1 & B1 & L1 & J1).
    destruct (IH m1) as (m2 & E2 & B2 & L2 & J2).
    exists m2. unfold bind. rewrite E1, E2, B2, B1, L2, L1, J2, J1. auto.
Qed.

(** Result collection as a whole: it returns, and leaves one list per
    (device, density) pair and one value per functional. *)
Lemma collect_results_ok m :
  exists m',
    collect_results sv tb m = (Ok tt, m')
    /\ (forall d k,
          series_of m' d k
          = if existsb (String.eqb d) (devices tb)
               && existsb (String.eqb k) (dict_keys (k_configs tb))
            then Some (line_extra sv tb d k) else None)
    /\ times_bar m' = dict_comprehension (functionals tb) (bar_value sv)
    /\ job_names m' = job_names m.
Proof.
  unfold collect_results.
  destruct (collect_line_loops_ok sv tb (set_times_line (init_times_line tb) m))
    as (m1 & E1 & (S1 & J1 & B1)).
  { intros d k Hd Hk. rewrite series_of_init.
    now rewrite !existsb_eqb_In. }
  destruct (collect_bar_loop_ok (functionals tb) (set_times_bar [] m1))
    as (m2 & E2 & B2 & L2 & J2).
  exists m2. split; [|split; [|split]].
  - unfold bind at 1. cbn [fst snd]. unfold bind at 1. rewrite E1.
    unfold bind at 1. exact E2.
  - intros d k. unfold series_of in *. rewrite L2. simpl.
    specialize (S1 d k). rewrite S1.
    pose proof (series_of_init m d k) as Hi. unfold series_of in Hi.
    rewrite Hi.
    destruct (existsb (String.eqb d) (devices tb)
              && existsb (String.eqb k) (dict_keys (k_configs tb)));
      reflexivity.
  - exact B2.
  - rewrite J2. simpl. rewrite J1. reflexivity.
Qed.

End CollectionPhase.

(** ** Plotting *)

Section Indices.

Context {F : Type}.

Lemma valid_indices_from (times : list (option F)) :
  valid_indices times = indices_from 0 times.
Proof. reflexivity. Qed.

Lemma indices_from_cons i t (times : list (option F)) :
  indices_from i (t :: times)
  = match t with
    | Some _ => i :: indices_from (S i) times
    | None => indices_from (S i) times
    end.
Proof. unfold indices_from; simpl. destruct t; reflexivity. Qed.

Lemma indices_from_bound (times : list (option F)) : forall i idx,
  In idx (indices_from i times) -> i <= idx < i + List.length times.
Proof.
  induction times as [|t times IH]; intros i idx H.
  - contradiction.
  - rewrite indices_from_cons in H. simpl.
    destruct t; [destruct H as [<-|H]; [lia|]|];
      apply IH in H; lia.
Qed.

Lemma map_m_getitem_nodes (nodes : list Z) (m : Machine F) :
  forall (times : list (option F)) pre,
    List.length times <= List.length nodes ->
    map_m (getitem (pre ++ nodes)) (indices_from (List.length pre) times) m
    = (Ok (map fst (present_pairs nodes times)), m).
Proof.
  induction nodes as [|n nodes IH]; intros times pre Hlen.
  - destruct times; [reflexivity | simpl in Hlen; lia].
  - destruct times as [|t times]; [reflexivity|].
    simpl in Hlen. rewrite indices_from_cons.
    assert (E : pre ++ n :: nodes = (pre ++ [n]) ++ nodes)
      by now rewrite <- app_assoc.
    assert (L : S (List.length pre) = List.length (pre ++ [n]))
      by (rewrite length_app; simpl; lia).
    destruct t as [t|]; simpl.
    + unfold bind, getitem at 1, of_option.
      rewrite nth_error_app2, Nat.sub_diag by lia. simpl.
      rewrite E, L, IH by lia. reflexivity.
    + rewrite E, L, IH by lia. reflexivity.
Qed.

Lemma map_m_getitem_times (nodes : list Z) (m : Machine F) :
  forall (times : list (option F)) pre,
    List.length times <= List.length nodes ->
    map_m (getitem (pre ++ times)) (indices_from (List.length pre) times) m
    = (Ok (map (fun p => Some (snd p)) (present_pairs nodes times)), m).
Proof.
  induction nodes as [|n nodes IH]; intros times pre Hlen.
  - destruct times; [reflexivity | simpl in Hlen; lia].
  - destruct times as [|t times]; [reflexivity|].
    simpl in Hlen. rewrite indices_from_cons.
    assert (E : pre ++ t :: times = (pre ++ [t]) ++ times)
      by now rewrite <- app_assoc.
    assert (L : S (List.length pre) = List.length (pre ++ [t]))
      by (rewrite length_app; simpl; lia).
    destruct t as [t|]; simpl.
    + unfold bind, getitem at 1, of_option.
      rewrite nth_error_app2, Nat.sub_diag by lia. simpl.
      rewrite E, L, IH by lia. reflexivity.
    + rewrite E, L, IH by lia. reflexivity.
Qed.

Lemma present_pairs_nil_iff (nodes : list Z) : forall times : list (option F),
  List.length times <= List.length nodes ->
  (present_pairs nodes times = [] <-> valid_indices times = []).
Proof.
  intros times H. rewrite valid_indices_from. generalize 0.
  revert times H.
  induction nodes as [|n nodes IH]; intros times Hlen i.
  - destruct times; [split; reflexivity | simpl in Hlen; lia].
  - destruct times as [|t times]; [split; reflexivity|].
    simpl in Hlen. rewrite indices_from_cons. destruct t; simpl.
    + split; discriminate.
    + apply IH. lia.
Qed.

End Indices.

Section Series.

Context {F : Type}.
Variable tb : Tables.

Lemma extend_nil (m : Machine F) : extend [] m = m.
Proof. destruct m; unfold extend; simpl. now rewrite app_nil_r. Qed.

Lemma extend_extend t1 t2 (m : Machine F) :
  extend t2 (extend t1 m) = extend (t1 ++ t2) m.
Proof. unfold extend; simpl. now rewrite app_assoc. Qed.

Lemma log_extend e t (m : Machine F) :
  log e (extend t m) = extend (t ++ [e]) m.
Proof. apply (extend_extend t [e] m). Qed.

Lemma plt_extend c t (m : Machine F) :
  plt c (extend t m) = (Ok tt, extend (t ++ [EPlt c]) m).
Proof. unfold plt, emit. now rewrite log_extend. Qed.

Lemma print_extend line t (m : Machine F) :
  print line (extend t m) = (Ok tt, extend (t ++ [EPrint line]) m).
Proof. unfold print, emit. now rewrite log_extend. Qed.

Lemma for_each_extend {A} (body : A -> M F unit) (ev : A -> list (Event F))
      (m0 : Machine F) (l : list A) :
  (forall x t, In x l ->
     body x (extend t m0) = (Ok tt, extend (t ++ ev x) m0)) ->
  forall t,
    for_each l body (extend t m0) = (Ok tt, extend (t ++ flat_map ev l) m0).
Proof.
  induction l as [|x l IH]; intros Hbody t; simpl.
  - now rewrite app_nil_r.
  - unfold bind. rewrite Hbody by now left.
    rewrite IH, app_assoc; [reflexivity|].
    intros y t' Hy. apply Hbody. now right.
Qed.

Lemma enumerate_from_In {A} (l : list A) : forall j i x,
  In (i, x) (enumerate_from j l) -> j <= i < j + List.length l /\ In x l.
Proof.
  induction l as [|y l IH]; intros j i x H; [contradiction|].
  destruct H as [H|H].
  - injection H as <- <-. simpl. split; [lia | now left].
  - apply IH in H as [H1 H2]. simpl. split; [lia | now right].
Qed.

Lemma getitem_ok {A} (l : list A) i d (m : Machine F) :
  i < List.length l -> getitem l i m = (Ok (nth i l d), m).
Proof.
  intros H. unfold getitem, of_option.
  now rewrite (nth_error_nth' l d H).
Qed.

Lemma plot_series_ok (m0 : Machine F) t i k_name device times :
  series_of m0 device k_name = Some times ->
  List.length times <= List.length (nodes_list tb) ->
  i < 3 ->
  plot_series tb i k_name device (extend t m0)
  = (Ok tt, extend (t ++ series_plot tb m0 i k_name device) m0).
Proof.
  intros Hs Hlen Hi. unfold plot_series, series_plot.
  change (series_of (extend t m0) device k_name) with (series_of m0 device k_name).
  unfold series_of in *.
  change (times_line (extend t m0)) with (times_line m0).
  destruct (dict_get (times_line m0) device) as [series|]; [|discriminate].
  unfold bind at 1. cbn [of_option ret].
  unfold bind at 1. rewrite Hs. cbn [of_option ret].
  destruct (valid_indices times) as [|idx rest] eqn:Ev.
  - apply (present_pairs_nil_iff (nodes_list tb)) in Ev; [|exact Hlen].
    rewrite Ev, app_nil_r. reflexivity.
  - assert (Hne : present_pairs (nodes_list tb) times <> []).
    { intros H. apply (present_pairs_nil_iff (nodes_list tb)) in H;
        [congruence | exact Hlen]. }
    rewrite <- Ev. unfold bind.
    rewrite valid_indices_from.
    rewrite (map_m_getitem_times (nodes_list tb) _ times [] Hlen).
    rewrite (map_m_getitem_nodes (nodes_list tb) _ times [] Hlen).
    rewrite (getitem_ok markers i "") by exact Hi.
    rewrite (getitem_ok colors i "") by exact Hi.
    rewrite plt_extend.
    destruct (present_pairs (nodes_list tb) times); [contradiction|].
    reflexivity.
Qed.

End Series.

Section Figures.

Context {F : Type}.
Variable tb : Tables.

Lemma plot_figure_a_ok (m0 : Machine F) t :
  plottable tb m0 ->
  plot_figure_a tb (extend t m0)
  = (Ok tt, extend (t ++ figure_a_events tb m0) m0).
Proof.
  intros [Hk Hs]. unfold plot_figure_a, figure_a_events.
  unfold bind at 1. rewrite plt_extend.
  unfold bind at 1.
  rewrite (for_each_extend
             (fun '(i, (k_name, _)) =>
                for_each (enumerate (devices tb))
                         (fun '(_, device) => plot_series tb i k_name device))
             (fun '(i, (k_name, _)) =>
                flat_map (fun '(_, device) => series_plot tb m0 i k_name device)
                         (enumerate (devices tb)))).
  - unfold bind. rewrite !plt_extend, <- !app_assoc. reflexivity.
  - intros [i [k_name k_data]] t1 Hin.
    apply enumerate_from_In in Hin as [Hi Hin].
    apply (for_each_extend
             (fun '(_, device) => plot_series tb i k_name device)
             (fun '(_, device) => series_plot tb m0 i k_name device)).
    intros [j device] t2 Hd.
    apply enumerate_from_In in Hd as [_ Hd].
    destruct (Hs device k_name Hd) as (times & E & L).
    + unfold dict_keys. apply (in_map fst) in Hin. exact Hin.
    + apply (plot_series_ok tb m0 t2 i k_name device times E L). lia.
Qed.

Lemma for_each_text (l : list F) (m0 : Machine F) : forall t,
  for_each l (fun elapsed_time => plt (AxText elapsed_time)) (extend t m0)
  = (Ok tt,
     extend (t ++ map (fun elapsed_time => EPlt (AxText elapsed_time)) l) m0).
Proof.
  induction l as [|x l IH]; intros t; simpl.
  - now rewrite app_nil_r.
  - unfold bind. rewrite plt_extend, IH, <- app_assoc. reflexivity.
Qed.

Lemma plot_figure_b_ok (m0 : Machine F) t :
  plot_figure_b (extend t m0)
  = (Ok tt, extend (t ++ figure_b_events m0) m0).
Proof.
  unfold plot_figure_b, figure_b_events.
  unfold bind at 1. rewrite plt_extend.
  change (times_bar (extend (t ++ [EPlt (Subplots 8 6)]) m0))
    with (times_bar m0).
  destruct (present_items (times_bar m0)) as [|it items]; cbn [map].
  - rewrite print_extend, <- app_assoc. reflexivity.
  - unfold bind at 1. rewrite plt_extend.
    unfold bind at 1.
    rewrite (for_each_text (snd it :: map snd items)).
    unfold bind. rewrite !plt_extend, <- !app_assoc. reflexivity.
Qed.

Lemma generate_plots_ok (m0 : Machine F) t :
  plottable tb m0 ->
  generate_plots tb (extend t m0)
  = (Ok tt, extend (t ++ plots_events tb m0) m0).
Proof.
  intros H. unfold generate_plots, plots_events.
  unfold bind at 1. rewrite (plot_figure_a_ok m0 t H).
  unfold bind at 1. rewrite plot_figure_b_ok.
  unfold bind. rewrite !print_extend, <- !app_assoc. reflexivity.
Qed.

End Figures.

(** ** Collected values *)

Section Values.

Context {F : Type}.
Variable sv : Services F.

Lemma artifact_value_present dir v :
  artifact_value sv dir = Some v
  <-> blob_exists sv BUCKET_NAME (dir ++ "/elapsed_time.txt") = Returns true
      /\ exists text,
           download_as_text sv BUCKET_NAME (dir ++ "/elapsed_time.txt")
           = Returns text
           /\ float sv text = Some v.
Proof.
  unfold artifact_value.
  destruct (blob_exists sv BUCKET_NAME (dir ++ "/elapsed_time.txt"))
    as [[|]|e1].
  - destruct (download_as_text sv BUCKET_NAME (dir ++ "/elapsed_time.txt"))
      as [text|e2].
    + split.
      * intros H. split; [reflexivity|]. exists text. auto.
      * intros [_ (text' & E & H)]. injection E as <-. exact H.
    + split; [discriminate|]. intros [_ (text' & E & _)]. discriminate.
  - split; [discriminate|]. intros [E _]. discriminate.
  - split; [discriminate|]. intros [E _]. discriminate.
Qed.

Lemma times_bar_collected tb (m : Machine F) f :
  In f (functionals tb) ->
  dict_get (times_bar (snd (collect_results sv tb m))) f
  = Some (bar_value sv f).
Proof.
  intros Hf. destruct (collect_results_ok sv tb m) as (m' & E & _ & B & _).
  rewrite E. cbn [snd]. rewrite B, dict_get_comprehension.
  now rewrite existsb_eqb_In.
Qed.

Lemma series_collected tb (m : Machine F) d k :
  NoDup (devices tb) -> NoDup (dict_keys (k_configs tb)) ->
  In d (devices tb) -> In k (dict_keys (k_configs tb)) ->
  series_of (snd (collect_results sv tb m)) d k
  = Some (map (line_value sv d k) (nodes_list tb)).
Proof.
  intros Nd Nk Hd Hk.
  destruct (collect_results_ok sv tb m) as (m' & E & S & _).
  rewrite E. cbn [snd]. rewrite S, !existsb_eqb_In by assumption.
  cbn [andb]. now rewrite line_extra_NoDup.
Qed.

(** After collection the line chart finds every series it reads, each as
    long as the node list. *)
Lemma collected_is_plottable tb (m : Machine F) :
  NoDup (devices tb) -> NoDup (dict_keys (k_configs tb)) ->
  List.length (k_configs tb) <= 3 ->
  plottable tb (snd (collect_results sv tb m)).
Proof.
  intros Nd Nk Hk. split; [exact Hk|].
  intros d k Hd Hkey. exists (map (line_value sv d k) (nodes_list tb)).
  split; [now apply series_collected|]. rewrite length_map. lia.
Qed.

End Values.

Section RoundTrip.

Context {F : Type}.
Variable sv : Services F.





End RoundTrip.

(** ** The charts *)

Section Charts.

Context {F : Type}.
Variable tb : Tables.
Variable m : Machine F.

Lemma series_plot_cases i k_name device :
  series_plot tb m i k_name device = []
  \/ exists times,
       series_of m device k_name = Some times
       /\ present_pairs (nodes_list tb) times <> []
       /\ series_plot tb m i k_name device
          = [ EPlt (AxPlot
                      (map fst (present_pairs (nodes_list tb) times))
                      (map (fun p => Some (snd p))
                           (present_pairs (nodes_list tb) times))
                      (nth i markers "") (nth i colors "")
                      (if String.eqb device "CPU" then "-" else "--")
                      (device ++ " - " ++ k_name)%string) ].
Proof.
  unfold series_plot.
  destruct (series_of m device k_name) as [times|]; [|now left].
  destruct (present_pairs (nodes_list tb) times) as [|p pp] eqn:E;
    [now left|].
  right. exists times. rewrite E. repeat split. discriminate.
Qed.

Lemma line_plots_In e :
  In e (line_plots tb m) ->
  exists i k_name device, In e (series_plot tb m i k_name device).
Proof.
  unfold line_plots. intros H.
  apply in_flat_map in H as ([i [k_name k_data]] & _ & H).
  apply in_flat_map in H as ([j device] & _ & H).
  eauto.
Qed.

Lemma line_plots_from_present_pairs xs ys marker color linestyle label :
  In (EPlt (AxPlot xs ys marker color linestyle label)) (line_plots tb m) ->
  exists d k times,
    series_of m d k = Some times
    /\ present_pairs (nodes_list tb) times <> []
    /\ xs = map fst (present_pairs (nodes_list tb) times)
    /\ ys = map (fun p => Some (snd p)) (present_pairs (nodes_list tb) times).
Proof.
  intros H. apply line_plots_In in H as (i & k_name & device & H).
  destruct (series_plot_cases i k_name device) as [E|(times & S & N & E)];
    rewrite E in H; [contradiction|].
  destruct H as [H|[]]. injection H as <- <- _ _ _ _.
  exists device, k_name, times. auto.
Qed.

Lemma series_with_value_is_plotted d k times :
  In d (devices tb) -> In k (dict_keys (k_configs tb)) ->
  series_of m d k = Some times ->
  present_pairs (nodes_list tb) times <> [] ->
  exists marker color linestyle label,
    In (EPlt (AxPlot (map fst (present_pairs (nodes_list tb) times))
                     (map (fun p => Some (snd p))
                          (present_pairs (nodes_list tb) times))
                     marker color linestyle label)) (line_plots tb m).
Proof.
  intros Hd Hk Hs Hn. unfold dict_keys in Hk.
  apply in_map_iff in Hk as ([k' k_data] & <- & Hk). cbn [fst] in *.
  assert (Hi : exists i, In (i, (k', k_data)) (enumerate (k_configs tb))).
  { unfold enumerate. generalize 0.
    induction (k_configs tb) as [|x l IH]; intros j; [contradiction|].
    destruct Hk as [->|Hk].
    - exists j. now left.
    - destruct (IH Hk (S j)) as [i Hi']. exists i. now right. }
  assert (Hj : exists j, In (j, d) (enumerate (devices tb))).
  { unfold enumerate. generalize 0.
    induction (devices tb) as [|x l IH]; intros j; [contradiction|].
    destruct Hd as [->|Hd].
    - exists j. now left.
    - destruct (IH Hd (S j)) as [j' Hj']. exists j'. now right. }
  destruct Hi as [i Hi]. destruct Hj as [j Hj].
  destruct (series_plot_cases i k' d) as [E|(times' & S & N & E)].
  - exfalso. unfold series_plot in E. rewrite Hs in E.
    destruct (present_pairs (nodes_list tb) times); [now apply Hn | discriminate].
  - rewrite Hs in S. injection S as <-.
    do 4 eexists. unfold line_plots.
    apply in_flat_map. exists (i, (k', k_data)). split; [exact Hi|].
    apply in_flat_map. exists (j, d). split; [exact Hj|].
    rewrite E. now left.
Qed.

Lemma row_quiet i k_name (l : list (nat * string)) :
  saved_figures
    (flat_map (fun '(_, device) => series_plot tb m i k_name device) l) = []
  /\ printed
       (flat_map (fun '(_, device) => series_plot tb m i k_name device) l) = []
  /\ forall xs heights,
       ~ In (EPlt (AxBar xs heights))
            (flat_map (fun '(_, device) => series_plot tb m i k_name device) l).
Proof.
  induction l as [|[j device] l IH].
  - repeat split. intros xs heights [].
  - cbn [flat_map]. rewrite saved_figures_app, printed_app.
    destruct IH as (I1 & I2 & I3). rewrite I1, I2, !app_nil_r.
    destruct (series_plot_cases i k_name device)
      as [E|(times & _ & _ & E)]; rewrite E; repeat split; auto.
    intros xs heights H. apply in_app_or in H as [[H|[]]|H];
      [discriminate | eapply I3; eauto].
Qed.

Lemma line_plots_quiet :
  saved_figures (line_plots tb m) = [] /\ printed (line_plots tb m) = []
  /\ (forall xs heights, ~ In (EPlt (AxBar xs heights)) (line_plots tb m)).
Proof.
  unfold line_plots.
  induction (enumerate (k_configs tb)) as [|[i [k_name k_data]] l IH].
  - repeat split. intros xs heights [].
  - cbn [flat_map]. rewrite saved_figures_app, printed_app.
    destruct IH as (IH1 & IH2 & IH3). rewrite IH1, IH2, !app_nil_r.
    destruct (row_quiet i k_name (enumerate (devices tb))) as (Q1 & Q2 & Q3).
    repeat split; auto.
    intros xs heights H. apply in_app_or in H as [H|H];
      [eapply Q3 | eapply IH3]; eauto.
Qed.

End Charts.

Lemma figure_a_events_eq {F} tb (m : Machine F) :
  figure_a_events tb m
  = [EPlt (Subplots 10 6)] ++ line_plots tb m
    ++ [ EPlt (AxDecorate "Number of Nodes" "Time (hours)"
                          "VASP Scaling Performance");
         EPlt AxLegend; EPlt AxGrid; EPlt AxLogScales; EPlt TightLayout;
         EPlt (Savefig "figure_a.png"); EPlt PltClose ].
Proof. reflexivity. Qed.

Lemma saved_figures_texts {F} (l : list F) :
  saved_figures (map (fun elapsed_time => EPlt (AxText elapsed_time)) l) = []
  /\ printed (map (fun elapsed_time => EPlt (AxText elapsed_time)) l) = [].
Proof. induction l as [|x l [IH1 IH2]]; simpl; auto. Qed.

(** ** The script *)

Lemma plain_no_lf c : plain_char c = true -> Ascii.eqb c "010" = false.
Proof.
  unfold plain_char, printable. intros H.
  destruct (Ascii.eqb_spec c "010") as [->|]; [discriminate | reflexivity].
Qed.

Lemma read_literal_plain (v : string) : forall rest,
  plain v = true -> read_literal (v ++ String "'" rest) = Some (v, rest).
Proof.
  induction v as [|c v IH]; intros rest H; [reflexivity|].
  cbn [plain] in H. apply andb_prop in H as [Hc Hv].
  cbn [append read_literal]. rewrite (IH rest Hv).
  unfold plain_char in Hc. apply andb_prop in Hc as [Hc Hb].
  apply andb_prop in Hc as [Hp Hq].
  apply negb_true_iff in Hb, Hq. rewrite Hq, Hb, Hp. reflexivity.
Qed.

Lemma strip_prefix_app (p s : string) : strip_prefix p (p ++ s) = Some s.
Proof.
  induction p as [|a p IH]; [reflexivity|].
  cbn. now rewrite Ascii.eqb_refl.
Qed.

Lemma plain_is_no_lf s : plain s = true -> no_lf s = true.
Proof.
  induction s as [|c s IH]; [reflexivity|]. cbn. intros H.
  apply andb_prop in H as [Hc Hs]. rewrite (plain_no_lf c Hc), IH by exact Hs.
  reflexivity.
Qed.

Lemma no_lf_app a b : no_lf (a ++ b) = no_lf a && no_lf b.
Proof.
  induction a as [|c a IH]; [reflexivity|]. cbn. now rewrite IH, andb_assoc.
Qed.

Lemma lines_nonempty s : lines s <> [].
Proof.
  induction s as [|c s IH]; cbn; [discriminate|].
  destruct (Ascii.eqb c "010"); [discriminate|].
  destruct (lines s); discriminate.
Qed.

Lemma lines_line (a b : string) :
  no_lf a = true -> lines (a ++ String "010" b) = a :: lines b.
Proof.
  induction a as [|c a IH]; intros H; [reflexivity|].
  cbn in H. apply andb_prop in H as [Hc Ha]. apply negb_true_iff in Hc.
  cbn [append lines]. rewrite Hc, (IH Ha). reflexivity.
Qed.

Lemma lines_app (a b : string) :
  no_lf a = true ->
  lines (a ++ b)
  = match lines b with
    | l :: ls => (a ++ l)%string :: ls
    | [] => [a]
    end.
Proof.
  induction a as [|c a IH]; intros H.
  - cbn. destruct (lines b) eqn:E; [now apply lines_nonempty in E | reflexivity].
  - cbn in H. apply andb_prop in H as [Hc Ha]. apply negb_true_iff in Hc.
    cbn [append lines]. rewrite Hc, (IH Ha).
    destruct (lines b); reflexivity.
Qed.

Lemma lines_nl (b : string) : lines (nl ++ b) = EmptyString :: lines b.
Proof. reflexivity. Qed.

Lemma script_lines (dir cmd : string) :
  no_lf dir = true -> no_lf cmd = true ->
  lines (script_text (script_steps dir cmd))
  = [ EmptyString;
      "import os";
      "from custodian.vasp.jobs import VaspJob";
      "from custodian.vasp.handlers import VaspErrorHandler";
      "from custodian.custodian import Custodian";
      "from pymatgen.io.vasp.outputs import Outcar";
      "from google.cloud import storage";
      EmptyString;
      "os.chdir('" ++ dir ++ "')";
      "job = VaspJob('" ++ cmd ++ "'.split(), final=True, suffix='')";
      "c = Custodian([VaspErrorHandler()], [job], max_errors=10)";
      "c.run()";
      EmptyString;
      "# Parse time";
      "outcar = Outcar('OUTCAR')";
      "elapsed_time = outcar.run_stats['Total CPU time used (sec)'] / 3600";
      "with open('elapsed_time.txt', 'w') as f:";
      "    f.write(str(elapsed_time))";
      EmptyString;
      "# Upload to GCS";
      "storage.Client().bucket('" ++ BUCKET_NAME ++ "').blob('"
        ++ (dir ++ "/elapsed_time.txt")
        ++ "').upload_from_filename('elapsed_time.txt')";
      EmptyString ]%string.
Proof.
  intros Hd Hc. unfold script_text, script_steps.
  cbn [chdir solver_cmd max_errors artifact_file upload_bucket upload_key].
  repeat first
    [ rewrite lines_nl
    | rewrite lines_app by (first [exact Hd | exact Hc | reflexivity
                                  | rewrite no_lf_app, Hd; reflexivity]) ].
  reflexivity.
Qed.

Lemma plain_app (a b : string) : plain (a ++ b) = plain a && plain b.
Proof.
  induction a as [|c a IH]; [reflexivity|]. cbn. now rewrite IH, andb_assoc.
Qed.

Lemma read_literal_plain_then (v q rest : string) :
  plain v = true ->
  read_literal (v ++ String "'" q ++ rest) = Some (v, (q ++ rest)%string).
Proof. intros H. exact (read_literal_plain v (q ++ rest) H). Qed.

Lemma read_script_text (dir cmd : string) :
  plain dir = true -> plain cmd = true ->
  read_script (script_text (script_steps dir cmd))
  = Some (script_steps dir cmd).
Proof.
  intros Hd Hc. unfold read_script.
  rewrite (script_lines dir cmd (plain_is_no_lf _ Hd) (plain_is_no_lf _ Hc)).
  replace (fits script_frame _) with true by reflexivity.
  cbn [nth].
  assert (Hk : plain (dir ++ "/elapsed_time.txt") = true)
    by (rewrite plain_app, Hd; reflexivity).
  unfold read_statement, read_upload.
  rewrite !strip_prefix_app.
  rewrite (read_literal_plain dir ")" Hd).
  rewrite (read_literal_plain cmd ".split(), final=True, suffix='')" Hc).
  rewrite (read_literal_plain_then BUCKET_NAME ").blob('"
             ((dir ++ "/elapsed_time.txt")
              ++ "').upload_from_filename('elapsed_time.txt')") eq_refl).
  rewrite !String.eqb_refl.
  rewrite (strip_prefix_app ").blob('").
  rewrite (read_literal_plain (dir ++ "/elapsed_time.txt")
             ").upload_from_filename('elapsed_time.txt')" Hk).
  reflexivity.
Qed.

Lemma job_script_build_job (dir cmd : string) (n : Z) (dev : string) :
  job_script (build_job dir cmd n dev)
  = Some (script_text (script_steps dir cmd)).
Proof. unfold build_job. destruct (String.eqb dev "GPU"); reflexivity. Qed.

Lemma job_upload_plain (dir cmd : string) (n : Z) (dev text : string)
      (s : Store) :
  plain dir = true -> plain cmd = true ->
  job_upload (build_job dir cmd n dev) text s
  = Some (put BUCKET_NAME (dir ++ "/elapsed_time.txt") text s).
Proof.
  intros Hd Hc. unfold job_upload.
  rewrite job_script_build_job, (read_script_text dir cmd Hd Hc). reflexivity.
Qed.

(** ** Bars *)

Lemma dict_set_fresh {V} (d : dict V) k v :
  ~ In k (map fst d) -> dict_set d k v = d ++ [(k, v)].
Proof.
  induction d as [|[k' v'] d IH]; intros H; [reflexivity|].
  cbn in *. destruct (String.eqb_spec k k') as [->|_].
  - exfalso. apply H. now left.
  - rewrite IH; [reflexivity|]. intros Hin. apply H. now right.
Qed.

Lemma fold_set_fresh {V} (f : string -> V) keys : forall d,
  NoDup keys -> (forall k, In k keys -> ~ In k (map fst d)) ->
  fold_left (fun d k => dict_set d k (f k)) keys d
  = d ++ map (fun k => (k, f k)) keys.
Proof.
  induction keys as [|k keys IH]; intros d Nd Hd; cbn.
  - now rewrite app_nil_r.
  - inversion Nd as [|? ? Hk Nd']; subst.
    rewrite dict_set_fresh by (apply Hd; now left).
    rewrite IH; [now rewrite <- app_assoc| exact Nd' |].
    intros k' Hk' Hin. rewrite map_app in Hin. apply in_app_or in Hin as [Hin|Hin].
    + apply (Hd k'); [now right | exact Hin].
    + cbn in Hin. destruct Hin as [<-|[]]. contradiction.
Qed.

Lemma dict_comprehension_NoDup {V} (f : string -> V) keys :
  NoDup keys -> dict_comprehension keys f = map (fun k => (k, f k)) keys.
Proof.
  intros Nd. unfold dict_comprehension.
  rewrite fold_set_fresh; [reflexivity | exact Nd | intros k _ []].
Qed.

Lemma present_items_bars {F} (d : dict (option F)) :
  present_items d = present_bars d.
Proof.
  induction d as [|[f [v|]] d IH]; cbn; [reflexivity| |exact IH].
  now rewrite IH.
Qed.

Lemma present_bars_collected {F} (sv : Services F) fs :
  present_bars (map (fun f => (f, bar_value sv f)) fs) = bar_pairs sv fs.
Proof.
  induction fs as [|f fs IH]; [reflexivity|].
  cbn [map present_bars bar_pairs flat_map snd fst].
  fold (present_bars (map (fun f => (f, bar_value sv f)) fs)).
  fold (bar_pairs sv fs). rewrite IH. reflexivity.
Qed.

(** ** A run that goes through *)

(** When the jobs finish one poll pass apart, the loop drains [job_names] and
    [main] goes on to collect and plot. *)
Example main_completes_when_jobs_finish_one_per_pass :
  let sv := Demo.services Demo.one_per_pass Demo.empty_store in
  let m := snd (main sv scale_py 8 boot) in
  fst (main sv scale_py 8 boot) = Ok tt
  /\ job_names m = []
  /\ List.length (polled (trace m)) = 36
  /\ times_bar m = [("PBE", None); ("HSE06", None)]
  /\ saved_figures (trace m) = ["figure_a.png"].
Proof. vm_compute. repeat split; reflexivity. Qed.

(** * The claims *)

(** Claim C1 (every entry is removed exactly once, in the pass that first
    sees it terminal, and no entry last seen non-terminal is removed) does
    not hold of the loop at lines 209-217.  The pass runs over a copy of
    [job_names] but pops, from [job_names] itself, the index the entry had
    in the copy.  With the eight jobs of the configured matrix, of which the
    service reports the first two SUCCEEDED and the others RUNNING, one pass
    leaves "jobs/1" (seen SUCCEEDED) in [job_names] and removes "jobs/2"
    (seen RUNNING). *)
Theorem poll_pass_drops_running_job :
  let sv := Demo.services Demo.two_done Demo.empty_store in
  let m := snd (main sv scale_py 1 boot) in
  polled (trace m)
  = [ ("jobs/0", Returns SUCCEEDED); ("jobs/1", Returns SUCCEEDED);
      ("jobs/2", Returns RUNNING); ("jobs/3", Returns RUNNING);
      ("jobs/4", Returns RUNNING); ("jobs/5", Returns RUNNING);
      ("jobs/6", Returns RUNNING); ("jobs/7", Returns RUNNING) ]
  /\ job_names m
     = [ ("run_line_CPU_2x2x6_2", "jobs/1");
         ("run_line_CPU_3x3x9_2", "jobs/3");
         ("run_line_CPU_4x4x12_1", "jobs/4");
         ("run_line_CPU_4x4x12_2", "jobs/5");
         ("run_bar_PBE_MySystem", "jobs/6");
         ("run_bar_HSE06_MySystem", "jobs/7") ].
Proof. vm_compute. split; reflexivity. Qed.

(** Claim C2 (if every job ends up terminal the loop terminates with an
    empty active set and every job classified once) does not hold.  When the
    eight jobs of the configured matrix are all reported SUCCEEDED at the
    first pass, the fifth [pop] raises [IndexError]: [main] ends with that
    exception whatever the number of passes allowed, four jobs are still in
    [job_names], three were never polled, and nothing is collected or
    plotted. *)
Theorem tracking_aborts_when_jobs_finish_together (fuel : nat) :
  let sv := Demo.services Demo.all_succeeded Demo.empty_store in
  let m := snd (main sv scale_py (S fuel) boot) in
  fst (main sv scale_py (S fuel) boot)
  = Exc (IndexError "pop index out of range")
  /\ job_names m
     = [ ("run_line_CPU_2x2x6_2", "jobs/1");
         ("run_line_CPU_3x3x9_2", "jobs/3");
         ("run_line_CPU_4x4x12_2", "jobs/5");
         ("run_bar_HSE06_MySystem", "jobs/7") ]
  /\ polled (trace m)
     = [ ("jobs/0", Returns SUCCEEDED); ("jobs/1", Returns SUCCEEDED);
         ("jobs/2", Returns SUCCEEDED); ("jobs/3", Returns SUCCEEDED);
         ("jobs/4", Returns SUCCEEDED) ]
  /\ times_bar m = [] /\ saved_figures (trace m) = [].
Proof. vm_compute. repeat split; reflexivity. Qed.

(** Claim C3 (no [GetJob] for a handle after a poll saw it terminal) does
    not hold.  In the scenario of C1, "jobs/1" is seen SUCCEEDED in the first
    pass, stays in [job_names] because the [pop] removed its neighbour, and
    is polled again in the second pass; "jobs/2" is never polled again. *)
Theorem terminal_job_polled_again :
  let sv := Demo.services Demo.two_done Demo.empty_store in
  let m := snd (main sv scale_py 2 boot) in
  polled (trace m)
  = [ ("jobs/0", Returns SUCCEEDED); ("jobs/1", Returns SUCCEEDED);
      ("jobs/2", Returns RUNNING); ("jobs/3", Returns RUNNING);
      ("jobs/4", Returns RUNNING); ("jobs/5", Returns RUNNING);
      ("jobs/6", Returns RUNNING); ("jobs/7", Returns RUNNING);
      ("jobs/1", Returns SUCCEEDED); ("jobs/3", Returns RUNNING);
      ("jobs/4", Returns RUNNING); ("jobs/5", Returns RUNNING);
      ("jobs/6", Returns RUNNING); ("jobs/7", Returns RUNNING) ].
Proof. vm_compute. reflexivity. Qed.

(** Claim C4: when the service refuses the submission of the run that
    follows [pre] in the matrix, [main] ends with that very exception after
    printing it; inputs were materialized for [pre] and the refused run only,
    requests were sent for those runs only, [job_names] holds the handles of
    [pre], and the trace holds nothing but prints, the POSCAR check, input
    creation and [CreateJob] calls: no poll, no sleep, no storage access, no
    plot, and no call that would cancel a job. *)
Theorem submission_error_aborts_batch
        {F} (sv : Services F) (tb : Tables) (fuel : nat)
        (pre : list Run) (r : Run) (post : list Run) (e : exn) :
  path_exists sv "POSCAR" = true ->
  run_matrix tb = pre ++ r :: post ->
  Forall (accepted sv) (enumerate pre) ->
  write_input sv (dir_name r) = Returns tt ->
  create_job sv (List.length pre) (request_of r) = Raises e ->
  let m := snd (main sv tb fuel boot) in
  fst (main sv tb fuel boot) = Exc e
  /\ materialized (trace m) = map dir_name pre ++ [dir_name r]
  /\ create_requests (trace m) = map request_of pre ++ [request_of r]
  /\ job_names m = map (handle_of sv) (enumerate pre)
  /\ forallb is_submission_event (trace m) = true
  /\ last (printed (trace m)) ""
     = ("Error in main execution: " ++ str_exn e)%string.
Proof.
  intros Hp Hm Hpre Hw Hc m.
  destruct (main_refused sv tb fuel pre r post e Hp Hm Hpre Hw Hc)
    as (pre' & m0 & Hmain & Hacc & Hmat & Hreq & Hjobs & Honly).
  subst m. rewrite Hmain. cbn [fst snd].
  destruct (refused_at_seen sv pre' r "" m0
              ("Error in main execution: " ++ str_exn e)%string Hacc Hw)
    as (H1 & H2 & H3 & H4 & _ & H6).
  rewrite H1, H2, H3, H4, H6, !app_assoc, Hmat, Hreq, Hjobs.
  repeat split; auto.
Qed.

Lemma submission_error_aborts_batch_witness :
  let m := snd (main (Demo.refusing 1) scale_py 5 boot) in
  fst (main (Demo.refusing 1) scale_py 5 boot)
  = Exc (ServiceError "429 Quota exceeded")
  /\ materialized (trace m) = ["run_line_CPU_2x2x6_1"; "run_line_CPU_2x2x6_2"]
  /\ job_names m = [("run_line_CPU_2x2x6_1", "jobs/0")].
Proof.
  intros m.
  destruct (submission_error_aborts_batch (Demo.refusing 1) scale_py 5
              (firstn 1 (run_matrix scale_py))
              (nth 1 (run_matrix scale_py) (bar_run scale_py ""))
              (skipn 2 (run_matrix scale_py))
              (ServiceError "429 Quota exceeded"))
    as (H1 & H2 & _ & H4 & _).
  - reflexivity.
  - reflexivity.
  - repeat constructor; eexists; reflexivity.
  - reflexivity.
  - reflexivity.
  - split; [exact H1 | split; [exact H2 | exact H4]].
Defined.

(** Claim C5: result collection always returns normally.  For every
    functional [times_bar] holds, and (tables without repeated keys) for
    every device, density and node count [times_line] holds at that position,
    the [artifact_value] of the run; that value is [Some v] exactly when
    [blob.exists()] returned true, the download returned a text and [float]
    parsed it to [v], and it is [None], not a number, in every other case.
    [job_names] is left alone. *)
Theorem collection_records_absent_and_continues
        {F} (sv : Services F) (tb : Tables) (m : Machine F) :
  let m' := snd (collect_results sv tb m) in
  fst (collect_results sv tb m) = Ok tt
  /\ (forall f, In f (functionals tb) ->
        dict_get (times_bar m') f
        = Some (artifact_value sv (bar_dir_name f)))
  /\ (forall d k,
        NoDup (devices tb) -> NoDup (dict_keys (k_configs tb)) ->
        In d (devices tb) -> In k (dict_keys (k_configs tb)) ->
        series_of m' d k
        = Some (map (fun n => artifact_value sv (line_dir_name d k n))
                    (nodes_list tb)))
  /\ (forall dir v,
        artifact_value sv dir = Some v
        <-> blob_exists sv BUCKET_NAME (dir ++ "/elapsed_time.txt")
            = Returns true
            /\ exists text,
                 download_as_text sv BUCKET_NAME (dir ++ "/elapsed_time.txt")
                 = Returns text
                 /\ float sv text = Some v)
  /\ job_names m' = job_names m.
Proof.
  intros m'. subst m'. repeat apply conj.
  - destruct (collect_results_ok sv tb m) as (m' & E & _). now rewrite E.
  - intros f Hf. apply times_bar_collected. exact Hf.
  - intros d k Nd Nk Hd Hk. now apply series_collected.
  - apply artifact_value_present.
  - destruct (collect_results_ok sv tb m) as (m' & E & _ & _ & J).
    now rewrite E.
Qed.

Lemma collection_records_absent_and_continues_witness :
  let sv := Demo.services Demo.two_done
              (put BUCKET_NAME "run_bar_PBE_MySystem/elapsed_time.txt" "1.5"
                 (put BUCKET_NAME "run_line_CPU_3x3x9_2/elapsed_time.txt" "fast"
                    Demo.empty_store)) in
  let m' := snd (collect_results sv scale_py boot) in
  fst (collect_results sv scale_py boot) = Ok tt
  /\ dict_get (times_bar m') "PBE" = Some (Some "1.5")
  /\ dict_get (times_bar m') "HSE06" = Some None
  /\ series_of m' "CPU" "3x3x9" = Some [None; None].
Proof.
  intros sv m'.
  destruct (collection_records_absent_and_continues sv scale_py boot)
    as (H1 & H2 & H3 & _).
  split; [exact H1|]. split; [|split].
  - apply (H2 "PBE"). simpl. auto.
  - apply (H2 "HSE06"). simpl. auto.
  - apply (H3 "CPU" "3x3x9").
    + repeat constructor; simpl; intuition discriminate.
    + repeat constructor; simpl; intuition discriminate.
    + simpl. auto.
    + simpl. auto.
Defined.




(** Claim C7: when every submission is accepted, the runs submitted by
    [submit_all], in order, are the run matrix: the cross product
    density x device x node count, leftmost axis slowest, followed by one run
    per functional.  For the tables of scale.py the eight run names are
    pairwise distinct. *)
Theorem run_matrix_is_cross_product
        {F} (sv : Services F) (tb : Tables) (m : Machine F) :
  Forall (accepted sv) (enumerate_from (creates m) (run_matrix tb)) ->
  let m' := snd (submit_all sv tb m) in
  fst (submit_all sv tb m) = Ok tt
  /\ map fst (job_names m') = map fst (job_names m) ++ run_names tb
  /\ create_requests (trace m')
     = create_requests (trace m) ++ map request_of (run_matrix tb)
  /\ run_matrix tb
     = map (fun '(k, device, nodes) => line_run k device nodes)
           (list_prod (list_prod (k_configs tb) (devices tb)) (nodes_list tb))
       ++ map (bar_run tb) (functionals tb)
  /\ NoDup (run_names scale_py)
  /\ List.length (run_names scale_py) = 8.
Proof.
  intros H m'. subst m'. rewrite (submit_all_accepted sv tb m H).
  pose proof H as H'.
  rewrite run_matrix_split, enumerate_from_app in H'.
  apply Forall_app in H' as [Hl Hb].
  cbn [fst snd]. unfold all_submitted, log, after_submissions.
  cbn [trace job_names creates].
  rewrite !create_requests_app, !map_app.
  rewrite !submissions_requests by assumption.
  rewrite !map_enumerate_from. simpl create_requests. rewrite !app_nil_r.
  repeat split.
  - unfold run_names. rewrite run_matrix_split, map_app, <- !app_assoc.
    f_equal. unfold handle_of.
    rewrite !map_map. cbn [fst].
    now rewrite !(map_enumerate_from dir_name).
  - now rewrite run_matrix_split, map_app, <- !app_assoc.
  - apply run_names_scale_py_NoDup.
Qed.

Lemma run_matrix_is_cross_product_witness :
  map fst (job_names
             (snd (submit_all (Demo.services Demo.two_done Demo.empty_store)
                              scale_py boot)))
  = run_names scale_py.
Proof.
  destruct (run_matrix_is_cross_product
              (Demo.services Demo.two_done Demo.empty_store) scale_py boot)
    as (_ & H & _).
  - repeat constructor; eexists; reflexivity.
  - exact H.
Defined.

(** Claim C8: the request that [submit_batch_job] sends holds exactly one
    task group, with a task count of 1 and a maximum retry count of 3; it is
    the same request whatever the node count, so nothing of [ntasks] reaches
    it; and for the runs of the configured matrix no number of the job
    specification equals [ntasks]. *)
Theorem job_spec_one_task_three_retries
        {F} (sv : Services F) (dir cmd : string) (n : Z) (dev : string)
        (m : Machine F) :
  let request := build_request dir cmd n dev in
  create_requests (trace (snd (submit_batch_job sv dir cmd n dev m)))
  = create_requests (trace m) ++ [request]
  /\ (exists g,
         task_groups (job request) = [g]
         /\ task_count g = 1%Z
         /\ max_retry_count (task_spec g) = 3%Z)
  /\ (forall n', build_request dir cmd n' dev = request)
  /\ (forall r, In r (run_matrix scale_py) ->
                ~ In (ntasks (nodes r) (device r))
                     (job_numbers (job (request_of r)))).
Proof.
  intros request. split; [|split; [|split]].
  - unfold submit_batch_job, bind, emit, print, of_reply, ret, raise.
    fold request.
    destruct (create_job sv (creates m) request); simpl;
      rewrite !create_requests_app; simpl; rewrite ?app_nil_r; reflexivity.
  - apply build_job_task_group.
  - reflexivity.
  - intros r Hr. vm_compute in Hr.
    repeat (destruct Hr as [<-|Hr]; [vm_compute; intuition discriminate|]).
    contradiction.
Qed.

(** Claim C9 (a chart without any present value renders nothing and a
    diagnostic is emitted instead of an output file) does not hold of the
    line chart.  The bar chart guards its drawing and its [savefig] by
    [if functionals_list] and prints a warning otherwise; the line chart has
    no such guard.  When collection found no artifact, every series of
    [times_line] holds only [None], no line is drawn, and [figure_a.png] is
    written all the same, with nothing printed. *)
Lemma empty_line_chart_is_still_saved :
  let sv := Demo.services Demo.one_per_pass Demo.empty_store in
  let m := Demo.nothing_collected in
  times_line (snd (collect_results sv scale_py boot)) = times_line m
  /\ Forall (fun series =>
               Forall (fun times => valid_indices (snd times) = [])
                      (snd series))
            (times_line m)
  /\ fst (plot_figure_a scale_py m) = Ok tt
  /\ saved_figures (trace (snd (plot_figure_a scale_py m))) = ["figure_a.png"]
  /\ printed (trace (snd (plot_figure_a scale_py m))) = []
  /\ ~ skipped_with_diagnostic (trace (snd (plot_figure_a scale_py m))).
Proof.
  intros sv m. split; [reflexivity|]. split; [repeat constructor|].
  split; [reflexivity|]. split; [reflexivity|]. split; [reflexivity|].
  intros [H _]. vm_compute in H. discriminate.
Qed.

(** Claim C10: with no repeated device or density, after collection the
    series of every (device, density) pair has one entry per node count, in
    the order of [nodes_list]; every index of a present value is below
    [len(nodes_list)], and the two index lookups of the line chart succeed
    and yield the present (node count, value) pairs. *)
Theorem series_aligned_with_nodes
        {F} (sv : Services F) (tb : Tables) (m : Machine F) (d k : string) :
  NoDup (devices tb) -> NoDup (dict_keys (k_configs tb)) ->
  In d (devices tb) -> In k (dict_keys (k_configs tb)) ->
  exists times,
    series_of (snd (collect_results sv tb m)) d k = Some times
    /\ times = map (fun n => artifact_value sv (line_dir_name d k n))
                   (nodes_list tb)
    /\ List.length times = List.length (nodes_list tb)
    /\ (forall idx, In idx (valid_indices times) ->
                    idx < List.length (nodes_list tb))
    /\ (forall m0 : Machine F,
          map_m (getitem (nodes_list tb)) (valid_indices times) m0
          = (Ok (map fst (present_pairs (nodes_list tb) times)), m0))
    /\ (forall m0 : Machine F,
          map_m (getitem times) (valid_indices times) m0
          = (Ok (map (fun p => Some (snd p))
                     (present_pairs (nodes_list tb) times)), m0)).
Proof.
  intros Nd Nk Hd Hk.
  exists (map (line_value sv d k) (nodes_list tb)).
  assert (L : List.length (map (line_value sv d k) (nodes_list tb))
              = List.length (nodes_list tb)) by apply length_map.
  repeat apply conj; auto.
  - now apply series_collected.
  - intros idx H. rewrite valid_indices_from in H.
    apply indices_from_bound in H. rewrite length_map in H. lia.
  - intros m0. rewrite valid_indices_from.
    apply (map_m_getitem_nodes (nodes_list tb) m0
             (map (line_value sv d k) (nodes_list tb)) []).
    rewrite length_map. lia.
  - intros m0. rewrite valid_indices_from.
    apply (map_m_getitem_times (nodes_list tb) m0
             (map (line_value sv d k) (nodes_list tb)) []).
    rewrite length_map. lia.
Qed.

Lemma series_aligned_with_nodes_witness :
  exists times,
    series_of (snd (collect_results
                      (Demo.services Demo.two_done Demo.empty_store)
                      scale_py boot)) "CPU" "4x4x12" = Some times
    /\ List.length times = 2.
Proof.
  destruct (series_aligned_with_nodes
              (Demo.services Demo.two_done Demo.empty_store) scale_py boot
              "CPU" "4x4x12") as (times & H1 & _ & H3 & _).
  - repeat constructor; simpl; intuition discriminate.
  - repeat constructor; simpl; intuition discriminate.
  - simpl. auto.
  - simpl. auto.
  - exists times. split; [exact H1 | exact H3].
Defined.

(** * Further properties *)

(** ** Configuration check *)

(** X1.  When [POSCAR] is missing, [validate_config] raises
    [FileNotFoundError] and [main] ends with it after printing the two
    default-configuration lines and the error line: no directory is made, no
    job is created, nothing is polled, collected or plotted. *)
Theorem missing_poscar_stops_before_any_run
        {F} (sv : Services F) (tb : Tables) (fuel : nat) :
  path_exists sv "POSCAR" = false ->
  main sv tb fuel boot
  = (Exc (FileNotFoundError
            "POSCAR file not found. Please ensure POSCAR is in the current directory."),
     fold_left (fun m e => log e m)
       [ EPrint "Using default project ID: vasp-scaling-analysis";
         EPrint "Using default bucket name: vasp-scaling-outputs";
         EPathExists "POSCAR" false;
         EPrint "Error in main execution: POSCAR file not found. Please ensure POSCAR is in the current directory." ]
       boot).
Proof.
  intros H. unfold main, try_except, validate_config.
  unfold bind at 1 2 3. simpl. rewrite H. reflexivity.
Qed.

Lemma missing_poscar_stops_before_any_run_witness :
  let sv : Services string :=
    {| path_exists := fun _ => false;
       write_input := fun _ => Returns tt;
       create_job := fun i _ => Returns "job";
       get_job := fun _ _ => Returns SUCCEEDED;
       blob_exists := fun _ _ => Returns false;
       download_as_text := fun _ _ => Raises (ServiceError "404");
       float := Demo.parse;
       repr := Demo.quoted |} in
  job_names (snd (main sv scale_py 3 boot)) = []
  /\ create_requests (trace (snd (main sv scale_py 3 boot))) = [].
Proof.
  intros sv.
  rewrite (missing_poscar_stops_before_any_run sv scale_py 3 eq_refl).
  split; reflexivity.
Defined.

(** ** Submission *)

Section InputFailure.

Context {F : Type}.
Variable sv : Services F.
Variable tb : Tables.

Lemma submit_run_input_fails r e (m : Machine F) :
  write_input sv (dir_name r) = Raises e ->
  submit_run sv r m
  = (Exc e,
     log (EWriteInput (dir_name r) (user_kpoints_settings (kpts_arg r))
                      (incar_updates (functional r)) (Raises e))
         (log (EMakedirs (dir_name r)) m)).
Proof.
  intros H. unfold submit_run, create_inputs, bind, emit.
  rewrite H. reflexivity.
Qed.

Lemma for_each_submit_stops pre r post e (m m_r : Machine F) :
  Forall (accepted sv) (enumerate_from (creates m) pre) ->
  submit_run sv r (after_submissions sv pre m) = (Exc e, m_r) ->
  for_each (pre ++ r :: post) (submit_run sv) m = (Exc e, m_r).
Proof.
  intros Hpre Hr. rewrite for_each_app. unfold bind.
  rewrite (for_each_submit_accepted sv pre m Hpre). cbn [for_each].
  unfold bind. now rewrite Hr.
Qed.

Lemma after_submissions_seen runs (m : Machine F) :
  Forall (accepted sv) (enumerate_from (creates m) runs) ->
  let m1 := after_submissions sv runs m in
  creates m1 = creates m + List.length runs
  /\ job_names m1
     = job_names m ++ map (handle_of sv) (enumerate_from (creates m) runs)
  /\ materialized (trace m1) = materialized (trace m) ++ map dir_name runs
  /\ create_requests (trace m1)
     = create_requests (trace m) ++ map request_of runs
  /\ forallb is_submission_event (trace m1)
     = forallb is_submission_event (trace m).
Proof.
  intros H m1. subst m1. unfold after_submissions. cbn [trace creates job_names].
  rewrite materialized_app, create_requests_app, forallb_app.
  rewrite submissions_materialized, submissions_requests by exact H.
  rewrite submissions_only, !map_enumerate_from, andb_true_r.
  repeat split.
Qed.

(** Whatever stops the submission of the run after [pre], this is the
    machine it finds. *)
Lemma submit_all_stops pre r post (m : Machine F) :
  run_matrix tb = pre ++ r :: post ->
  Forall (accepted sv) (enumerate_from (creates m) pre) ->
  exists m1,
    creates m1 = creates m + List.length pre
    /\ job_names m1
       = job_names m ++ map (handle_of sv) (enumerate_from (creates m) pre)
    /\ materialized (trace m1) = materialized (trace m) ++ map dir_name pre
    /\ create_requests (trace m1)
       = create_requests (trace m) ++ map request_of pre
    /\ forallb is_submission_event (trace m1)
       = forallb is_submission_event (trace m)
    /\ forall e m_r,
         submit_run sv r m1 = (Exc e, m_r) ->
         submit_all sv tb m = (Exc e, m_r).
Proof.
  intros Hm Hpre.
  destruct (refused_position tb pre r post Hm) as [[post' Hl]|[pre' [-> Hb]]].
  - set (m0 := log (EPrint (nl ++ "Submitting line plot jobs...")) m).
    exists (after_submissions sv pre m0).
    assert (Stop : forall e m_r,
               submit_run sv r (after_submissions sv pre m0) = (Exc e, m_r) ->
               submit_all sv tb m = (Exc e, m_r)).
    { intros e m_r Hr. unfold submit_all.
      unfold bind at 1. cbn [print emit]. unfold bind at 1.
      rewrite line_loop_eq, Hl. fold m0.
      now rewrite (for_each_submit_stops pre r post' e m0 m_r Hpre Hr). }
    destruct (after_submissions_seen pre m0 Hpre) as (C & J & Mat & Req & Only).
    rewrite C, J, Mat, Req, Only.
    repeat split; try exact Stop; subst m0; unfold log;
      cbn [trace creates job_names];
      rewrite ?materialized_app, ?create_requests_app, ?forallb_app;
      cbn [materialized create_requests forallb is_submission_event];
      rewrite ?app_nil_r, ?andb_true_r; reflexivity.
  - pose proof Hpre as Hpre2.
    rewrite enumerate_from_app in Hpre2.
    apply Forall_app in Hpre2 as [Hl Hp].
    set (m0 := log (EPrint (nl ++ "Submitting line plot jobs...")) m).
    set (m2 := log (EPrint (nl ++ "Submitting bar plot jobs..."))
                   (after_submissions sv (line_runs tb) m0)).
    destruct (after_submissions_seen (line_runs tb) m0 Hl)
      as (C0 & J0 & Mat0 & Req0 & Only0).
    assert (Hp2 : Forall (accepted sv) (enumerate_from (creates m2) pre')).
    { subst m2. cbn [creates log]. rewrite C0. exact Hp. }
    exists (after_submissions sv pre' m2).
    assert (Stop : forall e m_r,
               submit_run sv r (after_submissions sv pre' m2) = (Exc e, m_r) ->
               submit_all sv tb m = (Exc e, m_r)).
    { intros e m_r Hr. unfold submit_all.
      unfold bind at 1. cbn [print emit]. unfold bind at 1.
      rewrite line_loop_eq. fold m0.
      rewrite (for_each_submit_accepted sv (line_runs tb) m0 Hl).
      unfold bind at 1. cbn [print emit]. unfold bind at 1.
      rewrite bar_loop_eq, Hb. fold m2.
      now rewrite (for_each_submit_stops pre' r post e m2 m_r Hp2 Hr). }
    destruct (after_submissions_seen pre' m2 Hp2) as (C & J & Mat & Req & Only).
    rewrite C, J, Mat, Req, Only.
    assert (C2 : creates m2 = creates m + List.length (line_runs tb))
      by (subst m2; cbn [creates log]; rewrite C0; reflexivity).
    assert (J2 : job_names m2
                 = job_names m
                   ++ map (handle_of sv)
                          (enumerate_from (creates m) (line_runs tb)))
      by (subst m2; cbn [job_names log]; rewrite J0; reflexivity).
    assert (Mat2 : materialized (trace m2)
                   = materialized (trace m) ++ map dir_name (line_runs tb)).
    { subst m2. cbn [trace log]. rewrite materialized_app, Mat0.
      subst m0. cbn [trace log]. rewrite materialized_app. cbn [materialized].
      now rewrite !app_nil_r. }
    assert (Req2 : create_requests (trace m2)
                   = create_requests (trace m)
                     ++ map request_of (line_runs tb)).
    { subst m2. cbn [trace log]. rewrite create_requests_app, Req0.
      subst m0. cbn [trace log]. rewrite create_requests_app.
      cbn [create_requests]. now rewrite !app_nil_r. }
    assert (Only2 : forallb is_submission_event (trace m2)
                    = forallb is_submission_event (trace m)).
    { subst m2. cbn [trace log]. rewrite forallb_app, Only0.
      subst m0. cbn [trace log]. rewrite forallb_app.
      cbn [forallb is_submission_event]. now rewrite !andb_true_r. }
    rewrite C2, J2, Mat2, Req2, Only2.
    rewrite !map_app, !length_app, enumerate_from_app, !map_app,
      <- !app_assoc, Nat.add_assoc.
    repeat split. exact Stop.
Qed.

End InputFailure.

(** X2.  If writing the input files of a run raises, [main] ends with that
    exception: the runs before it were materialized and submitted, the
    directory of the failing run was made but no job was created for it, no
    later run was touched, and nothing but submission happened. *)
Theorem input_error_aborts_batch
        {F} (sv : Services F) (tb : Tables) (fuel : nat)
        (pre : list Run) (r : Run) (post : list Run) (e : exn) :
  path_exists sv "POSCAR" = true ->
  run_matrix tb = pre ++ r :: post ->
  Forall (accepted sv) (enumerate pre) ->
  write_input sv (dir_name r) = Raises e ->
  let m := snd (main sv tb fuel boot) in
  fst (main sv tb fuel boot) = Exc e
  /\ materialized (trace m) = map dir_name pre ++ [dir_name r]
  /\ create_requests (trace m) = map request_of pre
  /\ job_names m = map (handle_of sv) (enumerate pre)
  /\ forallb is_submission_event (trace m) = true.
Proof.
  intros Hp Hm Hpre Hw m. subst m.
  rewrite (main_started sv tb fuel Hp).
  destruct (submit_all_stops sv tb pre r post started Hm Hpre)
    as (m1 & C & J & Mat & Req & Only & Stop).
  unfold try_except, bind.
  rewrite (Stop e _ (submit_run_input_fails sv r e m1 Hw)).
  unfold main_handler, bind, print, emit, raise. cbn [fst snd].
  unfold log. cbn [trace job_names].
  rewrite !materialized_app, !create_requests_app, !forallb_app.
  cbn [materialized create_requests forallb is_submission_event].
  rewrite Mat, Req, Only, J, !app_nil_r, <- !app_assoc.
  repeat split.
Qed.

Lemma input_error_aborts_batch_witness :
  let sv : Services string :=
    {| path_exists := fun _ => true;
       write_input := fun d =>
         if String.eqb d "run_line_CPU_3x3x9_1"
         then Raises (ServiceError "disk full") else Returns tt;
       create_job := fun i _ => Returns "job";
       get_job := fun _ _ => Returns RUNNING;
       blob_exists := fun _ _ => Returns false;
       download_as_text := fun _ _ => Raises (ServiceError "404");
       float := Demo.parse;
       repr := Demo.quoted |} in
  fst (main sv scale_py 3 boot) = Exc (ServiceError "disk full")
  /\ List.length (create_requests (trace (snd (main sv scale_py 3 boot)))) = 2.
Proof.
  intros sv.
  destruct (input_error_aborts_batch sv scale_py 3
              (firstn 2 (run_matrix scale_py))
              (nth 2 (run_matrix scale_py) (bar_run scale_py ""))
              (skipn 3 (run_matrix scale_py))
              (ServiceError "disk full"))
    as (H1 & _ & H3 & _).
  - reflexivity.
  - reflexivity.
  - repeat constructor; eexists; reflexivity.
  - reflexivity.
  - split; [exact H1|]. rewrite H3. reflexivity.
Defined.

(** *** Names *)

Lemma append_cancel_l (s a b : string) : (s ++ a = s ++ b)%string -> a = b.
Proof.
  induction s as [|c s IH]; simpl; intros H; [exact H|].
  injection H as H. auto.
Qed.

Lemma length_append (a b : string) :
  String.length (a ++ b) = String.length a + String.length b.
Proof. induction a as [|c a IH]; simpl; [reflexivity | now rewrite IH]. Qed.

Lemma append_cancel_r (s : string) : forall a b : string,
  (a ++ s = b ++ s)%string -> a = b.
Proof.
  induction a as [|c a IH]; intros b H.
  - destruct b as [|c' b]; [reflexivity|]. exfalso.
    apply (f_equal String.length) in H. simpl in H.
    rewrite length_append in H. lia.
  - destruct b as [|c' b].
    + exfalso. apply (f_equal String.length) in H. simpl in H.
      rewrite length_append in H. lia.
    + simpl in H. injection H as -> H. f_equal. now apply IH.
Qed.

Lemma to_int_not_nil (z : Z) :
  Z.to_int z <> Decimal.Pos Decimal.Nil /\ Z.to_int z <> Decimal.Neg Decimal.Nil.
Proof.
  destruct z as [|p|p]; simpl; split; try discriminate;
    intros H; injection H as H; now apply Unsigned.to_uint_nonnil in H.
Qed.

Lemma str_int_inj (a b : Z) : str_int a = str_int b -> a = b.
Proof.
  unfold str_int. intros H.
  destruct (to_int_not_nil a) as [A1 A2]. destruct (to_int_not_nil b) as [B1 B2].
  pose proof (NilZero.isi (Z.to_int a) A1 A2) as Ia.
  pose proof (NilZero.isi (Z.to_int b) B1 B2) as Ib.
  rewrite H, Ib in Ia. injection Ia as E.
  rewrite <- (of_to a), <- (of_to b). now rewrite E.
Qed.

Lemma line_name_is_not_bar_name device k_name n f :
  line_dir_name device k_name n <> bar_dir_name f.
Proof. unfold line_dir_name, bar_dir_name. simpl. discriminate. Qed.

Lemma bar_dir_name_inj f g : bar_dir_name f = bar_dir_name g -> f = g.
Proof.
  unfold bar_dir_name. intros H.
  apply (append_cancel_l "run_bar_") in H.
  exact (append_cancel_r "_MySystem" f g H).
Qed.

Lemma line_dir_name_inj_nodes device k_name n n' :
  line_dir_name device k_name n = line_dir_name device k_name n' -> n = n'.
Proof.
  unfold line_dir_name. intros H.
  apply (append_cancel_l "run_line_"), (append_cancel_l device),
    (append_cancel_l "_"), (append_cancel_l k_name), (append_cancel_l "_") in H.
  now apply str_int_inj.
Qed.

Lemma NoDup_map_inj {A B} (f : A -> B) (l : list A) :
  (forall a b, f a = f b -> a = b) -> NoDup l -> NoDup (map f l).
Proof.
  intros Hf. induction 1 as [|x l Hx Hl IH]; simpl; constructor; auto.
  intros H. apply in_map_iff in H as (y & E & Hy).
  apply Hf in E. now subst.
Qed.

(** X3.  For any tables without repeated functionals and node counts, the
    bar-study directory names are pairwise distinct, the line-study names of
    one device and density are pairwise distinct, and no line-study name
    equals a bar-study name. *)
Theorem run_names_do_not_clash (tb : Tables) :
  NoDup (functionals tb) -> NoDup (nodes_list tb) ->
  NoDup (map dir_name (bar_runs tb))
  /\ (forall device k_name,
        NoDup (map (line_dir_name device k_name) (nodes_list tb)))
  /\ (forall a b,
        In a (map dir_name (line_runs tb)) ->
        In b (map dir_name (bar_runs tb)) -> a <> b).
Proof.
  intros Nf Nn. repeat apply conj.
  - unfold bar_runs. rewrite map_map. cbn [dir_name bar_run].
    apply NoDup_map_inj; [exact bar_dir_name_inj | exact Nf].
  - intros device k_name. apply NoDup_map_inj; [|exact Nn].
    intros a b. apply line_dir_name_inj_nodes.
  - intros a b Ha Hb.
    apply in_map_iff in Ha as (ra & <- & Ha).
    apply in_map_iff in Hb as (rb & <- & Hb).
    unfold line_runs in Ha. apply in_map_iff in Ha as ([[k d] n] & <- & _).
    unfold bar_runs in Hb. apply in_map_iff in Hb as (f & <- & _).
    apply line_name_is_not_bar_name.
Qed.

Lemma run_names_do_not_clash_witness :
  NoDup (map dir_name (bar_runs scale_py)).
Proof.
  destruct (run_names_do_not_clash scale_py) as (H & _).
  - repeat constructor; simpl; intuition discriminate.
  - repeat constructor; simpl; intuition discriminate.
  - exact H.
Defined.

(** X4.  The name of the job built for a run determines the run directory:
    two runs with the same job name have the same directory name. *)
Theorem job_name_identifies_the_run
        (d d' c c' : string) (n n' : Z) (dev dev' : string) :
  name (build_job d c n dev) = name (build_job d' c' n' dev') -> d = d'.
Proof.
  unfold build_job.
  destruct (String.eqb dev "GPU"), (String.eqb dev' "GPU"); cbn [name];
    intros H;
    apply (append_cancel_l "projects/"), (append_cancel_l PROJECT_ID),
      (append_cancel_l "/locations/"), (append_cancel_l LOCATION),
      (append_cancel_l "/jobs/") in H; exact H.
Qed.

Lemma job_name_identifies_the_run_witness :
  name (build_job "run_bar_PBE_MySystem" vasp_gpu_cmd 1 "GPU")
  = name (build_job "run_bar_PBE_MySystem" vasp_cpu_cmd 2 "CPU")
  /\ "run_bar_PBE_MySystem" = "run_bar_PBE_MySystem".
Proof.
  split; [reflexivity|].
  apply (job_name_identifies_the_run
           "run_bar_PBE_MySystem" "run_bar_PBE_MySystem"
           vasp_gpu_cmd vasp_cpu_cmd 1 2 "GPU" "CPU").
  reflexivity.
Defined.

(** *** Machine shapes *)

Lemma shape_of_cpu_job (d c : string) (n : Z) (dev : string) :
  dev <> "GPU" ->
  build_job d c n dev = build_job d c n "CPU"
  /\ shape_of (build_job d c n dev) = [("n2-standard-4", [])].
Proof.
  intros H. unfold build_job, shape_of.
  destruct (String.eqb_spec dev "GPU") as [E|_]; [contradiction|].
  cbn. auto.
Qed.

(** X5.  [submit_batch_job] knows two shapes.  Device ["GPU"] gets an
    [a2-highgpu-1g] machine with one A100, 12000 mCPU and 87040 MiB, and
    [ntasks] is four per node; every other device string gets the job built
    for ["CPU"]: [n2-standard-4], no accelerator, 4000 mCPU and 16384 MiB,
    forty tasks per node. *)
Theorem compute_shape_by_device (d c : string) (n : Z) (dev : string) :
  let j := build_job d c n dev in
  (dev = "GPU" ->
     shape_of j
     = [("a2-highgpu-1g", [{| type_ := "nvidia-tesla-a100"; count := 1 |}])]
     /\ resources_of j = [{| cpu_milli := 12000; memory_mib := 87040 |}]
     /\ ntasks n dev = (n * 4)%Z)
  /\ (dev <> "GPU" ->
        j = build_job d c n "CPU"
        /\ shape_of j = [("n2-standard-4", [])]
        /\ resources_of j = [{| cpu_milli := 4000; memory_mib := 16384 |}]
        /\ ntasks n dev = (n * 40)%Z).
Proof.
  intros j. subst j. unfold build_job, ntasks, shape_of, resources_of. split.
  - intros ->. cbn. auto.
  - intros H. destruct (String.eqb_spec dev "GPU") as [E|_]; [contradiction|].
    cbn. auto.
Qed.

Lemma compute_shape_by_device_witness :
  build_job "run" vasp_cpu_cmd 2 "TPU" = build_job "run" vasp_cpu_cmd 2 "CPU"
  /\ shape_of (build_job "run" vasp_gpu_cmd 2 "GPU")
     = [("a2-highgpu-1g", [{| type_ := "nvidia-tesla-a100"; count := 1 |}])].
Proof.
  destruct (compute_shape_by_device "run" vasp_cpu_cmd 2 "TPU") as [_ Hc].
  destruct (compute_shape_by_device "run" vasp_gpu_cmd 2 "GPU") as [Hg _].
  split.
  - apply Hc. discriminate.
  - apply Hg. reflexivity.
Defined.

Section BarJobs.

Context {F : Type}.
Variable sv : Services F.
Variable tb : Tables.

(** X6.  When every run is accepted, [main] sends the requests of the line
    runs and then those of the bar runs; every bar job asks for the GPU
    machine and is named after its functional, whatever [devices] holds,
    while a line job asks for the CPU machine unless its device is
    ["GPU"]. *)
Theorem bar_jobs_always_ask_for_a_gpu (m : Machine F) :
  Forall (accepted sv) (enumerate_from (creates m) (run_matrix tb)) ->
  let m' := snd (submit_all sv tb m) in
  create_requests (trace m')
  = create_requests (trace m)
    ++ map request_of (line_runs tb) ++ map request_of (bar_runs tb)
  /\ Forall (fun rq =>
               shape_of (job rq)
               = [("a2-highgpu-1g",
                   [{| type_ := "nvidia-tesla-a100"; count := 1 |}])]
               /\ exists f, In f (functionals tb)
                  /\ name (job rq)
                     = ("projects/" ++ PROJECT_ID ++ "/locations/" ++ LOCATION
                        ++ "/jobs/" ++ bar_dir_name f)%string)
            (map request_of (bar_runs tb))
  /\ Forall (fun r =>
               In (device r) (devices tb)
               /\ (device r <> "GPU" ->
                   shape_of (job (request_of r)) = [("n2-standard-4", [])]))
            (line_runs tb).
Proof.
  intros H m'. subst m'. rewrite (submit_all_accepted sv tb m H).
  pose proof H as H'.
  rewrite run_matrix_split, enumerate_from_app in H'.
  apply Forall_app in H' as [Hl Hb].
  cbn [fst snd]. unfold all_submitted, log, after_submissions.
  cbn [trace job_names creates].
  rewrite !create_requests_app.
  rewrite !submissions_requests by assumption.
  rewrite !map_enumerate_from. cbn [create_requests].
  rewrite !app_nil_r, <- !app_assoc.
  split; [reflexivity|]. split.
  - apply Forall_forall. intros rq Hrq.
    apply in_map_iff in Hrq as (r & <- & Hr).
    unfold bar_runs in Hr. apply in_map_iff in Hr as (f & <- & Hf).
    split; [reflexivity|]. exists f. split; [exact Hf | reflexivity].
  - apply Forall_forall. intros r Hr.
    unfold line_runs, line_matrix in Hr.
    apply in_map_iff in Hr as ([[k dv] n] & <- & Hr).
    apply in_prod_iff in Hr as [Hkd _]. apply in_prod_iff in Hkd as [_ Hd].
    cbn [device line_run]. split.
    + exact Hd.
    + intros Hne.
      apply (shape_of_cpu_job
               (line_dir_name dv (fst k) n)
               (if String.eqb dv "GPU" then vasp_gpu_cmd else vasp_cpu_cmd)
               n dv Hne).
Qed.

End BarJobs.

Lemma bar_jobs_always_ask_for_a_gpu_witness :
  let sv := Demo.services Demo.two_done Demo.empty_store in
  List.length (create_requests (trace (snd (submit_all sv scale_py boot)))) = 8.
Proof.
  intros sv.
  destruct (bar_jobs_always_ask_for_a_gpu sv scale_py boot) as (H & _).
  - repeat constructor; eexists; reflexivity.
  - rewrite H. reflexivity.
Defined.

(** ** Tracking *)

Lemma pop_middle {A} (l1 : list A) x l2 :
  pop (List.length l1) (l1 ++ x :: l2) = Some (x, l1 ++ l2).
Proof. induction l1 as [|y l1 IH]; simpl; [reflexivity | now rewrite IH]. Qed.

Lemma pop_out_of_range {A} (l : list A) : forall i,
  List.length l <= i -> pop i l = None.
Proof.
  induction l as [|x l IH]; intros i H; [now destruct i|].
  destruct i as [|i]; simpl in *; [lia|]. rewrite IH by lia. reflexivity.
Qed.

Lemma pop_in_range {A} (l : list A) : forall i,
  i < List.length l ->
  exists x rest, pop i l = Some (x, rest) /\ List.length l = S (List.length rest)
                 /\ incl rest l.
Proof.
  induction l as [|y l IH]; intros i H; [simpl in H; lia|].
  destruct i as [|i]; simpl.
  - exists y, l. repeat split. apply incl_tl, incl_refl.
  - destruct (IH i) as (x & rest & E & L & I); [simpl in H; lia|].
    rewrite E. exists x, (y :: rest). repeat split; simpl; [lia|].
    apply incl_cons; [now left|]. now apply incl_tl.
Qed.

Lemma pop_shrinks {A} (l : list A) i x rest :
  pop i l = Some (x, rest) ->
  List.length l = S (List.length rest) /\ incl rest l.
Proof.
  intros H. destruct (Nat.lt_ge_cases i (List.length l)) as [Hi|Hi].
  - destruct (pop_in_range l i Hi) as (x' & rest' & E & L & I).
    rewrite E in H. injection H as <- <-. auto.
  - rewrite pop_out_of_range in H by exact Hi. discriminate.
Qed.

Lemma drain_quiet {A} (sts : list State) : forall i (live : list A),
  quiet sts -> drain i sts live = (true, live).
Proof.
  induction sts as [|st sts IH]; intros i live H; [reflexivity|].
  inversion H; subst. simpl. rewrite H2. now apply IH.
Qed.

Lemma drain_quiet_app {A} (q sts : list State) : forall i (live : list A),
  quiet q -> drain i (q ++ sts) live = drain (i + List.length q) sts live.
Proof.
  induction q as [|st q IH]; intros i live H; simpl.
  - now rewrite Nat.add_0_r.
  - inversion H; subst. rewrite H2, IH by assumption.
    now rewrite Nat.add_succ_r.
Qed.

Lemma drain_single {A} (q1 q2 : list State) t (l1 l2 : list A) x :
  quiet q1 -> quiet q2 -> terminal t = true ->
  List.length q1 = List.length l1 ->
  drain 0 (q1 ++ t :: q2) (l1 ++ x :: l2) = (true, l1 ++ l2).
Proof.
  intros Q1 Q2 T L. rewrite drain_quiet_app by exact Q1. cbn [drain Nat.add].
  rewrite T, L, pop_middle. now apply drain_quiet.
Qed.

Lemma drain_double_last {A} (q1 q2 : list State) t1 t2 (l1 l2 : list A) x y :
  quiet q1 -> quiet q2 -> terminal t1 = true -> terminal t2 = true ->
  List.length q1 = List.length l1 -> List.length q2 = List.length l2 ->
  drain 0 (q1 ++ t1 :: q2 ++ [t2]) (l1 ++ x :: l2 ++ [y])
  = (false, l1 ++ l2 ++ [y]).
Proof.
  intros Q1 Q2 T1 T2 L1 L2. rewrite drain_quiet_app by exact Q1.
  cbn [drain Nat.add]. rewrite T1, L1, pop_middle.
  rewrite drain_quiet_app by exact Q2. cbn [drain]. rewrite T2.
  rewrite pop_out_of_range; [reflexivity|].
  rewrite !length_app. simpl. lia.
Qed.

Lemma drain_double {A} (q1 q2 q3 : list State) t1 t2
      (l1 l2 l3 : list A) x y z :
  quiet q1 -> quiet q2 -> quiet q3 ->
  terminal t1 = true -> terminal t2 = true ->
  List.length q1 = List.length l1 -> List.length q2 = List.length l2 ->
  drain 0 (q1 ++ t1 :: q2 ++ t2 :: q3) (l1 ++ x :: l2 ++ y :: z :: l3)
  = (true, l1 ++ l2 ++ y :: l3).
Proof.
  intros Q1 Q2 Q3 T1 T2 L1 L2. rewrite drain_quiet_app by exact Q1.
  cbn [drain Nat.add]. rewrite T1, L1, pop_middle.
  rewrite drain_quiet_app by exact Q2. cbn [drain]. rewrite T2.
  replace (l1 ++ l2 ++ y :: z :: l3) with ((l1 ++ l2 ++ [y]) ++ z :: l3)
    by now rewrite <- !app_assoc.
  replace (S (List.length l1) + List.length q2)
    with (List.length (l1 ++ l2 ++ [y]))
    by (rewrite !length_app; simpl; lia).
  rewrite pop_middle, <- !app_assoc. simpl. now apply drain_quiet.
Qed.

Section PassLemmas.

Context {F : Type}.
Variable sv : Services F.

Lemma poll_entry_quiet i entry st (m : Machine F) :
  get_job sv (polls m) (snd entry) = Returns st ->
  terminal st = false ->
  poll_entry sv (i, entry) m
  = (Ok tt, log (EGetJob (snd entry) (Returns st)) (tick_polls m)).
Proof.
  destruct entry as [d j]. cbn [snd]. intros H Ht.
  unfold poll_entry, call_get_job, bind, emit. rewrite H. cbn.
  destruct st; try discriminate; reflexivity.
Qed.

Lemma poll_entry_terminal i entry st (m : Machine F) :
  get_job sv (polls m) (snd entry) = Returns st ->
  terminal st = true ->
  poll_entry sv (i, entry) m
  = match pop i (job_names m) with
    | Some (_, rest) =>
        (Ok tt,
         set_job_names rest
           (fold_left (fun m e => log e m) (poll_events entry st) (tick_polls m)))
    | None =>
        (Exc (IndexError "pop index out of range"),
         fold_left (fun m e => log e m) (poll_events entry st) (tick_polls m))
    end.
Proof.
  destruct entry as [d j]. cbn [snd fst]. intros H Ht.
  unfold poll_entry, call_get_job, bind, emit, print, job_names_pop.
  rewrite H. cbn.
  destruct st; try discriminate; cbn;
    destruct (pop i (job_names m)) as [[x rest]|]; reflexivity.
Qed.

(** The [for] loop of a pass, from snapshot index [i] on. *)
Lemma for_each_poll (entries : list (string * string)) :
  forall (sts : list State) (i : nat) (m : Machine F),
    observes sv (polls m) entries sts ->
    let r := for_each (enumerate_from i entries) (poll_entry sv) m in
    fst r = (if fst (drain i sts (job_names m))
             then Ok tt else Exc (IndexError "pop index out of range"))
    /\ job_names (snd r) = snd (drain i sts (job_names m))
    /\ (fst (drain i sts (job_names m)) = true ->
        trace (snd r) = trace m ++ pass_events entries sts
        /\ polls (snd r) = polls m + List.length entries)
    /\ creates (snd r) = creates m
    /\ times_line (snd r) = times_line m
    /\ times_bar (snd r) = times_bar m.
Proof.
  induction entries as [|entry entries IH]; intros sts i m Hobs r; subst r.
  - inversion Hobs; subst. cbn. rewrite app_nil_r, Nat.add_0_r. auto 10.
  - inversion Hobs as [|ce st ces sts' Hc Hrest]; subst.
    destruct entry as [d j]. cbn [enumerate_from for_each drain].
    destruct (terminal st) eqn:Ht.
    + unfold bind.
      rewrite (poll_entry_terminal i (d, j) st m Hc Ht).
      destruct (pop i (job_names m)) as [[x rest]|] eqn:Hp.
      * match goal with |- context [for_each _ _ ?m1] =>
          specialize (IH sts' (S i) m1) end.
        cbn [polls set_job_names] in IH.
        assert (Hobs' : observes sv (polls (fold_left (fun m e => log e m)
                                    (poll_events (d, j) st) (tick_polls m)))
                  entries sts').
        { destruct st; try discriminate; exact Hrest. }
        destruct (IH Hobs') as (R1 & R2 & R3 & R4 & R5 & R6).
        cbn [job_names set_job_names] in R1, R2, R3.
        repeat apply conj.
        -- exact R1.
        -- exact R2.
        -- intros Hok. destruct (R3 Hok) as [T P]. split.
           ++ rewrite T. cbn [trace set_job_names pass_events].
              destruct st; try discriminate; cbn; now rewrite <- !app_assoc.
           ++ rewrite P. destruct st; try discriminate; cbn; lia.
        -- rewrite R4. destruct st; try discriminate; reflexivity.
        -- rewrite R5. destruct st; try discriminate; reflexivity.
        -- rewrite R6. destruct st; try discriminate; reflexivity.
      * cbn [fst snd]. repeat apply conj; try discriminate;
          destruct st; try discriminate; reflexivity.
    + unfold bind.
      rewrite (poll_entry_quiet i (d, j) st m Hc Ht). cbv beta iota.
      change (snd (d, j)) with j.
      specialize (IH sts' (S i) (log (EGetJob j (Returns st)) (tick_polls m)) Hrest).
      destruct IH as (R1 & R2 & R3 & R4 & R5 & R6).
      cbn [job_names log tick_polls] in R1, R2, R3.
      repeat apply conj; auto.
      intros Hok. destruct (R3 Hok) as [T P]. split.
      * rewrite T. cbn [trace log tick_polls pass_events poll_events snd].
        destruct st; try discriminate; cbn; now rewrite <- !app_assoc.
      * rewrite P. cbn. lia.
Qed.

End PassLemmas.

Section PassDrain.

Context {F : Type}.
Variable sv : Services F.

Lemma poll_pass_drain (m : Machine F) (sts : list State) :
  observes sv (polls m) (job_names m) sts ->
  let r := poll_pass sv m in
  let d := drain 0 sts (job_names m) in
  fst r = (if fst d then Ok tt else Exc (IndexError "pop index out of range"))
  /\ job_names (snd r) = snd d
  /\ (fst d = true ->
      trace (snd r)
      = trace m ++ pass_events (job_names m) sts ++ still_waiting (snd d)
      /\ polls (snd r) = polls m + List.length (job_names m))
  /\ creates (snd r) = creates m
  /\ times_line (snd r) = times_line m
  /\ times_bar (snd r) = times_bar m.
Proof.
  intros Hobs r d. subst r d.
  destruct (for_each_poll sv (job_names m) sts 0 m Hobs)
    as (R1 & R2 & R3 & R4 & R5 & R6).
  unfold poll_pass, bind. fold (enumerate (job_names m)) in *.
  unfold enumerate in *.
  destruct (for_each (enumerate_from 0 (job_names m)) (poll_entry sv) m)
    as [res m1] eqn:E.
  cbn [fst snd] in *.
  destruct (fst (drain 0 sts (job_names m))) eqn:Hd.
  - subst res. destruct (R3 eq_refl) as [T P].
    unfold still_waiting. rewrite <- R2.
    destruct (job_names m1) as [|e1 rest] eqn:J; cbn.
    + rewrite app_nil_r. repeat split; auto.
    + rewrite J. repeat split; auto.
      rewrite T, <- !app_assoc. reflexivity.
  - subst res. cbn. repeat apply conj; auto. discriminate.
Qed.

End PassDrain.

Section Invariant.

Context {F : Type}.
Variable sv : Services F.

Lemma tracked_refl (m : Machine F) : tracked m m.
Proof.
  repeat split; auto using incl_refl. exists []. now rewrite app_nil_r.
Qed.

Lemma tracked_trans (m1 m2 m3 : Machine F) : tracked m1 m2 -> tracked m2 m3 -> tracked m1 m3.
Proof.
  intros ((t1 & T1 & A1) & C1 & I1 & L1 & X1 & B1)
         ((t2 & T2 & A2) & C2 & I2 & L2 & X2 & B2).
  repeat split; try congruence; try lia.
  - exists (t1 ++ t2). rewrite T2, T1, <- app_assoc, forallb_app, A1, A2. auto.
  - eapply incl_tran; eauto.
Qed.

Lemma tracked_log e (m : Machine F) : tracking_event e = true -> tracked m (log e m).
Proof.
  intros H. repeat split; auto using incl_refl.
  exists [e]. simpl. now rewrite H.
Qed.

Lemma tracked_tick (m : Machine F) : tracked m (tick_polls m).
Proof.
  repeat split; auto using incl_refl. exists []. simpl. now rewrite app_nil_r.
Qed.

Lemma tracked_pop i (m : Machine F) x rest :
  pop i (job_names m) = Some (x, rest) -> tracked m (set_job_names rest m).
Proof.
  intros H. apply pop_shrinks in H as [L I].
  repeat split; simpl; auto; try lia.
  exists []. now rewrite app_nil_r.
Qed.

Lemma poll_entry_tracked ie (m : Machine F) : tracked m (snd (poll_entry sv ie m)).
Proof.
  destruct ie as [i [d j]].
  unfold poll_entry, call_get_job, bind, emit, print, job_names_pop.
  destruct (get_job sv (polls m) j) as [st|e]; cbn.
  - assert (T0 : tracked m (log (EGetJob j (Returns st)) (tick_polls m))).
    { eapply tracked_trans; [apply tracked_tick | apply tracked_log; reflexivity]. }
    destruct st; cbn; try exact T0.
    + destruct (pop i (job_names m)) as [[x rest]|] eqn:P; cbn.
      * eapply tracked_trans; [|apply (tracked_pop i _ x rest); exact P].
        eapply tracked_trans; [exact T0 | apply tracked_log; reflexivity].
      * eapply tracked_trans; [exact T0 | apply tracked_log; reflexivity].
    + destruct (pop i (job_names m)) as [[x rest]|] eqn:P; cbn.
      * eapply tracked_trans; [|apply (tracked_pop i _ x rest); exact P].
        eapply tracked_trans; [exact T0 | apply tracked_log; reflexivity].
      * eapply tracked_trans; [exact T0 | apply tracked_log; reflexivity].
  - eapply tracked_trans; [apply tracked_tick | apply tracked_log; reflexivity].
Qed.

Lemma for_each_tracked {A} (body : A -> M F unit) (l : list A) :
  (forall x m, tracked m (snd (body x m))) ->
  forall m : Machine F, tracked m (snd (for_each l body m)).
Proof.
  intros Hb. induction l as [|x l IH]; intros m; simpl.
  - apply tracked_refl.
  - unfold bind. specialize (Hb x m).
    destruct (body x m) as [[[]| |] m1]; cbn in *; auto.
    eapply tracked_trans; [exact Hb | apply IH].
Qed.

Lemma poll_pass_tracked (m : Machine F) : tracked m (snd (poll_pass sv m)).
Proof.
  unfold poll_pass, bind.
  pose proof (for_each_tracked (poll_entry sv) (enumerate (job_names m))
                poll_entry_tracked m) as H.
  destruct (for_each (enumerate (job_names m)) (poll_entry sv) m)
    as [[[]| |] m1]; cbn in *; auto.
  destruct (job_names m1) as [|e1 rest]; cbn; [exact H|].
  eapply tracked_trans; [|apply tracked_log; reflexivity].
  eapply tracked_trans; [exact H | apply tracked_log; reflexivity].
Qed.

Lemma wait_for_jobs_tracked fuel : forall m : Machine F,
  tracked m (snd (wait_for_jobs sv fuel m)).
Proof.
  induction fuel as [|fuel IH]; intros m; simpl.
  - destruct (job_names m); apply tracked_refl.
  - destruct (job_names m) as [|e1 rest] eqn:J; [apply tracked_refl|].
    unfold bind. pose proof (poll_pass_tracked m) as H.
    destruct (poll_pass sv m) as [[[]| |] m1]; cbn in *; auto.
    eapply tracked_trans; [exact H | apply IH].
Qed.

Lemma wait_for_jobs_ok_empty fuel : forall m m' : Machine F,
  wait_for_jobs sv fuel m = (Ok tt, m') -> job_names m' = [].
Proof.
  induction fuel as [|fuel IH]; intros m m' H; simpl in H.
  - destruct (job_names m) eqn:J; [|discriminate].
    injection H as <-. exact J.
  - destruct (job_names m) as [|e1 rest] eqn:J.
    + injection H as <-. exact J.
    + unfold bind in H.
      destruct (poll_pass sv m) as [[[]| |] m1]; try discriminate.
      eapply IH; eauto.
Qed.

End Invariant.

Lemma length_enumerate_from {A} (l : list A) i :
  List.length (enumerate_from i l) = List.length l.
Proof. revert i. induction l; intros; simpl; auto. Qed.

Lemma observes_length {F} (sv : Services F) p l sts :
  observes sv p l sts -> List.length sts = List.length l.
Proof.
  intros H. apply Forall2_length in H.
  now rewrite length_enumerate_from in H.
Qed.

Lemma pass_events_quiet {F} (l : list (string * string)) : forall sts,
  quiet sts ->
  @pass_events F l sts
  = map (fun '(entry, st) => EGetJob (snd entry) (Returns st)) (combine l sts).
Proof.
  induction l as [|entry l IH]; intros sts Q; [reflexivity|].
  destruct sts as [|st sts]; [reflexivity|]. inversion Q; subst.
  cbn [pass_events combine map poll_events]. rewrite IH by assumption.
  destruct st; try discriminate; reflexivity.
Qed.

(** X7.  A pass in which the service reports no job terminal polls every
    listed job once, in list order, leaves [job_names] as it was, and ends
    with the waiting line and a sleep of 60 seconds. *)
Theorem pass_without_terminal_job
        {F} (sv : Services F) (m : Machine F) (sts : list State) :
  observes sv (polls m) (job_names m) sts ->
  quiet sts ->
  job_names m <> [] ->
  let r := poll_pass sv m in
  fst r = Ok tt
  /\ job_names (snd r) = job_names m
  /\ trace (snd r)
     = trace m
       ++ map (fun '(entry, st) => EGetJob (snd entry) (Returns st))
              (combine (job_names m) sts)
       ++ [ EPrint ("Still waiting for "
                    ++ str_int (Z.of_nat (List.length (job_names m)))
                    ++ " jobs...");
            ESleep 60 ].
Proof.
  intros Hobs Q Hne r. subst r.
  destruct (poll_pass_drain sv m sts Hobs) as (R1 & R2 & R3 & _).
  rewrite (drain_quiet sts 0 (job_names m) Q) in *. cbn [fst snd] in *.
  destruct (R3 eq_refl) as [T _].
  repeat split; auto. rewrite T, pass_events_quiet by exact Q.
  unfold still_waiting. destruct (job_names m); [contradiction | reflexivity].
Qed.

Lemma pass_without_terminal_job_witness :
  let sv := Demo.services Demo.two_done Demo.empty_store in
  let m := set_job_names [("c", "jobs/2"); ("d", "jobs/3")] boot in
  job_names (snd (poll_pass sv m)) = [("c", "jobs/2"); ("d", "jobs/3")].
Proof.
  intros sv m.
  destruct (pass_without_terminal_job sv m [RUNNING; RUNNING]) as (_ & H & _).
  - repeat constructor.
  - repeat constructor.
  - discriminate.
  - exact H.
Defined.

(** X8.  A pass in which exactly one job is reported terminal removes that
    job and only that job, wherever it stands in the list, and still polls
    every listed job once, in list order. *)
Theorem pass_with_one_terminal_job
        {F} (sv : Services F) (m : Machine F)
        (l1 l2 : list (string * string)) (x : string * string)
        (q1 q2 : list State) (t : State) :
  job_names m = l1 ++ x :: l2 ->
  observes sv (polls m) (job_names m) (q1 ++ t :: q2) ->
  List.length q1 = List.length l1 ->
  quiet q1 -> quiet q2 -> terminal t = true ->
  let r := poll_pass sv m in
  fst r = Ok tt
  /\ job_names (snd r) = l1 ++ l2
  /\ polled (trace (snd r))
     = polled (trace m)
       ++ map (fun '(entry, st) => (snd entry, Returns st))
              (combine (job_names m) (q1 ++ t :: q2)).
Proof.
  intros J Hobs L Q1 Q2 T r. subst r.
  destruct (poll_pass_drain sv m _ Hobs) as (R1 & R2 & R3 & _).
  rewrite J in R1, R2, R3.
  rewrite (drain_single q1 q2 t l1 l2 x Q1 Q2 T L) in *. cbn [fst snd] in *.
  destruct (R3 eq_refl) as [Tr _].
  repeat split; auto. rewrite Tr, J, !polled_app.
  assert (W : polled (@still_waiting F (l1 ++ l2)) = []).
  { unfold still_waiting. now destruct (l1 ++ l2). }
  rewrite W, app_nil_r. f_equal.
  generalize (l1 ++ x :: l2). intros l. generalize (q1 ++ t :: q2).
  induction l as [|entry l IH]; intros sts; [reflexivity|].
  destruct sts as [|st sts]; [reflexivity|].
  cbn [pass_events combine map poll_events]. rewrite polled_app, IH.
  destruct st; reflexivity.
Qed.

Lemma pass_with_one_terminal_job_witness :
  let sv := Demo.services
              (fun _ j => if String.eqb j "jobs/1" then FAILED else RUNNING)
              Demo.empty_store in
  let m := set_job_names [("a", "jobs/0"); ("b", "jobs/1"); ("c", "jobs/2")]
                         boot in
  job_names (snd (poll_pass sv m)) = [("a", "jobs/0"); ("c", "jobs/2")].
Proof.
  intros sv m.
  destruct (pass_with_one_terminal_job sv m [("a", "jobs/0")] [("c", "jobs/2")]
              ("b", "jobs/1") [RUNNING] [RUNNING] FAILED) as (_ & H & _).
  - reflexivity.
  - repeat constructor.
  - reflexivity.
  - repeat constructor.
  - repeat constructor.
  - reflexivity.
  - exact H.
Defined.

(** X9.  A pass in which exactly two jobs are reported terminal removes the
    first of them and, in place of the second, the entry that follows it;
    when the second is the last entry the pass ends with
    [IndexError: pop index out of range] and the second stays listed. *)
Theorem pass_with_two_terminal_jobs
        {F} (sv : Services F) (m : Machine F)
        (l1 l2 l3 : list (string * string)) (x y : string * string)
        (q1 q2 q3 : list State) (t1 t2 : State) :
  job_names m = l1 ++ x :: l2 ++ y :: l3 ->
  observes sv (polls m) (job_names m) (q1 ++ t1 :: q2 ++ t2 :: q3) ->
  List.length q1 = List.length l1 -> List.length q2 = List.length l2 ->
  quiet q1 -> quiet q2 -> quiet q3 ->
  terminal t1 = true -> terminal t2 = true ->
  let r := poll_pass sv m in
  match l3 with
  | [] =>
      fst r = Exc (IndexError "pop index out of range")
      /\ job_names (snd r) = l1 ++ l2 ++ [y]
  | z :: l3' =>
      fst r = Ok tt /\ job_names (snd r) = l1 ++ l2 ++ y :: l3'
  end.
Proof.
  intros J Hobs L1 L2 Q1 Q2 Q3 T1 T2 r. subst r.
  destruct (poll_pass_drain sv m _ Hobs) as (R1 & R2 & _).
  pose proof (observes_length sv _ _ _ Hobs) as Len.
  rewrite J in R1, R2, Len.
  destruct l3 as [|z l3'].
  - assert (q3 = []) as ->.
    { rewrite !length_app in Len. cbn [List.length] in Len.
      rewrite !length_app in Len. cbn [List.length] in Len.
      destruct q3; [reflexivity | simpl in Len; lia]. }
    rewrite (drain_double_last q1 q2 t1 t2 l1 l2 x y Q1 Q2 T1 T2 L1 L2) in *.
    auto.
  - rewrite (drain_double q1 q2 q3 t1 t2 l1 l2 l3' x y z
               Q1 Q2 Q3 T1 T2 L1 L2) in *.
    auto.
Qed.

Lemma pass_with_two_terminal_jobs_witness :
  let sv := Demo.services Demo.two_done Demo.empty_store in
  let m := set_job_names [("a", "jobs/0"); ("b", "jobs/1"); ("c", "jobs/2")]
                         boot in
  fst (poll_pass sv m) = Ok tt
  /\ job_names (snd (poll_pass sv m)) = [("b", "jobs/1")].
Proof.
  intros sv m.
  apply (pass_with_two_terminal_jobs sv m [] [] [("c", "jobs/2")]
           ("a", "jobs/0") ("b", "jobs/1") [] [] [RUNNING] SUCCEEDED SUCCEEDED).
  - reflexivity.
  - repeat constructor.
  - reflexivity.
  - reflexivity.
  - constructor.
  - constructor.
  - repeat constructor.
  - reflexivity.
  - reflexivity.
Defined.

Lemma poll_entry_raises {F} (sv : Services F) i entry e (m : Machine F) :
  get_job sv (polls m) (snd entry) = Raises e ->
  poll_entry sv (i, entry) m
  = (Exc e, log (EGetJob (snd entry) (Raises e)) (tick_polls m)).
Proof.
  destruct entry as [d j]. cbn [snd]. intros H.
  unfold poll_entry, call_get_job, bind, emit. rewrite H. reflexivity.
Qed.

Lemma wait_for_jobs_step {F} (sv : Services F) fuel (m : Machine F) :
  job_names m <> [] ->
  wait_for_jobs sv (S fuel) m
  = bind (poll_pass sv) (fun _ => wait_for_jobs sv fuel) m.
Proof.
  intros H. cbn [wait_for_jobs].
  destruct (job_names m); [contradiction | reflexivity].
Qed.

(** X10.  However the tracking loop ends (normally, by an exception or still
    running), it has only added [GetJob] calls, printed lines and sleeps to
    the trace, has created no job, has only removed entries from
    [job_names], and has not touched the collected times. *)
Theorem tracking_only_polls_and_drops
        {F} (sv : Services F) (fuel : nat) (m : Machine F) :
  let m' := snd (wait_for_jobs sv fuel m) in
  (exists t, trace m' = trace m ++ t /\ forallb tracking_event t = true)
  /\ creates m' = creates m
  /\ incl (job_names m') (job_names m)
  /\ List.length (job_names m') <= List.length (job_names m)
  /\ times_line m' = times_line m
  /\ times_bar m' = times_bar m.
Proof. exact (wait_for_jobs_tracked sv fuel m). Qed.

(** X11.  The tracking loop returns normally only with [job_names] empty. *)
Theorem tracking_returns_only_when_drained
        {F} (sv : Services F) (fuel : nat) (m m' : Machine F) :
  wait_for_jobs sv fuel m = (Ok tt, m') -> job_names m' = [].
Proof. apply wait_for_jobs_ok_empty. Qed.

Lemma tracking_returns_only_when_drained_witness :
  let sv := Demo.services Demo.one_per_pass Demo.empty_store in
  job_names (snd (wait_for_jobs sv 8 (snd (submit_all sv scale_py boot)))) = [].
Proof.
  intros sv.
  apply (tracking_returns_only_when_drained sv 8
           (snd (submit_all sv scale_py boot))).
  vm_compute. reflexivity.
Defined.

(** X12.  In a pass in which no job polled so far was terminal, a [GetJob]
    call that raises ends the tracking loop with that exception at once: the
    jobs listed before it were polled, the ones after it were not,
    [job_names] is unchanged, and there is no retry. *)
Theorem poll_error_ends_tracking
        {F} (sv : Services F) (fuel : nat) (m : Machine F)
        (l1 l2 : list (string * string)) (entry : string * string)
        (q1 : list State) (e : exn) :
  job_names m = l1 ++ entry :: l2 ->
  observes sv (polls m) l1 q1 ->
  quiet q1 ->
  get_job sv (polls m + List.length l1) (snd entry) = Raises e ->
  let r := wait_for_jobs sv (S fuel) m in
  fst r = Exc e
  /\ job_names (snd r) = job_names m
  /\ polled (trace (snd r))
     = polled (trace m)
       ++ map (fun '(entry, st) => (snd entry, Returns st)) (combine l1 q1)
       ++ [(snd entry, Raises e)].
Proof.
  intros J Hobs Q He r. subst r.
  destruct (for_each_poll sv l1 q1 0 m Hobs) as (R1 & R2 & R3 & _).
  rewrite (drain_quiet q1 0 (job_names m) Q) in *. cbn [fst snd] in *.
  destruct (R3 eq_refl) as [T P].
  assert (E : wait_for_jobs sv (S fuel) m
              = (Exc e,
                 log (EGetJob (snd entry) (Raises e))
                     (tick_polls
                        (snd (for_each (enumerate_from 0 l1)
                                       (poll_entry sv) m))))).
  { rewrite wait_for_jobs_step by (rewrite J; now destruct l1).
    unfold bind, poll_pass, bind.
    rewrite J. unfold enumerate. rewrite enumerate_from_app.
    rewrite for_each_app. unfold bind.
    destruct (for_each (enumerate_from 0 l1) (poll_entry sv) m) as [res m1].
    cbn [fst snd] in *. subst res.
    cbn [enumerate_from for_each]. unfold bind.
    rewrite (poll_entry_raises sv _ entry e m1) by (rewrite P; exact He).
    reflexivity. }
  rewrite E. cbn [fst snd job_names log tick_polls trace].
  repeat split; [exact R2|].
  rewrite T, !polled_app, pass_events_quiet by exact Q.
  cbn [polled]. rewrite <- app_assoc. f_equal. f_equal.
  clear. generalize q1. induction l1 as [|x l IH]; intros sts; [reflexivity|].
  destruct sts as [|st sts]; [reflexivity|].
  cbn [combine map polled]. destruct x. cbn [snd]. now rewrite IH.
Qed.

Lemma poll_error_ends_tracking_witness :
  let sv : Services string :=
    {| path_exists := fun _ => true;
       write_input := fun _ => Returns tt;
       create_job := fun i _ => Returns "job";
       get_job := fun n _ =>
         if Nat.eqb n 1 then Raises (ServiceError "503 unavailable")
         else Returns RUNNING;
       blob_exists := fun _ _ => Returns false;
       download_as_text := fun _ _ => Raises (ServiceError "404");
       float := Demo.parse;
       repr := Demo.quoted |} in
  let m := set_job_names [("a", "jobs/0"); ("b", "jobs/1")] boot in
  fst (wait_for_jobs sv 3 m) = Exc (ServiceError "503 unavailable")
  /\ job_names (snd (wait_for_jobs sv 3 m))
     = [("a", "jobs/0"); ("b", "jobs/1")].
Proof.
  intros sv m.
  destruct (poll_error_ends_tracking sv 2 m [("a", "jobs/0")] []
              ("b", "jobs/1") [RUNNING] (ServiceError "503 unavailable"))
    as (H1 & H2 & _).
  - reflexivity.
  - repeat constructor.
  - repeat constructor.
  - reflexivity.
  - split; [exact H1 | exact H2].
Defined.

(** ** Collection *)

Lemma flat_map_flat_map {A B C} (f : B -> list C) (g : A -> list B) l :
  flat_map f (flat_map g l) = flat_map (fun x => flat_map f (g x)) l.
Proof.
  induction l as [|x l IH]; [reflexivity|].
  cbn [flat_map]. now rewrite flat_map_app, IH.
Qed.

Lemma flat_map_of_map {A B C} (f : B -> list C) (g : A -> B) l :
  flat_map f (map g l) = flat_map (fun x => f (g x)) l.
Proof. induction l as [|x l IH]; [reflexivity|]. cbn. now rewrite IH. Qed.

Lemma map_of_flat_map {A B C} (f : B -> C) (g : A -> list B) l :
  map f (flat_map g l) = flat_map (fun x => map f (g x)) l.
Proof.
  induction l as [|x l IH]; [reflexivity|].
  cbn [flat_map]. now rewrite map_app, IH.
Qed.

Lemma list_prod_flat_map {A B} (l1 : list A) (l2 : list B) :
  list_prod l1 l2 = flat_map (fun a => map (pair a) l2) l1.
Proof. induction l1 as [|a l1 IH]; [reflexivity|]. cbn. now rewrite IH. Qed.

Lemma flat_map_app_perm {A B} (g h : A -> list B) l :
  Permutation (flat_map (fun x => g x ++ h x) l) (flat_map g l ++ flat_map h l).
Proof.
  induction l as [|x l IH]; [constructor|]. cbn [flat_map].
  rewrite IH, <- !app_assoc. apply Permutation_app_head.
  rewrite !app_assoc. apply Permutation_app_tail. apply Permutation_app_comm.
Qed.

Lemma flat_map_swap {A B C} (f : A -> B -> list C) la lb :
  Permutation (flat_map (fun a => flat_map (fun b => f a b) lb) la)
              (flat_map (fun b => flat_map (fun a => f a b) la) lb).
Proof.
  induction la as [|a la IH]; cbn [flat_map].
  - induction lb as [|b lb IHb]; [constructor | exact IHb].
  - rewrite IH. symmetry. apply flat_map_app_perm.
Qed.

Lemma line_names_by_density tb :
  map dir_name (line_runs tb)
  = flat_map (fun k =>
      flat_map (fun device => map (line_dir_name device (fst k)) (nodes_list tb))
               (devices tb))
      (k_configs tb).
Proof.
  unfold line_runs, line_matrix.
  rewrite map_map, !list_prod_flat_map, flat_map_flat_map, map_of_flat_map.
  apply flat_map_ext. intros k.
  rewrite flat_map_of_map, map_of_flat_map.
  apply flat_map_ext. intros d.
  rewrite map_map. reflexivity.
Qed.

Section FetchLemmas.

Context {F : Type}.
Variable sv : Services F.

Lemma collect_line_run_trace device k_name nodes (m : Machine F) :
  series_of m device k_name <> None ->
  exists m',
    collect_line_run sv device k_name nodes m = (Ok tt, m')
    /\ collected m m'
         (on_series device k_name [line_value sv device k_name nodes])
    /\ trace m' = trace m ++ fetch_events sv (line_dir_name device k_name nodes).
Proof.
  intros H.
  unfold collect_line_run, line_value, artifact_value, fetch_events, error_line,
    try_except, bind, call_blob_exists, call_download_as_text, call_float,
    emit, print.
  set (key := (line_dir_name device k_name nodes ++ "/elapsed_time.txt")%string).
  destruct (blob_exists sv BUCKET_NAME key) as [[|]|e1];
    cbn -[times_line_append line_dir_name String.append].
  - destruct (download_as_text sv BUCKET_NAME key) as [text|e2];
      cbn -[times_line_append line_dir_name String.append].
    + destruct (float sv text) as [t|];
        cbn -[times_line_append line_dir_name String.append];
        match goal with
        | |- context [times_line_append ?d ?k ?t ?m0] =>
            destruct (times_line_append_ok d k t m0 H) as (m' & -> & Hc & Ht)
        end;
        exists m'; (split; [reflexivity|]); (split; [exact Hc|]);
        rewrite Ht; cbn [trace log]; rewrite <- ?app_assoc; reflexivity.
    + match goal with
      | |- context [times_line_append ?d ?k ?t ?m0] =>
          destruct (times_line_append_ok d k t m0 H) as (m' & -> & Hc & Ht)
      end.
      exists m'. split; [reflexivity|]. split; [exact Hc|].
      rewrite Ht. cbn [trace log]. rewrite <- ?app_assoc. reflexivity.
  - match goal with
    | |- context [times_line_append ?d ?k ?t ?m0] =>
        destruct (times_line_append_ok d k t m0 H) as (m' & -> & Hc & Ht)
    end.
    exists m'. split; [reflexivity|]. split; [exact Hc|].
    rewrite Ht. cbn [trace log]. rewrite <- ?app_assoc. reflexivity.
  - match goal with
    | |- context [times_line_append ?d ?k ?t ?m0] =>
        destruct (times_line_append_ok d k t m0 H) as (m' & -> & Hc & Ht)
    end.
    exists m'. split; [reflexivity|]. split; [exact Hc|].
    rewrite Ht. cbn [trace log]. rewrite <- ?app_assoc. reflexivity.
Qed.

(** The loop lemma of collection, with the trace. *)
Lemma for_each_fetched {A} (Q : string -> string -> Prop)
      (body : A -> M F unit) (ev : A -> list (Event F)) (l : list A) :
  (forall x m, In x l ->
     (forall d k, Q d k -> series_of m d k <> None) ->
     exists m' e, body x m = (Ok tt, m') /\ collected m m' e
                  /\ trace m' = trace m ++ ev x) ->
  forall m,
    (forall d k, Q d k -> series_of m d k <> None) ->
    exists m' e,
      for_each l body m = (Ok tt, m') /\ collected m m' e
      /\ trace m' = trace m ++ flat_map ev l.
Proof.
  induction l as [|x l IH]; intros Hbody m Hm; cbn [for_each flat_map].
  - exists m, (fun _ _ => []). split; [reflexivity|].
    split; [apply collected_refl | now rewrite app_nil_r].
  - destruct (Hbody x m (or_introl eq_refl) Hm) as (m1 & e1 & E1 & C1 & T1).
    destruct (IH (fun y m0 Hy => Hbody y m0 (or_intror Hy)) m1)
      as (m2 & e2 & E2 & C2 & T2).
    + intros d k HQ. eapply collected_present; eauto.
    + exists m2, (fun d k => e1 d k ++ e2 d k). split; [|split].
      * unfold bind. now rewrite E1.
      * eapply collected_trans; eauto.
      * now rewrite T2, T1, <- app_assoc.
Qed.

Lemma collect_bar_run_trace functional (m : Machine F) :
  trace (snd (collect_bar_run sv functional m))
  = trace m ++ fetch_events sv (bar_dir_name functional).
Proof.
  unfold collect_bar_run, fetch_events, error_line, try_except, bind,
    call_blob_exists, call_download_as_text, call_float, emit, print,
    times_bar_set.
  set (key := (bar_dir_name functional ++ "/elapsed_time.txt")%string).
  destruct (blob_exists sv BUCKET_NAME key) as [[|]|e1];
    cbn -[bar_dir_name String.append]; rewrite <- ?app_assoc; try reflexivity.
  destruct (download_as_text sv BUCKET_NAME key) as [text|e2];
    cbn -[bar_dir_name String.append]; rewrite <- ?app_assoc; try reflexivity.
  destruct (float sv text) as [t|];
    cbn -[bar_dir_name String.append]; rewrite <- ?app_assoc; reflexivity.
Qed.

Lemma collect_bar_loop_trace l : forall m : Machine F,
  trace (snd (for_each l (collect_bar_run sv) m))
  = trace m ++ flat_map (fetch_events sv) (map bar_dir_name l).
Proof.
  induction l as [|f l IH]; intros m; cbn [for_each map flat_map].
  - cbn. now rewrite app_nil_r.
  - unfold bind.
    destruct (collect_bar_run_ok sv f m) as (m1 & E1 & _).
    pose proof (collect_bar_run_trace f m) as T1. rewrite E1 in T1 |- *.
    cbn [snd] in T1. rewrite IH, T1, <- app_assoc. reflexivity.
Qed.

Lemma blob_checks_app (t1 t2 : list (Event F)) :
  blob_checks (t1 ++ t2) = blob_checks t1 ++ blob_checks t2.
Proof. induction t1 as [|[] t1 IH]; simpl; rewrite ?IH; reflexivity. Qed.

Lemma downloads_app (t1 t2 : list (Event F)) :
  downloads (t1 ++ t2) = downloads t1 ++ downloads t2.
Proof. induction t1 as [|[] t1 IH]; simpl; rewrite ?IH; reflexivity. Qed.

Lemma fetch_events_seen dir :
  blob_checks (fetch_events sv dir) = [(dir ++ "/elapsed_time.txt")%string]
  /\ downloads (fetch_events sv dir)
     = (if found sv dir then [(dir ++ "/elapsed_time.txt")%string] else [])
  /\ create_requests (fetch_events sv dir) = []
  /\ polled (fetch_events sv dir) = []
  /\ saved_figures (fetch_events sv dir) = [].
Proof.
  unfold fetch_events, found, error_line.
  destruct (blob_exists sv BUCKET_NAME (dir ++ "/elapsed_time.txt"))
    as [[|]|e1]; cbn; auto.
  destruct (download_as_text sv BUCKET_NAME (dir ++ "/elapsed_time.txt"))
    as [text|e2]; cbn; auto.
  destruct (float sv text); cbn; auto.
Qed.

Lemma fetches_seen (dirs : list string) :
  blob_checks (flat_map (fetch_events sv) dirs)
  = map (fun dir => (dir ++ "/elapsed_time.txt")%string) dirs
  /\ downloads (flat_map (fetch_events sv) dirs)
     = map (fun dir => (dir ++ "/elapsed_time.txt")%string) (filter (found sv) dirs)
  /\ create_requests (flat_map (fetch_events sv) dirs) = []
  /\ polled (flat_map (fetch_events sv) dirs) = []
  /\ saved_figures (flat_map (fetch_events sv) dirs) = [].
Proof.
  induction dirs as [|dir dirs (I1 & I2 & I3 & I4 & I5)]; [cbn; auto|].
  cbn [flat_map map filter].
  destruct (fetch_events_seen dir) as (S1 & S2 & S3 & S4 & S5).
  rewrite blob_checks_app, downloads_app, create_requests_app, polled_app,
    saved_figures_app, S1, S2, S3, S4, S5, I1, I2, I3, I4, I5.
  repeat split. destruct (found sv dir); reflexivity.
Qed.

End FetchLemmas.

Section FetchPhase.

Context {F : Type}.
Variable sv : Services F.
Variable tb : Tables.

Lemma collect_line_loops_trace (m : Machine F) :
  (forall d k, In d (devices tb) -> In k (dict_keys (k_configs tb)) ->
               series_of m d k <> None) ->
  exists m',
    for_each (devices tb) (fun device =>
      for_each (dict_keys (k_configs tb)) (fun k_name =>
        for_each (nodes_list tb) (fun nodes =>
          collect_line_run sv device k_name nodes))) m = (Ok tt, m')
    /\ trace m' = trace m ++
         flat_map (fun device =>
           flat_map (fun k_name =>
             flat_map (fun nodes =>
               fetch_events sv (line_dir_name device k_name nodes))
               (nodes_list tb))
             (dict_keys (k_configs tb)))
           (devices tb).
Proof.
  intros Hm.
  destruct (for_each_fetched
              (fun d k => In d (devices tb) /\ In k (dict_keys (k_configs tb)))
              (fun device =>
                 for_each (dict_keys (k_configs tb)) (fun k_name =>
                   for_each (nodes_list tb) (fun nodes =>
                     collect_line_run sv device k_name nodes)))
              (fun device =>
                 flat_map (fun k_name =>
                   flat_map (fun nodes =>
                     fetch_events sv (line_dir_name device k_name nodes))
                     (nodes_list tb))
                   (dict_keys (k_configs tb)))
              (devices tb)) with (m := m) as (m' & e & E & _ & T).
  - intros device m1 Hdev H1.
    apply (for_each_fetched
             (fun d k => In d (devices tb) /\ In k (dict_keys (k_configs tb))));
      [|exact H1].
    intros k_name m2 Hkey H2.
    apply (for_each_fetched
             (fun d k => In d (devices tb) /\ In k (dict_keys (k_configs tb))));
      [|exact H2].
    intros nodes m3 _ H3.
    destruct (collect_line_run_trace sv device k_name nodes m3) as (m4 & E4 & C4 & T4).
    + apply H3. auto.
    + eauto.
  - intros d k [Hd Hk]; auto.
  - eauto.
Qed.

Lemma collect_results_trace (m : Machine F) :
  trace (snd (collect_results sv tb m))
  = trace m ++ flat_map (fetch_events sv) (collect_order tb).
Proof.
  unfold collect_results.
  destruct (collect_line_loops_trace (set_times_line (init_times_line tb) m))
    as (m1 & E1 & T1).
  { intros d k Hd Hk. rewrite series_of_init.
    now rewrite !existsb_eqb_In. }
  unfold bind at 1. cbn [fst snd]. unfold bind at 1. rewrite E1.
  unfold bind at 1.
  rewrite collect_bar_loop_trace. cbn [trace set_times_bar].
  rewrite T1. cbn [trace set_times_line]. rewrite <- app_assoc. f_equal.
  unfold collect_order. rewrite flat_map_app. f_equal.
  rewrite flat_map_flat_map. apply flat_map_ext. intros d.
  rewrite flat_map_flat_map. apply flat_map_ext. intros k.
  now rewrite flat_map_of_map.
Qed.

(** X13.  Result collection asks the bucket once per run whether the
    artifact exists, in collection order, and downloads exactly the
    artifacts reported to exist, once each and after the check; it creates
    no job, polls nothing and saves no figure, whatever the calls return. *)
Theorem collection_checks_each_run_once (m : Machine F) :
  let t := flat_map (fetch_events sv) (collect_order tb) in
  let key := fun dir => (dir ++ "/elapsed_time.txt")%string in
  trace (snd (collect_results sv tb m)) = trace m ++ t
  /\ blob_checks t = map key (collect_order tb)
  /\ downloads t = map key (filter (found sv) (collect_order tb))
  /\ create_requests t = [] /\ polled t = [] /\ saved_figures t = [].
Proof.
  cbv zeta. split; [apply collect_results_trace | apply fetches_seen].
Qed.

End FetchPhase.

(** X14.  Collection looks up exactly the runs that were submitted, each as
    often as it was submitted, but not in the same order: submission
    iterates densities outermost, collection devices outermost.  With at
    most one device the two orders coincide. *)
Theorem collection_visits_the_submitted_runs tb :
  Permutation (run_names tb) (collect_order tb)
  /\ (List.length (devices tb) <= 1 -> run_names tb = collect_order tb).
Proof.
  assert (E : run_names tb
              = map dir_name (line_runs tb) ++ map bar_dir_name (functionals tb)).
  { unfold run_names, run_matrix, line_runs. rewrite map_app, !map_map.
    reflexivity. }
  rewrite E, line_names_by_density. unfold collect_order, dict_keys.
  split.
  - apply Permutation_app_tail.
    rewrite (flat_map_swap
               (fun (k : string * KData) device =>
                  map (line_dir_name device (fst k)) (nodes_list tb))).
    apply Permutation_refl'. apply flat_map_ext. intros d.
    now rewrite flat_map_of_map.
  - intros L. f_equal.
    destruct (devices tb) as [|d [|d' ds]]; cbn [flat_map].
    + induction (k_configs tb) as [|k l IH]; [reflexivity | exact IH].
    + rewrite app_nil_r, flat_map_of_map. apply flat_map_ext. intros k.
      now rewrite app_nil_r.
    + cbn in L. lia.
Qed.

Lemma collection_visits_the_submitted_runs_witness :
  run_names scale_py = collect_order scale_py.
Proof.
  apply (collection_visits_the_submitted_runs scale_py). cbn. lia.
Defined.

Lemma artifact_value_backed {F} (sv : Services F) (s : Store) dir :
  backed_by sv s ->
  artifact_value sv dir
  = match s BUCKET_NAME (dir ++ "/elapsed_time.txt")%string with
    | Some text => float sv text
    | None => None
    end.
Proof.
  intros H. unfold artifact_value.
  specialize (H BUCKET_NAME (dir ++ "/elapsed_time.txt")%string).
  destruct (s BUCKET_NAME (dir ++ "/elapsed_time.txt")%string) as [text|].
  - destruct H as [E D]. now rewrite E, D.
  - now rewrite H.
Qed.

(** X15.  For a run name and a solver command made of printable ASCII
    characters other than the single quote and the backslash, the upload
    statement of the script of the run's job changes what collection reads
    for that run only: its value becomes the parse of the uploaded text, and
    the value of every other run directory is as before. *)
Theorem upload_touches_one_run_only
        {F} (before after : Services F) (s : Store)
        (dir cmd : string) (n : Z) (dev text : string) :
  plain dir = true -> plain cmd = true ->
  backed_by before s ->
  (forall t, float after t = float before t) ->
  exists s',
    job_upload (build_job dir cmd n dev) text s = Some s'
    /\ (backed_by after s' ->
        artifact_value after dir = float before text
        /\ (forall dir', dir' <> dir ->
                         artifact_value after dir' = artifact_value before dir')).
Proof.
  intros Hd Hc Hb Hf.
  exists (put BUCKET_NAME (dir ++ "/elapsed_time.txt") text s).
  split; [now apply job_upload_plain|]. intros Ha. split.
  - rewrite (artifact_value_backed after _ dir Ha).
    unfold put. rewrite !String.eqb_refl. cbn [andb]. apply Hf.
  - intros dir' Hne.
    rewrite (artifact_value_backed after _ dir' Ha),
      (artifact_value_backed before _ dir' Hb).
    unfold put. rewrite String.eqb_refl. cbn [andb].
    destruct (String.eqb_spec (dir' ++ "/elapsed_time.txt")%string
                              (dir ++ "/elapsed_time.txt")%string) as [E|_].
    + exfalso. apply Hne. now apply append_cancel_r in E.
    + destruct (s BUCKET_NAME (dir' ++ "/elapsed_time.txt")%string); auto.
Qed.

Lemma demo_backed (state_of : nat -> string -> State) (s : Store) :
  backed_by (Demo.services state_of s) s.
Proof. intros bucket key. cbn. destruct (s bucket key); auto. Qed.

Lemma upload_touches_one_run_only_witness :
  let s := put BUCKET_NAME "run_bar_PBE_MySystem/elapsed_time.txt" "2.5"
               Demo.empty_store in
  exists s',
    job_upload (build_job "run_bar_HSE06_MySystem" vasp_gpu_cmd 1 "GPU")
               "7.25" s = Some s'
    /\ artifact_value (Demo.services Demo.two_done s') "run_bar_HSE06_MySystem"
       = Some "7.25"
    /\ artifact_value (Demo.services Demo.two_done s') "run_bar_PBE_MySystem"
       = Some "2.5".
Proof.
  intros s.
  destruct (upload_touches_one_run_only
              (Demo.services Demo.two_done s)
              (Demo.services Demo.two_done
                 (put BUCKET_NAME "run_bar_HSE06_MySystem/elapsed_time.txt"
                      "7.25" s))
              s "run_bar_HSE06_MySystem" vasp_gpu_cmd 1 "GPU" "7.25")
    as (s' & H1 & H2).
  - reflexivity.
  - reflexivity.
  - apply demo_backed.
  - reflexivity.
  - exists s'. split; [exact H1|].
    assert (E : s' = put BUCKET_NAME "run_bar_HSE06_MySystem/elapsed_time.txt"
                         "7.25" s).
    { rewrite (job_upload_plain "run_bar_HSE06_MySystem" vasp_gpu_cmd 1 "GPU"
                 "7.25" s eq_refl eq_refl) in H1.
      now injection H1 as <-. }
    rewrite E in H2 |- *.
    destruct (H2 (demo_backed Demo.two_done _)) as [V1 V2].
    split; [exact V1|].
    rewrite (V2 "run_bar_PBE_MySystem"); [reflexivity | discriminate].
Defined.

(** ** Plotting *)

Section Markers.

Context {F : Type}.

Lemma map_m_getitem_cases {A} (l : list A) (idxs : list nat) (m : Machine F) :
  (exists ys, map_m (getitem l) idxs m = (Ok ys, m))
  \/ map_m (getitem l) idxs m
     = (Exc (IndexError "list index out of range"), m).
Proof.
  induction idxs as [|i idxs IH]; cbn [map_m].
  - left. exists []. reflexivity.
  - unfold bind, getitem at 1 3, of_option.
    destruct (nth_error l i) as [y|]; cbn; [|now right].
    destruct IH as [(ys & ->)| ->]; [left; exists (y :: ys)|right]; reflexivity.
Qed.

Lemma indices_from_present (times : list (option F)) t :
  In (Some t) times -> forall i, indices_from i times <> [].
Proof.
  induction times as [|x times IH]; intros H i; [contradiction|].
  rewrite indices_from_cons. destruct H as [->|H]; [discriminate|].
  destruct x; [discriminate | now apply IH].
Qed.

(** X16.  There are three markers and three colors.  Drawing a series of a
    fourth or later density that holds a value raises
    [IndexError: list index out of range], and nothing is drawn for it. *)
Theorem no_marker_for_a_fourth_density tb i k_name device times t
        (m : Machine F) :
  3 <= i ->
  series_of m device k_name = Some times ->
  In (Some t) times ->
  plot_series tb i k_name device m
  = (Exc (IndexError "list index out of range"), m).
Proof.
  intros Hi Hs Ht. unfold series_of in Hs. unfold plot_series.
  destruct (dict_get (times_line m) device) as [series|]; [|discriminate].
  unfold bind at 1. cbn [of_option ret].
  unfold bind at 1. rewrite Hs. cbn [of_option ret].
  rewrite valid_indices_from.
  pose proof (indices_from_present times t Ht 0) as Hne.
  destruct (indices_from 0 times) as [|idx idxs] eqn:E; [congruence|].
  unfold bind at 1.
  destruct (map_m_getitem_cases times (idx :: idxs) m) as [(ys & ->)| ->];
    [|reflexivity].
  unfold bind at 1.
  destruct (map_m_getitem_cases (nodes_list tb) (idx :: idxs) m)
    as [(ns & ->)| ->]; [|reflexivity].
  unfold bind at 1, getitem at 1, of_option, markers.
  destruct i as [|[|[|i]]]; try lia.
  destruct i; reflexivity.
Qed.

End Markers.

Lemma no_marker_for_a_fourth_density_witness :
  let m := set_times_line [("CPU", [("5x5x15", [Some 2%Z])])] (@boot Z) in
  plot_series scale_py 3 "5x5x15" "CPU" m
  = (Exc (IndexError "list index out of range"), m).
Proof.
  cbv zeta.
  apply (no_marker_for_a_fourth_density scale_py 3 "5x5x15" "CPU"
           [Some 2%Z] 2%Z).
  - lia.
  - reflexivity.
  - left. reflexivity.
Defined.

(** X20.  On a machine whose series exist and are no longer than the node
    list, plotting returns normally and skips absent values: every line
    drawn comes from the present (node count, value) pairs of a series that
    has one, and every such series is drawn; the bars are the entries of
    [times_bar] that hold a value, in order, and they are drawn whenever
    there is one; [figure_b.png] is written exactly then, and otherwise the
    warning is printed in its place. *)
Theorem charts_drawn_from_present_values {F} (tb : Tables) (m : Machine F) :
  plottable tb m ->
  let m' := snd (generate_plots tb m) in
  let bars := present_bars (times_bar m) in
  fst (generate_plots tb m) = Ok tt
  /\ exists events,
       trace m' = trace m ++ events
  /\ (forall xs ys marker color linestyle label,
        In (EPlt (AxPlot xs ys marker color linestyle label)) events ->
        exists d k times,
          series_of m d k = Some times
          /\ present_pairs (nodes_list tb) times <> []
          /\ xs = map fst (present_pairs (nodes_list tb) times)
          /\ ys = map (fun p => Some (snd p))
                      (present_pairs (nodes_list tb) times))
  /\ (forall d k times,
        In d (devices tb) -> In k (dict_keys (k_configs tb)) ->
        series_of m d k = Some times ->
        present_pairs (nodes_list tb) times <> [] ->
        exists marker color linestyle label,
          In (EPlt (AxPlot (map fst (present_pairs (nodes_list tb) times))
                           (map (fun p => Some (snd p))
                                (present_pairs (nodes_list tb) times))
                           marker color linestyle label)) events)
  /\ (forall xs heights,
        In (EPlt (AxBar xs heights)) events ->
        bars <> [] /\ xs = map fst bars /\ heights = map snd bars)
  /\ (bars <> [] -> In (EPlt (AxBar (map fst bars) (map snd bars))) events)
  /\ saved_figures events
     = "figure_a.png" :: match bars with [] => [] | _ => ["figure_b.png"] end
  /\ printed events
     = match bars with
       | [] => ["Warning: No valid data available for bar plot"]
       | _ => []
       end
       ++ [ "Plots saved as figure_a.png and figure_b.png";
            (nl ++ "VASP scaling analysis completed successfully!")%string ].
Proof.
  intros Hp m' bars. subst m' bars.
  pose proof (generate_plots_ok tb m [] Hp) as E.
  rewrite extend_nil in E. rewrite E. cbn [fst snd app].
  split; [reflexivity|]. exists (plots_events tb m).
  rewrite <- present_items_bars.
  destruct (line_plots_quiet tb m) as (Q1 & Q2 & Q3).
  unfold plots_events. rewrite figure_a_events_eq. unfold figure_b_events.
  repeat apply conj.
  - reflexivity.
  - intros xs ys marker color linestyle label H.
    apply (line_plots_from_present_pairs tb m xs ys marker color linestyle label).
    apply in_app_or in H as [H|H].
    + apply in_app_or in H as [[H|[]]|H]; [discriminate|].
      apply in_app_or in H as [H|H]; [exact H|].
      simpl in H. intuition discriminate.
    + exfalso. destruct H as [H|H]; [discriminate|].
      apply in_app_or in H as [H|H]; [|simpl in H; intuition discriminate].
      destruct (present_items (times_bar m)) as [|it items];
        [simpl in H; intuition discriminate|].
      destruct H as [H|H]; [discriminate|].
      apply in_app_or in H as [H|H]; [|simpl in H; intuition discriminate].
      apply in_map_iff in H as (x & H & _). discriminate.
  - intros d k times Hd Hk Hs Hn.
    destruct (series_with_value_is_plotted tb m d k times Hd Hk Hs Hn)
      as (marker & color & linestyle & label & H).
    exists marker, color, linestyle, label.
    apply in_or_app. left. apply in_or_app. right. apply in_or_app. now left.
  - intros xs heights H. apply in_app_or in H as [H|H].
    + exfalso. apply in_app_or in H as [[H|[]]|H]; [discriminate|].
      apply in_app_or in H as [H|H]; [now apply (Q3 xs heights)|].
      simpl in H. intuition discriminate.
    + destruct H as [H|H]; [discriminate|].
      apply in_app_or in H as [H|H]; [|simpl in H; intuition discriminate].
      destruct (present_items (times_bar m)) as [|it items];
        [simpl in H; intuition discriminate|].
      destruct H as [H|H].
      * injection H as <- <-. repeat split. discriminate.
      * exfalso. apply in_app_or in H as [H|H];
          [|simpl in H; intuition discriminate].
        apply in_map_iff in H as (x & H & _). discriminate.
  - intros Hne. apply in_or_app. right. right. apply in_or_app. left.
    destruct (present_items (times_bar m)) as [|it items]; [contradiction|].
    now left.
  - rewrite !saved_figures_app, Q1.
    destruct (present_items (times_bar m)) as [|it items]; [reflexivity|].
    cbn [saved_figures app]. rewrite saved_figures_app.
    destruct (saved_figures_texts (map snd (it :: items))) as [T _].
    rewrite T. reflexivity.
  - rewrite !printed_app, Q2.
    destruct (present_items (times_bar m)) as [|it items]; [reflexivity|].
    cbn [printed app]. rewrite printed_app.
    destruct (saved_figures_texts (map snd (it :: items))) as [_ T].
    rewrite T. reflexivity.
Qed.

Lemma charts_drawn_from_present_values_witness :
  let sv := Demo.services Demo.two_done
              (put BUCKET_NAME "run_line_CPU_2x2x6_2/elapsed_time.txt" "0.75"
                 (put BUCKET_NAME "run_bar_PBE_MySystem/elapsed_time.txt" "2.5"
                      Demo.empty_store)) in
  let m := snd (collect_results sv scale_py boot) in
  let t := trace (snd (generate_plots scale_py m)) in
  fst (generate_plots scale_py m) = Ok tt
  /\ times_bar m = [("PBE", Some "2.5"); ("HSE06", None)]
  /\ In (EPlt (AxBar ["PBE"] ["2.5"])) t
  /\ saved_figures t = ["figure_a.png"; "figure_b.png"].
Proof.
  intros sv m t.
  destruct (charts_drawn_from_present_values scale_py m)
    as (H1 & events & H2 & _ & _ & _ & H6 & H7 & _).
  - apply collected_is_plottable.
    + repeat constructor; simpl; intuition discriminate.
    + repeat constructor; simpl; intuition discriminate.
    + simpl. lia.
  - split; [exact H1|]. split; [reflexivity|]. subst t. rewrite H2.
    split.
    + apply in_or_app. right. apply H6. discriminate.
    + rewrite saved_figures_app, H7. reflexivity.
Defined.

Section Closing.

Context {F : Type}.
Variable tb : Tables.

Lemma plots_saved (m : Machine F) :
  saved_figures (plots_events tb m)
  = "figure_a.png"
    :: match present_items (times_bar m) with
       | [] => []
       | _ :: _ => ["figure_b.png"]
       end.
Proof.
  unfold plots_events. rewrite figure_a_events_eq.
  rewrite !saved_figures_app.
  destruct (line_plots_quiet tb m) as (Q & _). rewrite Q.
  unfold figure_b_events.
  destruct (present_items (times_bar m)) as [|it items]; [reflexivity|].
  cbn [saved_figures app].
  change (saved_figures
            (EPlt (AxBar (map fst (it :: items)) (map snd (it :: items)))
             :: map (fun elapsed_time => EPlt (AxText elapsed_time))
                    (map snd (it :: items)) ++
             [EPlt (AxDecorate "Functional" "Time (hours)"
                      "VASP Performance: PBE vs HSE06");
              EPlt AxGrid; EPlt TightLayout;
              EPlt (Savefig "figure_b.png"); EPlt PltClose]))
    with (saved_figures
            (map (fun elapsed_time => EPlt (AxText elapsed_time))
                    (map snd (it :: items)) ++
             [EPlt (AxDecorate "Functional" "Time (hours)"
                      "VASP Performance: PBE vs HSE06");
              EPlt AxGrid; EPlt TightLayout;
              EPlt (Savefig "figure_b.png"); EPlt PltClose])).
  rewrite saved_figures_app.
  destruct (saved_figures_texts (map snd (it :: items))) as [-> _].
  reflexivity.
Qed.

Lemma plots_printed (m : Machine F) :
  printed (plots_events tb m)
  = match present_items (times_bar m) with
    | [] => ["Warning: No valid data available for bar plot"]
    | _ :: _ => []
    end
    ++ [ "Plots saved as figure_a.png and figure_b.png";
         (nl ++ "VASP scaling analysis completed successfully!")%string ].
Proof.
  unfold plots_events. rewrite figure_a_events_eq.
  rewrite !printed_app.
  destruct (line_plots_quiet tb m) as (_ & Q & _). rewrite Q.
  unfold figure_b_events.
  destruct (present_items (times_bar m)) as [|it items]; [reflexivity|].
  cbn [printed app].
  change (printed
            (EPlt (AxBar (map fst (it :: items)) (map snd (it :: items)))
             :: map (fun elapsed_time => EPlt (AxText elapsed_time))
                    (map snd (it :: items)) ++
             [EPlt (AxDecorate "Functional" "Time (hours)"
                      "VASP Performance: PBE vs HSE06");
              EPlt AxGrid; EPlt TightLayout;
              EPlt (Savefig "figure_b.png"); EPlt PltClose]))
    with (printed
            (map (fun elapsed_time => EPlt (AxText elapsed_time))
                    (map snd (it :: items)) ++
             [EPlt (AxDecorate "Functional" "Time (hours)"
                      "VASP Performance: PBE vs HSE06");
              EPlt AxGrid; EPlt TightLayout;
              EPlt (Savefig "figure_b.png"); EPlt PltClose])).
  rewrite printed_app.
  destruct (saved_figures_texts (map snd (it :: items))) as [_ ->].
  reflexivity.
Qed.

(** X17.  When no bar value is present, plotting still returns normally: it
    saves [figure_a.png] only, prints the bar-chart warning, and then prints
    that the plots were saved as [figure_a.png] and [figure_b.png] and that
    the analysis completed successfully. *)
Theorem closing_message_names_both_figures (m : Machine F) :
  plottable tb m ->
  present_items (times_bar m) = [] ->
  let m' := snd (generate_plots tb m) in
  fst (generate_plots tb m) = Ok tt
  /\ saved_figures (trace m') = saved_figures (trace m) ++ ["figure_a.png"]
  /\ printed (trace m')
     = printed (trace m)
       ++ [ "Warning: No valid data available for bar plot";
            "Plots saved as figure_a.png and figure_b.png";
            (nl ++ "VASP scaling analysis completed successfully!")%string ].
Proof.
  intros P B. cbv zeta.
  pose proof (generate_plots_ok tb m [] P) as G.
  rewrite extend_nil in G. rewrite G. cbn [fst snd extend trace app].
  rewrite saved_figures_app, printed_app, (plots_saved m), plots_printed, B.
  auto.
Qed.

End Closing.

Lemma closing_message_names_both_figures_witness :
  saved_figures (trace (snd (generate_plots scale_py Demo.nothing_collected)))
  = ["figure_a.png"].
Proof.
  destruct (closing_message_names_both_figures scale_py Demo.nothing_collected)
    as (_ & H & _).
  - split; [simpl; lia|].
    intros d k Hd Hk. simpl in Hd, Hk.
    destruct Hd as [<-|[]].
    destruct Hk as [<-|[<-|[<-|[]]]]; eexists; (split; [reflexivity | simpl; lia]).
  - reflexivity.
  - exact H.
Defined.

(** ** The whole run *)

Section WholeRun.

Context {F : Type}.
Variable sv : Services F.
Variable tb : Tables.

Lemma log_is_extend e (m : Machine F) : log e m = extend [e] m.
Proof. reflexivity. Qed.

Lemma main_accepted fuel :
  path_exists sv "POSCAR" = true ->
  Forall (accepted sv) (enumerate_from 0 (run_matrix tb)) ->
  main sv tb fuel boot
  = try_except (after_submit sv tb fuel) main_handler
      (all_submitted sv tb started).
Proof.
  intros Hp Ha. rewrite (main_started sv tb fuel Hp).
  unfold try_except, bind at 1.
  rewrite (submit_all_accepted sv tb started Ha). reflexivity.
Qed.

Lemma bars_collected (m : Machine F) :
  NoDup (functionals tb) ->
  present_items (times_bar (snd (collect_results sv tb m)))
  = bar_pairs sv (functionals tb).
Proof.
  intros Nf. destruct (collect_results_ok sv tb m) as (m' & E & _ & B & _).
  rewrite E. cbn [snd].
  rewrite B, (dict_comprehension_NoDup _ _ Nf), present_items_bars.
  apply present_bars_collected.
Qed.

(** X18.  Once the tracking loop has returned, nothing can stop [main]:
    with [POSCAR] present, every run accepted, no repeated device, density
    or functional and at most three densities, [main] returns normally
    whatever the bucket holds.  It leaves [job_names] empty, every series and
    every bar entry holds what the bucket yields for its run, and it saves
    [figure_a.png], and [figure_b.png] exactly when the bucket yields a
    value for some functional. *)
Theorem main_finishes_once_tracking_returns fuel (m1 : Machine F) :
  path_exists sv "POSCAR" = true ->
  Forall (accepted sv) (enumerate_from 0 (run_matrix tb)) ->
  NoDup (devices tb) -> NoDup (dict_keys (k_configs tb)) ->
  NoDup (functionals tb) ->
  List.length (k_configs tb) <= 3 ->
  wait_for_jobs sv fuel (all_submitted sv tb started) = (Ok tt, m1) ->
  exists mf t,
    main sv tb fuel boot = (Ok tt, mf)
    /\ trace mf = trace m1 ++ t
    /\ job_names mf = []
    /\ (forall d k,
          In d (devices tb) -> In k (dict_keys (k_configs tb)) ->
          series_of mf d k
          = Some (map (fun nodes =>
                         artifact_value sv (line_dir_name d k nodes))
                      (nodes_list tb)))
    /\ (forall f,
          In f (functionals tb) ->
          dict_get (times_bar mf) f
          = Some (artifact_value sv (bar_dir_name f)))
    /\ saved_figures t
       = "figure_a.png"
         :: match bar_pairs sv (functionals tb) with
            | [] => []
            | _ :: _ => ["figure_b.png"]
            end.
Proof.
  intros Hp Ha Nd Nk Nf Hk Hw.
  set (m2 := log (EPrint (nl ++ "All jobs completed. Collecting results...")) m1).
  set (mc := snd (collect_results sv tb m2)).
  exists (extend (EPrint (nl ++ "Generating plots...") :: plots_events tb mc) mc).
  exists (EPrint (nl ++ "All jobs completed. Collecting results...")
          :: flat_map (fetch_events sv) (collect_order tb)
          ++ EPrint (nl ++ "Generating plots...") :: plots_events tb mc).
  assert (J : job_names mc = []).
  { subst mc. destruct (collect_results_ok sv tb m2) as (m' & E & _ & _ & J).
    rewrite E. cbn [snd]. rewrite J. subst m2. cbn [job_names log].
    exact (wait_for_jobs_ok_empty sv fuel _ _ Hw). }
  split; [|split; [|split; [exact J|split; [|split]]]].
  - rewrite (main_accepted fuel Hp Ha).
    unfold try_except, after_submit.
    unfold bind at 1. rewrite Hw.
    unfold bind at 1. unfold print at 1, emit. fold m2.
    unfold bind at 1.
    pose proof (collected_is_plottable sv tb m2 Nd Nk Hk) as P. fold mc in P.
    destruct (collect_results_ok sv tb m2) as (m' & E & _).
    assert (Em : m' = mc) by (subst mc; now rewrite E).
    rewrite E, Em.
    unfold bind at 1. unfold print at 1, emit.
    rewrite log_is_extend, (generate_plots_ok tb mc _ P).
    reflexivity.
  - cbn [trace extend]. subst mc. rewrite collect_results_trace.
    subst m2. cbn [trace log]. rewrite <- !app_assoc. reflexivity.
  - intros d k Hd Hkey.
    change (series_of (extend (EPrint (nl ++ "Generating plots...")
                               :: plots_events tb mc) mc) d k)
      with (series_of mc d k).
    subst mc. now apply series_collected.
  - intros f Hf. cbn [times_bar extend]. subst mc.
    now apply times_bar_collected.
  - cbn [saved_figures].
    rewrite saved_figures_app.
    destruct (fetches_seen sv (collect_order tb)) as (_ & _ & _ & _ & ->).
    cbn [app saved_figures]. rewrite (plots_saved tb mc).
    subst mc. now rewrite bars_collected.
Qed.

End WholeRun.

Lemma main_finishes_once_tracking_returns_witness :
  let sv := Demo.services Demo.one_per_pass Demo.empty_store in
  fst (main sv scale_py 8 boot) = Ok tt.
Proof.
  intros sv.
  destruct (main_finishes_once_tracking_returns sv scale_py 8
              (snd (wait_for_jobs sv 8 (all_submitted sv scale_py started))))
    as (mf & t & H & _).
  - reflexivity.
  - repeat constructor; eexists; reflexivity.
  - repeat constructor; simpl; intuition discriminate.
  - repeat constructor; simpl; intuition discriminate.
  - repeat constructor; simpl; intuition discriminate.
  - simpl. lia.
  - vm_compute. reflexivity.
  - rewrite H. reflexivity.
Defined.
